(** * Velox <-> Arrow C data interface bridge (velox/vector/arrow/Bridge.cpp)

    A shallow embedding of the bridge between Velox types / flat vectors and
    the Arrow C data interface structs [ArrowSchema] and [ArrowArray],
    together with the properties of its export, import and release paths.

    Conventions of the embedding:
    - a [void f(T& out)] function of the source is a function
      [T -> T * Outcome unit]: it receives the contents of the struct it
      mutates and returns the contents at the point where it returns or
      throws, together with how it ended;
    - a typed pointer to a struct is an [option] (with [None] for [nullptr])
      of the struct it points to, so that a schema or an array with its
      children is a tree; raw [void*] buffer addresses are numbers, with
      [0] for [nullptr];
    - a function pointer is the name of the function it points to;
    - reading through a null pointer, or past the end of an array, is
      [Undefined]. *)

From Stdlib Require Import ZArith String Ascii List Lia.
From stdpp Require Import base tactics option list strings gmap.

Set Warnings "-register-all".

Local Open Scope string_scope.
Local Open Scope list_scope.

(** ** Exceptions and outcomes *)

(** Modelled from the spec: what raised an exception
    (velox/common/base/Exceptions.h is not part of the sources at hand).
    [VELOX_NYI] raises the not-implemented (unsupported feature) error; the
    [VELOX_CHECK_*] macros raise a runtime error; [VELOX_USER_CHECK_*] and
    [VELOX_USER_FAIL] raise a user error; all of these are
    [VeloxException]s.  [STD_LENGTH_ERROR] is the [std::length_error] of the
    standard library, which is none. *)
Inductive ThrowMacro :=
| VELOX_NYI | VELOX_CHECK | VELOX_USER_CHECK | VELOX_USER_FAIL | STD_LENGTH_ERROR.

(** An exception carries what raised it and the message literal of the
    throw site (for a check without a message, the checked expression).  The
    values substituted for the [{}] placeholders are not modelled. *)
Record Exception := mkException { macro : ThrowMacro; message : string }.

(** What a handler [catch (const VeloxException&)] catches. *)
Definition isVeloxException (e : Exception) : bool :=
  match macro e with
  | STD_LENGTH_ERROR => false
  | _ => true
  end.

Global Instance ThrowMacro_eq_dec : EqDecision ThrowMacro.
Proof. solve_decision. Defined.

Global Instance Exception_eq_dec : EqDecision Exception.
Proof. solve_decision. Defined.

Inductive Outcome (A : Type) : Type :=
| Ok (a : A)
| Throw (e : Exception)
| Undefined.

Arguments Ok {A} a.
Arguments Throw {A} e.
Arguments Undefined {A}.

Definition bind {A B : Type} (m : Outcome A) (k : A -> Outcome B) : Outcome B :=
  match m with
  | Ok a => k a
  | Throw e => Throw e
  | Undefined => Undefined
  end.

Notation "'do' x <- m ; k" := (bind m (fun x => k))
  (at level 20, x name, m at level 100, k at level 200, only parsing).
Notation "'check' b 'orelse' e ; k" := (if b then k else Throw e)
  (at level 20, b at level 100, e at level 100, k at level 200, only parsing).

Definition isOk {A : Type} (m : Outcome A) : bool :=
  match m with Ok _ => true | _ => false end.

Definition isNotImplemented {A : Type} (m : Outcome A) : Prop :=
  exists msg, m = Throw (mkException VELOX_NYI msg).

(** ** The Velox type tree *)

(** Modelled from the spec: the kinds of the type enumeration
    (velox/type/Type.h is not part of the sources at hand), with the names
    that the bridge uses for them. *)
Module TypeKind.
Inductive t :=
| BOOLEAN | TINYINT | SMALLINT | INTEGER | BIGINT | REAL | DOUBLE
| VARCHAR | VARBINARY | TIMESTAMP | DATE
| ARRAY | MAP | ROW
| UNKNOWN | OPAQUE.

Global Instance eq_dec : EqDecision t.
Proof. solve_decision. Defined.
End TypeKind.

(** Modelled from the spec: the type descriptor (velox/type/Type.h is not
    part of the sources at hand).  A type is one of the scalar kinds, an
    array with one child, a map with two children, or a row with an ordered
    sequence of named children.  [UNKNOWN] and [OPAQUE] are the leaf kinds of
    the enumeration that the bridge has no format for; they reach the
    [default] branch of [exportArrowFormatStr]. *)
Inductive TypePtr :=
| BOOLEAN | TINYINT | SMALLINT | INTEGER | BIGINT | REAL | DOUBLE
| VARCHAR | VARBINARY | TIMESTAMP | DATE
| ARRAY (elementType : TypePtr)
| MAP (keyType valueType : TypePtr)
| ROW (fields : list (string * TypePtr))
| UNKNOWN | OPAQUE.

Definition kind (type : TypePtr) : TypeKind.t :=
  match type with
  | BOOLEAN => TypeKind.BOOLEAN
  | TINYINT => TypeKind.TINYINT
  | SMALLINT => TypeKind.SMALLINT
  | INTEGER => TypeKind.INTEGER
  | BIGINT => TypeKind.BIGINT
  | REAL => TypeKind.REAL
  | DOUBLE => TypeKind.DOUBLE
  | VARCHAR => TypeKind.VARCHAR
  | VARBINARY => TypeKind.VARBINARY
  | TIMESTAMP => TypeKind.TIMESTAMP
  | DATE => TypeKind.DATE
  | ARRAY _ => TypeKind.ARRAY
  | MAP _ _ => TypeKind.MAP
  | ROW _ => TypeKind.ROW
  | UNKNOWN => TypeKind.UNKNOWN
  | OPAQUE => TypeKind.OPAQUE
  end.

(** [type->size()] and [type->childAt(i)]. *)
Definition childTypes (type : TypePtr) : list TypePtr :=
  match type with
  | ARRAY e => [e]
  | MAP k v => [k; v]
  | ROW fields => fields.*2
  | _ => []
  end.

Definition size (type : TypePtr) : nat := length (childTypes type).

Definition childAt (type : TypePtr) (i : nat) : option TypePtr := childTypes type !! i.

(** [std::dynamic_pointer_cast<const RowType>(type)]: the row type when
    [type] is one, a null pointer otherwise. *)
Definition asRowType (type : TypePtr) : option (list (string * TypePtr)) :=
  match type with
  | ROW fields => Some fields
  | _ => None
  end.

(** [rowType->nameOf(i)], for [i] below the number of fields. *)
Definition nameOf (fields : list (string * TypePtr)) (i : nat) : string :=
  default "" (fst <$> fields !! i).

(** Modelled from the spec: [type->isPrimitiveType()], true of the scalar
    kinds and false of the composites [ARRAY], [MAP] and [ROW] (and of
    [OPAQUE]). *)
Definition isPrimitiveType (type : TypePtr) : bool :=
  match type with
  | ARRAY _ | MAP _ _ | ROW _ | OPAQUE => false
  | _ => true
  end.

(** ** C strings *)

(** The characters of a [std::string] seen through [data()] as a
    NUL-terminated [const char*]: everything before the first NUL. *)
Fixpoint c_str (s : string) : string :=
  match s with
  | EmptyString => EmptyString
  | String c s' => if Ascii.eqb c "000"%char then EmptyString else String c (c_str s')
  end.

(** [format[i]] on a NUL-terminated string: the terminator is read at the
    end of the characters. *)
Definition charAt (format : string) (i : nat) : ascii :=
  default "000"%char (String.get i format).

Definition isChar (c : ascii) (lit : string) : bool :=
  match lit with
  | String l EmptyString => Ascii.eqb c l
  | _ => false
  end.

(** ** The Arrow C data interface structs *)

(** The integer members of the structs are [int64_t]; the embedding holds
    their values in [Z].  Converting an [int64_t] to [size_t] leaves a
    non-negative value as it is and wraps a negative one around. *)
Definition to_size_t (z : Z) : Z := if (z <? 0)%Z then (z + 2 ^ 64)%Z else z.

(** A raw [const void*]; [nullptr] is the address 0. *)
Definition ptr := N.
Definition nullptr : ptr := 0%N.

(** The [release] member of a struct: the bridge's own release function
    ([bridgeSchemaRelease] in an [ArrowSchema], [bridgeRelease] in an
    [ArrowArray]), or a callback of a foreign producer, known by its
    address. *)
Inductive ReleaseCallback :=
| BridgeCallback
| ForeignCallback (address : N).

Global Instance ReleaseCallback_eq_dec : EqDecision ReleaseCallback.
Proof. solve_decision. Defined.

(** [VeloxToArrowSchemaBridgeHolder], as far as it is not the children
    themselves: [childrenOwned] are the child structs, which the embedding
    keeps in the [children] of the node whose holder owns them, and
    [childrenRaw] is the array that [children] points to.  What is left is
    the number of slots the two vectors were resized to and [rowType]. *)
Record VeloxToArrowSchemaBridgeHolder := mkSchemaHolder {
  childrenSlots : nat;
  rowType : option (list (string * TypePtr))
}.

(** What [private_data] points to: a holder of the bridge, or the data of a
    foreign producer. *)
Inductive SchemaPrivateData :=
| SchemaHolder (holder : VeloxToArrowSchemaBridgeHolder)
| SchemaForeignData (address : N).

(** Modelled from the spec: the nullability bit of [flags], with the value
    that the header of the Arrow C data interface gives to
    [ARROW_FLAG_NULLABLE]. *)
Definition ARROW_FLAG_NULLABLE : Z := 2.

(** Modelled from the spec: the schema struct of the Arrow C data interface
    (its header is not part of the sources at hand), with the members that
    the bridge reads and writes. *)
Module ArrowSchema.
Inductive t := mk {
  format : option string;
  name : option string;
  metadata : option string;
  flags : Z;
  n_children : Z;
  children : option (list (option t));
  dictionary : option t;
  release : option ReleaseCallback;
  private_data : option SchemaPrivateData
}.

Definition set_format v (s : t) :=
  mk v (name s) (metadata s) (flags s) (n_children s) (children s) (dictionary s) (release s) (private_data s).
Definition set_name v (s : t) :=
  mk (format s) v (metadata s) (flags s) (n_children s) (children s) (dictionary s) (release s) (private_data s).
Definition set_metadata v (s : t) :=
  mk (format s) (name s) v (flags s) (n_children s) (children s) (dictionary s) (release s) (private_data s).
Definition set_flags v (s : t) :=
  mk (format s) (name s) (metadata s) v (n_children s) (children s) (dictionary s) (release s) (private_data s).
Definition set_n_children v (s : t) :=
  mk (format s) (name s) (metadata s) (flags s) v (children s) (dictionary s) (release s) (private_data s).
Definition set_children v (s : t) :=
  mk (format s) (name s) (metadata s) (flags s) (n_children s) v (dictionary s) (release s) (private_data s).
Definition set_dictionary v (s : t) :=
  mk (format s) (name s) (metadata s) (flags s) (n_children s) (children s) v (release s) (private_data s).
Definition set_release v (s : t) :=
  mk (format s) (name s) (metadata s) (flags s) (n_children s) (children s) (dictionary s) v (private_data s).
Definition set_private_data v (s : t) :=
  mk (format s) (name s) (metadata s) (flags s) (n_children s) (children s) (dictionary s) (release s) v.

(** [std::make_unique<ArrowSchema>()] value-initialises the struct: every
    member is zero. *)
Definition zero : t := mk None None None 0 0 None None None None.

(** [s.children[i]]: the pointer stored in slot [i] of the array that
    [children] points to. *)
Definition child (s : t) (i : nat) : Outcome (option t) :=
  match children s with
  | None => Undefined
  | Some slots =>
      match slots !! i with
      | Some c => Ok c
      | None => Undefined
      end
  end.

(** [s.children[i] = c]. *)
Definition set_child (i : nat) (c : option t) (s : t) : t :=
  set_children (insert i c <$> children s) s.

(** The released state of a node. *)
Definition released (s : t) : Prop := release s = None /\ private_data s = None.
End ArrowSchema.

(** ** Export of a type: the format string *)

(** Returns the Arrow C data interface format type for a given Velox type. *)
Definition exportArrowFormatStr (type : TypePtr) : Outcome string :=
  match kind type with
  (* Scalar types. *)
  | TypeKind.BOOLEAN => Ok "b"
  | TypeKind.TINYINT => Ok "c"
  | TypeKind.SMALLINT => Ok "s"
  | TypeKind.INTEGER => Ok "i"
  | TypeKind.BIGINT => Ok "l"
  | TypeKind.REAL => Ok "f"
  | TypeKind.DOUBLE => Ok "g"
  | TypeKind.VARCHAR => Ok "u"
  | TypeKind.VARBINARY => Ok "z"
  | TypeKind.TIMESTAMP => Ok "ttn"
  | TypeKind.DATE => Ok "tdD"
  (* Complex/nested types. *)
  | TypeKind.ARRAY => Ok "+L"
  | TypeKind.MAP => Ok "+m"
  | TypeKind.ROW => Ok "+s"
  | _ => Throw (mkException VELOX_NYI "Unable to map type '{}' to ArrowSchema.")
  end.

(** ** Release, export and import of schemas *)

Section Schema.
Import ArrowSchema.

(** What the release callback of a foreign producer, at the given address,
    does to the node it is called on. *)
Variable foreignSchemaRelease : N -> ArrowSchema.t -> ArrowSchema.t.

(** [node->release(node)] where [release] holds the callback [cb];
    [bridge] is what [bridgeSchemaRelease] does. *)
Definition invokeSchemaRelease (bridge : ArrowSchema.t -> ArrowSchema.t * Outcome unit)
    (cb : ReleaseCallback) (node : ArrowSchema.t) : ArrowSchema.t * Outcome unit :=
  match cb with
  | BridgeCallback => bridge node
  | ForeignCallback address => (foreignSchemaRelease address node, Ok tt)
  end.

(** The body shared by the loop over the children and by the dictionary:
    [if (child != nullptr && child->release != nullptr) {
       child->release(child); VELOX_CHECK_NULL(child->release); }] *)
Definition releaseSchemaIfLive (bridge : ArrowSchema.t -> ArrowSchema.t * Outcome unit)
    (child : option ArrowSchema.t) : option ArrowSchema.t * Outcome unit :=
  match child with
  | None => (None, Ok tt)
  | Some c =>
      match release c with
      | None => (Some c, Ok tt)
      | Some cb =>
          let '(c', r) := invokeSchemaRelease bridge cb c in
          (Some c',
           do _ <- r;
           check bool_decide (release c' = None)
             orelse mkException VELOX_CHECK "child->release";
           Ok tt)
      end
  end.

(** [for (int64_t i = 0; i < n_children; ++i)] over the slots of the
    children array, [todo] being the iterations that remain. *)
(** [if (dict != nullptr && dict->release != nullptr) {
       dict->release(dict); VELOX_CHECK_NULL(dict->release); }] *)
Definition releaseSchemaDictionary (bridge : ArrowSchema.t -> ArrowSchema.t * Outcome unit)
    (dict : option ArrowSchema.t) : option ArrowSchema.t * Outcome unit :=
  match dict with
  | None => (None, Ok tt)
  | Some d =>
      match release d with
      | None => (Some d, Ok tt)
      | Some cb =>
          let '(d', r) := invokeSchemaRelease bridge cb d in
          (Some d',
           do _ <- r;
           check bool_decide (release d' = None)
             orelse mkException VELOX_CHECK "dict->release";
           Ok tt)
      end
  end.

(** [delete static_cast<VeloxToArrowSchemaBridgeHolder*>(private_data)]:
    deleting a null pointer does nothing, deleting the holder of the bridge
    destroys it, and deleting the data of another producer through the type
    of the holder is undefined behaviour. *)
Definition deleteSchemaHolder (data : option SchemaPrivateData) : Outcome unit :=
  match data with
  | None | Some (SchemaHolder _) => Ok tt
  | Some (SchemaForeignData _) => Undefined
  end.

Fixpoint releaseSchemaChildren (releaseOne : option ArrowSchema.t -> option ArrowSchema.t * Outcome unit)
    (todo : Z) (slots : list (option ArrowSchema.t)) : list (option ArrowSchema.t) * Outcome unit :=
  if (todo <=? 0)%Z then (slots, Ok tt)
  else
    match slots with
    | [] => ([], Undefined)
    | child :: rest =>
        let '(child', r) := releaseOne child in
        match r with
        | Ok _ =>
            let '(rest', r') := releaseSchemaChildren releaseOne (todo - 1) rest in
            (child' :: rest', r')
        | _ => (child' :: rest, r)
        end
    end.

(** Release function for ArrowSchema, on a non-null [arrowSchema].  It
    recurses down to all children, and sets release and private_data to null
    to signal that the schema has been released.  The child structs, which
    the holder owns, go away with the holder; the embedding keeps under
    [children] the state in which the release left them. *)
Fixpoint bridgeSchemaRelease (arrowSchema : ArrowSchema.t) : ArrowSchema.t * Outcome unit :=
  match release arrowSchema with
  | None => (arrowSchema, Ok tt)
  | Some _ =>
      (* Recurse down to release children arrays. *)
      let '(slots, r) :=
        match children arrowSchema with
        | Some slots =>
            let '(slots', r) :=
              releaseSchemaChildren (releaseSchemaIfLive bridgeSchemaRelease)
                (n_children arrowSchema) slots in
            (Some slots', r)
        | None => (None, if (n_children arrowSchema <=? 0)%Z then Ok tt else Undefined)
        end in
      let arrowSchema1 := set_children slots arrowSchema in
      match r with
      | Ok _ =>
          (* Release dictionary. *)
          let '(dict, r') :=
            releaseSchemaDictionary bridgeSchemaRelease (dictionary arrowSchema) in
          let arrowSchema2 := set_dictionary dict arrowSchema1 in
          match r' with
          | Ok _ =>
              (* Destroy the current holder. *)
              match deleteSchemaHolder (private_data arrowSchema) with
              | Ok _ =>
                  (* Finally, mark the schema as released. *)
                  (set_private_data None (set_release None arrowSchema2), Ok tt)
              | r'' => (arrowSchema2, r'')
              end
          | _ => (arrowSchema2, r')
          end
      | _ => (arrowSchema1, r)
      end
  end.

(** [bridgeSchemaRelease] on a pointer that may be null. *)
Definition bridgeSchemaRelease_ptr (arrowSchema : option ArrowSchema.t)
    : option ArrowSchema.t * Outcome unit :=
  match arrowSchema with
  | None => (None, Ok tt)
  | Some s => let '(s', r) := bridgeSchemaRelease s in (Some s', r)
  end.

(** [node->release(node)] through a child pointer that the caller does not
    test: a null pointer, or a null callback, is undefined behaviour. *)
Definition callSchemaRelease (node : option ArrowSchema.t)
    : option ArrowSchema.t * Outcome unit :=
  match node with
  | None => (None, Undefined)
  | Some c =>
      match release c with
      | None => (Some c, Undefined)
      | Some cb =>
          let '(c', r) := invokeSchemaRelease bridgeSchemaRelease cb c in
          (Some c', r)
      end
  end.

(** The handler of the export loop:
    [for (size_t j = 0; j < i; ++j)
       arrowSchema.children[j]->release(arrowSchema.children[j]);] *)
Fixpoint releaseBuiltChildren (i : nat) (slots : list (option ArrowSchema.t))
    : list (option ArrowSchema.t) * Outcome unit :=
  match i with
  | O => (slots, Ok tt)
  | S i' =>
      match slots with
      | [] => ([], Undefined)
      | child :: rest =>
          let '(child', r) := callSchemaRelease child in
          match r with
          | Ok _ =>
              let '(rest', r') := releaseBuiltChildren i' rest in
              (child' :: rest', r')
          | _ => (child' :: rest, r)
          end
      end
  end.

(** The loop [for (size_t i = 0; i < numChildren; ++i)] of the export.
    [built] holds, for the children from [i] on, what the recursive call
    [exportToArrow(type->childAt(i), *currentSchema)] leaves in the fresh
    [currentSchema] and how it ends; [holderRowType] is
    [bridgeHolder->rowType]. *)
Fixpoint exportChildren (holderRowType : option (list (string * TypePtr)))
    (built : list (ArrowSchema.t * Outcome unit)) (i : nat)
    (arrowSchema : ArrowSchema.t) : ArrowSchema.t * Outcome unit :=
  match built with
  | [] => (arrowSchema, Ok tt)
  | (currentSchema, r) :: rest =>
      match r with
      | Ok _ =>
          let currentSchema :=
            match holderRowType with
            | Some row => set_name (Some (c_str (nameOf row i))) currentSchema
            | None => currentSchema
            end in
          exportChildren holderRowType rest (S i)
            (set_child i (Some currentSchema) arrowSchema)
      | Throw e =>
          if isVeloxException e then
            (* Release any children that have already been built before
               re-throwing the exception back to the client. *)
            match children arrowSchema with
            | None => (arrowSchema, match i with O => Throw e | S _ => Undefined end)
            | Some slots =>
                let '(slots', r') := releaseBuiltChildren i slots in
                (set_children (Some slots') arrowSchema,
                 match r' with Ok _ => Throw e | _ => r' end)
            end
          else (arrowSchema, Throw e)
      | Undefined => (arrowSchema, Undefined)
      end
  end.

(** The body of [exportToArrow(const TypePtr&, ArrowSchema&)], given the
    outcomes [built] of the recursive calls on the children of [type]. *)
Definition exportTypeNode (type : TypePtr) (built : list (ArrowSchema.t * Outcome unit))
    (arrowSchema : ArrowSchema.t) : ArrowSchema.t * Outcome unit :=
  match exportArrowFormatStr type with
  | Ok formatStr =>
      let arrowSchema := set_format (Some formatStr) arrowSchema in
      let arrowSchema := set_name None arrowSchema in
      (* No additional metadata or support for dictionaries for now. *)
      let arrowSchema := set_metadata None arrowSchema in
      let arrowSchema := set_dictionary None arrowSchema in
      (* All supported types are semantically nullable. *)
      let arrowSchema := set_flags ARROW_FLAG_NULLABLE arrowSchema in
      let numChildren := size type in
      let '(bridgeHolder, (arrowSchema, r)) :=
        if (0 <? numChildren)%nat then
          let holderRowType :=
            if bool_decide (kind type = TypeKind.ROW) then asRowType type else None in
          let arrowSchema := set_children (Some (replicate numChildren None)) arrowSchema in
          let arrowSchema := set_n_children (Z.of_nat numChildren) arrowSchema in
          (mkSchemaHolder numChildren holderRowType,
           exportChildren holderRowType built 0 arrowSchema)
        else
          (mkSchemaHolder 0 None,
           (set_children None (set_n_children 0 arrowSchema), Ok tt)) in
      match r with
      | Ok _ =>
          (* Set release callback. *)
          let arrowSchema := set_release (Some BridgeCallback) arrowSchema in
          (set_private_data (Some (SchemaHolder bridgeHolder)) arrowSchema, Ok tt)
      | _ => (arrowSchema, r)
      end
  | Throw e => (arrowSchema, Throw e)
  | Undefined => (arrowSchema, Undefined)
  end.

(** [exportToArrow(const TypePtr& type, ArrowSchema& arrowSchema)].  Each
    child is exported into a zero-initialised [ArrowSchema]; the loop of
    [exportTypeNode] looks at the outcomes in order and stops at the first
    one that throws. *)
Fixpoint exportToArrow_type (type : TypePtr) (arrowSchema : ArrowSchema.t) {struct type}
    : ArrowSchema.t * Outcome unit :=
  exportTypeNode type
    match type with
    | ARRAY e => [exportToArrow_type e zero]
    | MAP k v => [exportToArrow_type k zero; exportToArrow_type v zero]
    | ROW fields => map (fun f => exportToArrow_type f.2 zero) fields
    | _ => []
    end
    arrowSchema.

Definition importFailure {A : Type} (format : string) : Outcome A :=
  Throw (mkException VELOX_USER_FAIL
           ("Unable to convert '" ++ format ++ "' ArrowSchema format type to Velox.")).

(** The loop of the struct case of [importFromArrow], which collects the
    child types and names: [for (size_t i = 0; i < n_children; ++i)] over
    the slots of the children array, [todo] being the iterations that remain
    and [import] what [importFromArrow] does on a child. *)
Fixpoint importChildren (import : ArrowSchema.t -> Outcome TypePtr)
    (todo : Z) (slots : list (option ArrowSchema.t)) : Outcome (list (string * TypePtr)) :=
  if (todo <=? 0)%Z then Ok []
  else
    match slots with
    | [] => Undefined
    | None :: _ => Throw (mkException VELOX_CHECK "arrowSchema.children[i]")
    | Some c :: rest =>
        do childType <- import c;
        let childName := default "" (name c) in
        do fields <- importChildren import (todo - 1)%Z rest;
        Ok ((childName, childType) :: fields)
    end.

(** [importFromArrow(const ArrowSchema& arrowSchema)]. *)
Fixpoint importFromArrow (arrowSchema : ArrowSchema.t) : Outcome TypePtr :=
  match format arrowSchema with
  | None => Throw (mkException VELOX_CHECK "format")
  | Some format =>
      let c0 := charAt format 0 in
      if isChar c0 "b" then Ok BOOLEAN
      else if isChar c0 "c" then Ok TINYINT
      else if isChar c0 "s" then Ok SMALLINT
      else if isChar c0 "i" then Ok INTEGER
      else if isChar c0 "l" then Ok BIGINT
      else if isChar c0 "f" then Ok REAL
      else if isChar c0 "g" then Ok DOUBLE
      (* Map both utf-8 and large utf-8 string to varchar. *)
      else if isChar c0 "u" || isChar c0 "U" then Ok VARCHAR
      (* Same for binary. *)
      else if isChar c0 "z" || isChar c0 "Z" then Ok VARBINARY
      else if isChar c0 "t" then
        (* temporal types. *)
        if isChar (charAt format 1) "t" && isChar (charAt format 2) "n" then Ok TIMESTAMP
        else if isChar (charAt format 1) "d" && isChar (charAt format 2) "D" then Ok DATE
        else importFailure format
      else if isChar c0 "+" then
        (* Complex types. *)
        let c1 := charAt format 1 in
        if isChar c1 "L" then
          (* Array/list. *)
          check (n_children arrowSchema =? 1)%Z
            orelse mkException VELOX_CHECK "arrowSchema.n_children == 1";
          match children arrowSchema with
          | Some (child0 :: _) =>
              match child0 with
              | None => Throw (mkException VELOX_CHECK "arrowSchema.children[0]")
              | Some c => do elementType <- importFromArrow c; Ok (ARRAY elementType)
              end
          | _ => Undefined
          end
        else if isChar c1 "m" then
          (* Map. *)
          check (n_children arrowSchema =? 2)%Z
            orelse mkException VELOX_CHECK "arrowSchema.n_children == 2";
          match children arrowSchema with
          | Some (child0 :: slots) =>
              match child0 with
              | None => Throw (mkException VELOX_CHECK "arrowSchema.children[0]")
              | Some k =>
                  match slots with
                  | child1 :: _ =>
                      match child1 with
                      | None => Throw (mkException VELOX_CHECK "arrowSchema.children[1]")
                      | Some v =>
                          (* The two imports are the arguments of one call: the
                             language leaves their order to the compiler, and
                             the build evaluates the last argument first. *)
                          do valueType <- importFromArrow v;
                          do keyType <- importFromArrow k;
                          Ok (MAP keyType valueType)
                      end
                  | [] => Undefined
                  end
              end
          | _ => Undefined
          end
        else if isChar c1 "s" then
          (* Struct/rows.  [reserve(n_children)]: a negative count converts
             to a size_t that is past the [max_size()] of a vector.  A count
             that is not negative is taken to be one that the children array
             has, for which the two reserves succeed.  In the loop
             [size_t i] is compared with [n_children] as unsigned. *)
          check (0 <=? n_children arrowSchema)%Z
            orelse mkException STD_LENGTH_ERROR "vector::reserve";
          do fields <-
            match children arrowSchema with
            | Some slots =>
                importChildren importFromArrow (to_size_t (n_children arrowSchema)) slots
            | None => if (to_size_t (n_children arrowSchema) <=? 0)%Z then Ok [] else Undefined
            end;
          Ok (ROW fields)
        else importFailure format
      else importFailure format
  end.
End Schema.

(** ** The shape of an exported schema *)

(** A foreign release callback that follows the Arrow contract on a node
    without children: it marks the node as released. *)
Definition compliantSchemaRelease (address : N) (s : ArrowSchema.t) : ArrowSchema.t :=
  ArrowSchema.set_private_data None (ArrowSchema.set_release None s).

(** The scalar kinds that have a format string. *)
Definition isSupportedScalar (type : TypePtr) : bool :=
  match type with
  | BOOLEAN | TINYINT | SMALLINT | INTEGER | BIGINT | REAL | DOUBLE
  | VARCHAR | VARBINARY | TIMESTAMP | DATE => true
  | _ => false
  end.

(** The kinds of the enumeration that the schema exporter has a format for:
    the scalar kinds and the composites array, map and row. *)
Definition supportedKind (k : TypeKind.t) : bool :=
  match k with
  | TypeKind.UNKNOWN | TypeKind.OPAQUE => false
  | _ => true
  end.

(** A type all of whose nodes are of a supported kind. *)
Fixpoint exportable (type : TypePtr) : bool :=
  match type with
  | ARRAY e => exportable e
  | MAP k v => exportable k && exportable v
  | ROW fields => forallb (fun f => exportable f.2) fields
  | UNKNOWN | OPAQUE => false
  | _ => true
  end.

(** A name without a NUL character. *)
Definition nulFree (s : string) : Prop := c_str s = s.

(** The type whose field names are cut at their first NUL character. *)
Fixpoint cNamed (type : TypePtr) : TypePtr :=
  match type with
  | ARRAY e => ARRAY (cNamed e)
  | MAP k v => MAP (cNamed k) (cNamed v)
  | ROW fields => ROW (map (fun f => (c_str f.1, cNamed f.2)) fields)
  | t => t
  end.

(** The format string of a supported kind. *)
Definition formatOf (type : TypePtr) : option string :=
  match exportArrowFormatStr type with
  | Ok f => Some f
  | _ => None
  end.

(** The node that a successful export of [type] builds over the child
    slots [slots], [nm] being the name that the parent gives to the node. *)
Definition exportedNode (nm : option string) (type : TypePtr)
    (slots : list (option ArrowSchema.t)) : ArrowSchema.t :=
  let numChildren := length slots in
  ArrowSchema.mk (formatOf type) nm None ARROW_FLAG_NULLABLE (Z.of_nat numChildren)
    (if (0 <? numChildren)%nat then Some slots else None) None (Some BridgeCallback)
    (Some (SchemaHolder
       (if (0 <? numChildren)%nat then mkSchemaHolder numChildren (asRowType type)
        else mkSchemaHolder 0 None))).

(** The tree that a successful export of [type] builds. *)
Fixpoint schemaOf (nm : option string) (type : TypePtr) : ArrowSchema.t :=
  exportedNode nm type
    match type with
    | ARRAY e => [Some (schemaOf None e)]
    | MAP k v => [Some (schemaOf None k); Some (schemaOf None v)]
    | ROW fields => map (fun f => Some (schemaOf (Some (c_str f.1)) f.2)) fields
    | _ => []
    end.

(** ** Shared ownership of foreign nodes, buffers and vectors *)

(** A [std::shared_ptr]: null, or a reference to a control block of the
    store, known by its key. *)
Definition shared_ptr := option nat.

(** Optionally, holds shared_ptrs pointing to the ArrowArray object that
    holds the buffer and the ArrowSchema object that describes the
    ArrowArray. *)
Record BufferViewReleaser := mkReleaser {
  schemaReleaser_ : shared_ptr;
  arrayReleaser_ : shared_ptr
}.

(** The default constructor: [BufferViewReleaser(nullptr, nullptr)]. *)
Definition kViewerReleaser : BufferViewReleaser := mkReleaser None None.

(** Modelled from the spec: a buffer view (velox/buffer/Buffer.h is not part
    of the sources at hand): a read-only span over foreign-owned memory plus
    a releaser.  Nothing is copied: the view holds the address it was
    created on. *)
Record Buffer := mkBufferView {
  buffer_data : ptr;
  buffer_size : Z;
  buffer_releaser : BufferViewReleaser
}.

(** A [BufferPtr] is null or points to a buffer. *)
Definition BufferPtr := option Buffer.

(** Modelled from the spec: [BufferView<BufferViewReleaser>::create]. *)
Definition BufferView_create (data : ptr) (length : Z) (releaser : BufferViewReleaser) : BufferPtr :=
  Some (mkBufferView data length releaser).

Module VectorEncoding.
Inductive Simple :=
| BIASED | CONSTANT | DICTIONARY | FLAT | SEQUENCE | ROW | MAP | ARRAY | LAZY | FUNCTION.

Global Instance eq_dec : EqDecision Simple.
Proof. solve_decision. Defined.
End VectorEncoding.

(** Modelled from the spec: the columnar vector (velox/vector/BaseVector.h
    and FlatVector.h are not part of the sources at hand): a type, a length,
    an optional null-bitmap buffer, the values buffer of the flat encoding,
    an encoding tag and the cached null count, with the observers that the
    bridge calls. *)
Module BaseVector.
Record t := mk {
  pool : N;
  type : TypePtr;
  encoding : VectorEncoding.Simple;
  nulls : BufferPtr;
  length : Z;
  values : BufferPtr;
  nullCount : option Z
}.

Definition typeKind (v : t) : TypeKind.t := kind (type v).
Definition size (v : t) : Z := length v.
Definition getNullCount (v : t) : option Z := nullCount v.

(** The raw null-bitmap pointer, null when the vector has no nulls buffer. *)
Definition rawNulls (v : t) : ptr :=
  match nulls v with
  | Some b => buffer_data b
  | None => nullptr
  end.

(** The raw value-storage pointer. *)
Definition valuesAsVoid (v : t) : ptr :=
  match values v with
  | Some b => buffer_data b
  | None => nullptr
  end.
End BaseVector.

Definition VectorPtr := BaseVector.t.

(** TODO of the source: the initial supported conversions only use one
    buffer for nulls and one for value. *)
Definition kMaxBuffers : nat := 2.

(** [VeloxToArrowBridgeHolder]: the vector being bridged.  Its [buffers]
    array is what the [buffers] member of the node points to, and the
    embedding keeps its contents there. *)
Record VeloxToArrowBridgeHolder := mkArrayHolder {
  holder_vector : VectorPtr
}.

Inductive ArrayPrivateData :=
| ArrayHolder (holder : VeloxToArrowBridgeHolder)
| ArrayForeignData (address : N).

(** Modelled from the spec: the array-data struct of the Arrow C data
    interface (its header is not part of the sources at hand).  [buffers] is
    the array of raw pointers that the member points to, [None] when the
    member is null. *)
Module ArrowArray.
Inductive t := mk {
  length : Z;
  null_count : Z;
  offset : Z;
  n_buffers : Z;
  n_children : Z;
  buffers : option (list ptr);
  children : option (list (option t));
  dictionary : option t;
  release : option ReleaseCallback;
  private_data : option ArrayPrivateData
}.

Definition set_length v (a : t) :=
  mk v (null_count a) (offset a) (n_buffers a) (n_children a) (buffers a) (children a) (dictionary a) (release a) (private_data a).
Definition set_null_count v (a : t) :=
  mk (length a) v (offset a) (n_buffers a) (n_children a) (buffers a) (children a) (dictionary a) (release a) (private_data a).
Definition set_offset v (a : t) :=
  mk (length a) (null_count a) v (n_buffers a) (n_children a) (buffers a) (children a) (dictionary a) (release a) (private_data a).
Definition set_n_buffers v (a : t) :=
  mk (length a) (null_count a) (offset a) v (n_children a) (buffers a) (children a) (dictionary a) (release a) (private_data a).
Definition set_n_children v (a : t) :=
  mk (length a) (null_count a) (offset a) (n_buffers a) v (buffers a) (children a) (dictionary a) (release a) (private_data a).
Definition set_buffers v (a : t) :=
  mk (length a) (null_count a) (offset a) (n_buffers a) (n_children a) v (children a) (dictionary a) (release a) (private_data a).
Definition set_children v (a : t) :=
  mk (length a) (null_count a) (offset a) (n_buffers a) (n_children a) (buffers a) v (dictionary a) (release a) (private_data a).
Definition set_dictionary v (a : t) :=
  mk (length a) (null_count a) (offset a) (n_buffers a) (n_children a) (buffers a) (children a) v (release a) (private_data a).
Definition set_release v (a : t) :=
  mk (length a) (null_count a) (offset a) (n_buffers a) (n_children a) (buffers a) (children a) (dictionary a) v (private_data a).
Definition set_private_data v (a : t) :=
  mk (length a) (null_count a) (offset a) (n_buffers a) (n_children a) (buffers a) (children a) (dictionary a) (release a) v.

(** [a.buffers[i]]. *)
Definition buffer (a : t) (i : nat) : Outcome ptr :=
  match buffers a with
  | None => Undefined
  | Some slots =>
      match slots !! i with
      | Some p => Ok p
      | None => Undefined
      end
  end.

(** [a.buffers[i] = p]. *)
Definition set_buffer (i : nat) (p : ptr) (a : t) : t * Outcome unit :=
  match buffers a with
  | None => (a, Undefined)
  | Some slots =>
      if bool_decide (i < List.length slots)%nat
      then (set_buffers (Some (<[i := p]> slots)) a, Ok tt)
      else (a, Undefined)
  end.

(** The released state of a node. *)
Definition released (a : t) : Prop := release a = None /\ private_data a = None.
End ArrowArray.

(** ** Release and export of arrays *)

Section Array.
Import ArrowArray.

(** What the release callback of a foreign producer, at the given address,
    does to the node it is called on. *)
Variable foreignArrayRelease : N -> ArrowArray.t -> ArrowArray.t.

Definition invokeArrayRelease (bridge : ArrowArray.t -> ArrowArray.t * Outcome unit)
    (cb : ReleaseCallback) (node : ArrowArray.t) : ArrowArray.t * Outcome unit :=
  match cb with
  | BridgeCallback => bridge node
  | ForeignCallback address => (foreignArrayRelease address node, Ok tt)
  end.

(** [if (child != nullptr && child->release != nullptr) {
       child->release(child); VELOX_CHECK_NULL(child->release); }] *)
Definition releaseArrayIfLive (bridge : ArrowArray.t -> ArrowArray.t * Outcome unit)
    (child : option ArrowArray.t) : option ArrowArray.t * Outcome unit :=
  match child with
  | None => (None, Ok tt)
  | Some c =>
      match release c with
      | None => (Some c, Ok tt)
      | Some cb =>
          let '(c', r) := invokeArrayRelease bridge cb c in
          (Some c',
           do _ <- r;
           check bool_decide (release c' = None)
             orelse mkException VELOX_CHECK "child->release";
           Ok tt)
      end
  end.

(** [if (dict != nullptr && dict->release != nullptr) {
       dict->release(dict); VELOX_CHECK_NULL(dict->release); }] *)
Definition releaseArrayDictionary (bridge : ArrowArray.t -> ArrowArray.t * Outcome unit)
    (dict : option ArrowArray.t) : option ArrowArray.t * Outcome unit :=
  match dict with
  | None => (None, Ok tt)
  | Some d =>
      match release d with
      | None => (Some d, Ok tt)
      | Some cb =>
          let '(d', r) := invokeArrayRelease bridge cb d in
          (Some d',
           do _ <- r;
           check bool_decide (release d' = None)
             orelse mkException VELOX_CHECK "dict->release";
           Ok tt)
      end
  end.

(** [delete static_cast<VeloxToArrowBridgeHolder*>(private_data)]: deleting
    a null pointer does nothing, deleting the holder of the bridge destroys
    it, and deleting the data of another producer through the type of the
    holder is undefined behaviour. *)
Definition deleteArrayHolder (data : option ArrayPrivateData) : Outcome unit :=
  match data with
  | None | Some (ArrayHolder _) => Ok tt
  | Some (ArrayForeignData _) => Undefined
  end.

Fixpoint releaseArrayChildren (releaseOne : option ArrowArray.t -> option ArrowArray.t * Outcome unit)
    (todo : Z) (slots : list (option ArrowArray.t)) : list (option ArrowArray.t) * Outcome unit :=
  if (todo <=? 0)%Z then (slots, Ok tt)
  else
    match slots with
    | [] => ([], Undefined)
    | child :: rest =>
        let '(child', r) := releaseOne child in
        match r with
        | Ok _ =>
            let '(rest', r') := releaseArrayChildren releaseOne (todo - 1) rest in
            (child' :: rest', r')
        | _ => (child' :: rest, r)
        end
    end.

(** Release function for ArrowArray, on a non-null [arrowArray].  It
    recurses down to children and dictionary arrays, and sets release and
    private_data to null to signal that the array has been released. *)
Fixpoint bridgeRelease (arrowArray : ArrowArray.t) : ArrowArray.t * Outcome unit :=
  match release arrowArray with
  | None => (arrowArray, Ok tt)
  | Some _ =>
      (* Recurse down to release children arrays. *)
      let '(slots, r) :=
        match children arrowArray with
        | Some slots =>
            let '(slots', r) :=
              releaseArrayChildren (releaseArrayIfLive bridgeRelease)
                (n_children arrowArray) slots in
            (Some slots', r)
        | None => (None, if (n_children arrowArray <=? 0)%Z then Ok tt else Undefined)
        end in
      let arrowArray1 := set_children slots arrowArray in
      match r with
      | Ok _ =>
          (* Release dictionary. *)
          let '(dict, r') := releaseArrayDictionary bridgeRelease (dictionary arrowArray) in
          let arrowArray2 := set_dictionary dict arrowArray1 in
          match r' with
          | Ok _ =>
              (* Destroy the current holder. *)
              match deleteArrayHolder (private_data arrowArray) with
              | Ok _ =>
                  (* Finally, mark the array as released. *)
                  (set_private_data None (set_release None arrowArray2), Ok tt)
              | r'' => (arrowArray2, r'')
              end
          | _ => (arrowArray2, r')
          end
      | _ => (arrowArray1, r)
      end
  end.

(** [bridgeRelease] on a pointer that may be null. *)
Definition bridgeRelease_ptr (arrowArray : option ArrowArray.t)
    : option ArrowArray.t * Outcome unit :=
  match arrowArray with
  | None => (None, Ok tt)
  | Some a => let '(a', r) := bridgeRelease a in (Some a', r)
  end.
End Array.

(** [exportFlatVector(const VectorPtr& vector, ArrowArray& arrowArray)]. *)
Definition exportFlatVector (vector : VectorPtr) (arrowArray : ArrowArray.t)
    : ArrowArray.t * Outcome unit :=
  match BaseVector.typeKind vector with
  | TypeKind.BOOLEAN
  | TypeKind.TINYINT
  | TypeKind.SMALLINT
  | TypeKind.INTEGER
  | TypeKind.BIGINT
  | TypeKind.REAL
  | TypeKind.DOUBLE =>
      ArrowArray.set_buffer 1 (BaseVector.valuesAsVoid vector) arrowArray
  | _ =>
      (arrowArray,
       Throw (mkException VELOX_NYI "Conversion of FlatVector of {} is not supported yet."))
  end.

(** [exportToArrow(const VectorPtr& vector, ArrowArray& arrowArray)].  The
    holder made by [std::make_unique] is value-initialised, so both slots of
    its [buffers] start as null pointers. *)
Definition exportToArrow_vector (vector : VectorPtr) (arrowArray : ArrowArray.t)
    : ArrowArray.t * Outcome unit :=
  let bridgeHolder := mkArrayHolder vector in
  let arrowArray := ArrowArray.set_n_buffers (Z.of_nat kMaxBuffers) arrowArray in
  let arrowArray := ArrowArray.set_buffers (Some (replicate kMaxBuffers nullptr)) arrowArray in
  let arrowArray := ArrowArray.set_release (Some BridgeCallback) arrowArray in
  let arrowArray := ArrowArray.set_length (BaseVector.size vector) arrowArray in
  (* getNullCount() returns a std::optional. -1 means we don't have the count
     available yet (and we don't want to count it here). *)
  let arrowArray :=
    ArrowArray.set_null_count (default (-1)%Z (BaseVector.getNullCount vector)) arrowArray in
  (* Velox does not support offset'ed vectors yet. *)
  let arrowArray := ArrowArray.set_offset 0 arrowArray in
  (* Setting up buffer pointers. First one is always nulls. *)
  let '(arrowArray, r) := ArrowArray.set_buffer 0 (BaseVector.rawNulls vector) arrowArray in
  match r with
  | Ok _ =>
      (* Second buffer is values. Only support flat for now. *)
      let '(arrowArray, r) :=
        match BaseVector.encoding vector with
        | VectorEncoding.FLAT => exportFlatVector vector arrowArray
        | _ =>
            (arrowArray,
             Throw (mkException VELOX_NYI "Only FlatVectors can be exported to Arrow for now."))
        end in
      match r with
      | Ok _ =>
          (* TODO of the source: no nested types, strings, or dictionaries for now. *)
          let arrowArray := ArrowArray.set_n_children 0 arrowArray in
          let arrowArray := ArrowArray.set_children None arrowArray in
          let arrowArray := ArrowArray.set_dictionary None arrowArray in
          (ArrowArray.set_private_data (Some (ArrayHolder bridgeHolder)) arrowArray, Ok tt)
      | _ => (arrowArray, r)
      end
  | _ => (arrowArray, r)
  end.

(** ** The store of shared foreign nodes *)

(** A call of a release callback made by the deleter of a shared node: the
    callback, and the node it is called on. *)
Inductive ReleaseCall :=
| SchemaReleaseCall (cb : ReleaseCallback) (node : ArrowSchema.t)
| ArrayReleaseCall (cb : ReleaseCallback) (node : ArrowArray.t).

(** The control block of a [std::shared_ptr]: the object it manages and the
    number of shared pointers that refer to it. *)
Record ControlBlock (T : Type) := mkBlock { managed : T; use_count : nat }.

Arguments mkBlock {T} managed use_count.
Arguments managed {T} c.
Arguments use_count {T} c.

(** The control blocks that are alive, and the release callbacks that the
    deleters have called so far, in the order of the calls. *)
Record Store := mkStore {
  schemaBlocks : gmap nat (ControlBlock ArrowSchema.t);
  arrayBlocks : gmap nat (ControlBlock ArrowArray.t);
  releaseCalls : list ReleaseCall
}.

Definition emptyStore : Store := mkStore ∅ ∅ [].

(** The deleter given to [schemaReleaser]:
    [if (toDelete->release != nullptr) toDelete->release(toDelete);
     delete toDelete;] *)
Definition schemaDeleter (toDelete : ArrowSchema.t) (calls : list ReleaseCall) : list ReleaseCall :=
  match ArrowSchema.release toDelete with
  | Some cb => calls ++ [SchemaReleaseCall cb toDelete]
  | None => calls
  end.

(** The deleter given to [arrayReleaser]. *)
Definition arrayDeleter (toDelete : ArrowArray.t) (calls : list ReleaseCall) : list ReleaseCall :=
  match ArrowArray.release toDelete with
  | Some cb => calls ++ [ArrayReleaseCall cb toDelete]
  | None => calls
  end.

(** [std::shared_ptr<ArrowSchema>(new ArrowSchema(arrowSchema), deleter)]:
    a fresh control block that manages a copy of the struct, with one
    reference. *)
Definition newSchemaReleaser (arrowSchema : ArrowSchema.t) (st : Store) : shared_ptr * Store :=
  let key := fresh (dom (schemaBlocks st)) in
  (Some key,
   mkStore (<[key := mkBlock arrowSchema 1]> (schemaBlocks st)) (arrayBlocks st) (releaseCalls st)).

Definition newArrayReleaser (arrowArray : ArrowArray.t) (st : Store) : shared_ptr * Store :=
  let key := fresh (dom (arrayBlocks st)) in
  (Some key,
   mkStore (schemaBlocks st) (<[key := mkBlock arrowArray 1]> (arrayBlocks st)) (releaseCalls st)).

(** Copying a shared pointer adds a reference. *)
Definition copySchemaReleaser (p : shared_ptr) (st : Store) : Store :=
  match p with
  | None => st
  | Some key =>
      mkStore (alter (fun b => mkBlock (managed b) (S (use_count b))) key (schemaBlocks st))
        (arrayBlocks st) (releaseCalls st)
  end.

Definition copyArrayReleaser (p : shared_ptr) (st : Store) : Store :=
  match p with
  | None => st
  | Some key =>
      mkStore (schemaBlocks st)
        (alter (fun b => mkBlock (managed b) (S (use_count b))) key (arrayBlocks st))
        (releaseCalls st)
  end.

(** Destroying a shared pointer drops a reference; dropping the last one
    runs the deleter and frees the control block. *)
Definition dropSchemaReleaser (p : shared_ptr) (st : Store) : Store :=
  match p with
  | None => st
  | Some key =>
      match schemaBlocks st !! key with
      | None => st
      | Some b =>
          match use_count b with
          | S (S n) =>
              mkStore (<[key := mkBlock (managed b) (S n)]> (schemaBlocks st))
                (arrayBlocks st) (releaseCalls st)
          | _ =>
              mkStore (delete key (schemaBlocks st)) (arrayBlocks st)
                (schemaDeleter (managed b) (releaseCalls st))
          end
      end
  end.

Definition dropArrayReleaser (p : shared_ptr) (st : Store) : Store :=
  match p with
  | None => st
  | Some key =>
      match arrayBlocks st !! key with
      | None => st
      | Some b =>
          match use_count b with
          | S (S n) =>
              mkStore (schemaBlocks st)
                (<[key := mkBlock (managed b) (S n)]> (arrayBlocks st)) (releaseCalls st)
          | _ =>
              mkStore (schemaBlocks st) (delete key (arrayBlocks st))
                (arrayDeleter (managed b) (releaseCalls st))
          end
      end
  end.

(** Destroying a [BufferViewReleaser] destroys its members in the reverse
    order of their declaration. *)
Definition destroyReleaser (r : BufferViewReleaser) (st : Store) : Store :=
  dropSchemaReleaser (schemaReleaser_ r) (dropArrayReleaser (arrayReleaser_ r) st).

(** Modelled from the spec: dropping the last reference to a buffer view
    destroys the view, and with it the releaser it holds. *)
Definition destroyBuffer (b : BufferPtr) (st : Store) : Store :=
  match b with
  | Some view => destroyReleaser (buffer_releaser view) st
  | None => st
  end.

(** Modelled from the spec: dropping the last reference to a vector destroys
    it, and with it its references to the values buffer and to the nulls
    buffer, which are the last ones when nothing else took a reference to
    the buffers. *)
Definition destroyVector (v : VectorPtr) (st : Store) : Store :=
  destroyBuffer (BaseVector.nulls v) (destroyBuffer (BaseVector.values v) st).

(** ** Import of arrays *)

(** Modelled from the spec: [bits::nbytes] (velox/common/base/BitUtil.h is
    not part of the sources at hand), the number of bytes that hold the given
    number of bits, that is the ceiling of [bits / 8]. *)
Definition nbytes (bits : Z) : Z := ((bits + 7) / 8)%Z.

(** Modelled from the spec: [VELOX_DYNAMIC_SCALAR_TYPE_DISPATCH] (a macro of
    velox/type/Type.h), which runs the function template at the native type
    of a scalar kind and fails on any other kind. *)
Definition scalarTypeDispatch {A : Type} (k : TypeKind.t) (f : Outcome A) : Outcome A :=
  match k with
  | TypeKind.BOOLEAN | TypeKind.TINYINT | TypeKind.SMALLINT | TypeKind.INTEGER
  | TypeKind.BIGINT | TypeKind.REAL | TypeKind.DOUBLE | TypeKind.VARCHAR
  | TypeKind.VARBINARY | TypeKind.TIMESTAMP | TypeKind.DATE => f
  | _ => Throw (mkException VELOX_CHECK "not a scalar type! kind: {}")
  end.

Definition isNull {A : Type} (p : option A) : bool :=
  match p with
  | None => true
  | Some _ => false
  end.

(** Wraps a naked pointer using a Velox buffer view, without copying it. *)
Definition wrapInBufferViewAsViewer (buffer : ptr) (length : Z) : BufferPtr :=
  BufferView_create buffer length kViewerReleaser.

(** Wraps a naked pointer using a Velox buffer view, without copying it.
    This buffer view uses shared_ptr to manage reference counting and
    releasing for the ArrowSchema object and the ArrowArray object. *)
Definition wrapInBufferViewAsOwner (buffer : ptr) (length : Z)
    (schemaReleaser arrayReleaser : shared_ptr) : BufferPtr :=
  BufferView_create buffer length (mkReleaser schemaReleaser arrayReleaser).

(** [createFlatVector<kind>]: the flat vector over the two buffers. *)
Definition createFlatVector (pool : N) (type : TypePtr) (nulls : BufferPtr) (length : Z)
    (values : BufferPtr) (nullCount : Z) : VectorPtr :=
  BaseVector.mk pool type VectorEncoding.FLAT nulls length values
    (if (nullCount =? -1)%Z then None else Some nullCount).

(** [std::function<BufferPtr(const void* buffer, size_t length)>]; a call
    may take references in the store. *)
Definition WrapInBufferViewFunc := ptr -> Z -> Store -> BufferPtr * Store.

(** The exceptions of [importFromArrowImpl], each with the macro and the
    message of its throw site. *)
Definition schemaReleasedError : Exception :=
  mkException VELOX_USER_CHECK "arrowSchema was released.".
Definition arrayReleasedError : Exception :=
  mkException VELOX_USER_CHECK "arrowArray was released.".
Definition dictionaryError : Exception :=
  mkException VELOX_USER_CHECK "Dictionary encoded arrowArrays not supported yet.".
Definition childrenError : Exception :=
  mkException VELOX_USER_CHECK "Only flat buffers are supported for now.".
Definition offsetError : Exception :=
  mkException VELOX_USER_CHECK "Offsets are not supported during arrow conversion yet.".
Definition lengthError : Exception :=
  mkException VELOX_CHECK "Array length needs to be positive.".
Definition notPrimitiveError : Exception :=
  mkException VELOX_CHECK "Only conversion of primitive types is supported for now.".
Definition nullsMissingError : Exception :=
  mkException VELOX_USER_CHECK "Nulls buffer can't be null unless null_count is zero.".
Definition nullsUnexpectedError : Exception :=
  mkException VELOX_USER_CHECK "Nulls buffer must be nullptr when null_count is zero.".
Definition bufferCountError : Exception :=
  mkException VELOX_USER_CHECK
    "Expecting two buffers as input (only simple types supported for now).".

Section ArrayImport.

(** [type->cppSizeInBytes()], which velox/type/Type.h defines: the width of
    the native type of a fixed-width type. *)
Variable cppSizeInBytes : TypePtr -> Outcome Z.

(** The first part of [importFromArrowImpl]: the checks on the two structs
    and the parse of the schema. *)
Definition importChecks (arrowSchema : ArrowSchema.t) (arrowArray : ArrowArray.t)
    : Outcome TypePtr :=
  check negb (isNull (ArrowSchema.release arrowSchema))
    orelse schemaReleasedError;
  check negb (isNull (ArrowArray.release arrowArray))
    orelse arrayReleasedError;
  check isNull (ArrowArray.dictionary arrowArray)
    orelse dictionaryError;
  check (ArrowArray.n_children arrowArray =? 0)%Z && isNull (ArrowArray.children arrowArray)
    orelse childrenError;
  check (ArrowArray.offset arrowArray =? 0)%Z
    orelse offsetError;
  check (0 <=? ArrowArray.length arrowArray)%Z
    orelse lengthError;
  (* First parse and generate a Velox type. *)
  do type <- importFromArrow arrowSchema;
  check isPrimitiveType type
    orelse notPrimitiveError;
  Ok type.

(** The second part: the test of the nulls buffer against [null_count].
    The result is the address to wrap, if any. *)
Definition importNullsBuffer (arrowArray : ArrowArray.t) : Outcome (option ptr) :=
  (* If either greater than zero or -1 (unknown). *)
  if negb (ArrowArray.null_count arrowArray =? 0)%Z then
    do buffer0 <- ArrowArray.buffer arrowArray 0;
    check negb (buffer0 =? nullptr)%N
      orelse nullsMissingError;
    Ok (Some buffer0)
  else
    do buffer0 <- ArrowArray.buffer arrowArray 0;
    check (buffer0 =? nullptr)%N
      orelse nullsUnexpectedError;
    Ok None.

(** The third part: the test of [n_buffers] and the arguments of the second
    call of [wrapInBufferView]. *)
Definition importValuesBuffer (arrowArray : ArrowArray.t) (type : TypePtr) : Outcome (ptr * Z) :=
  check (ArrowArray.n_buffers arrowArray =? 2)%Z
    orelse bufferCountError;
  do buffer1 <- ArrowArray.buffer arrowArray 1;
  do width <- cppSizeInBytes type;
  Ok (buffer1, ((to_size_t (ArrowArray.length arrowArray) * width) mod 2 ^ 64)%Z).

(** [importFromArrowImpl].  A buffer view that the function has made is
    destroyed when an exception leaves the function. *)
Definition importFromArrowImpl (arrowSchema : ArrowSchema.t) (arrowArray : ArrowArray.t)
    (pool : N) (wrapInBufferView : WrapInBufferViewFunc) (st : Store)
    : Store * Outcome VectorPtr :=
  match importChecks arrowSchema arrowArray with
  | Ok type =>
      (* Wrap the nulls buffer into a Velox BufferView (zero-copy). *)
      match importNullsBuffer arrowArray with
      | Ok nullsAddress =>
          let '(nulls, st) :=
            match nullsAddress with
            | Some buffer0 => wrapInBufferView buffer0 (nbytes (ArrowArray.length arrowArray)) st
            | None => (None, st)
            end in
          (* Wrap the values buffer into a Velox BufferView (also zero-copy). *)
          match importValuesBuffer arrowArray type with
          | Ok (buffer1, length) =>
              let '(values, st) := wrapInBufferView buffer1 length st in
              match
                scalarTypeDispatch (kind type)
                  (Ok (createFlatVector pool type nulls (ArrowArray.length arrowArray) values
                         (ArrowArray.null_count arrowArray)))
              with
              | Ok imported => (st, Ok imported)
              | Throw e => (destroyBuffer nulls (destroyBuffer values st), Throw e)
              | Undefined => (st, Undefined)
              end
          | Throw e => (destroyBuffer nulls st, Throw e)
          | Undefined => (st, Undefined)
          end
      | Throw e => (st, Throw e)
      | Undefined => (st, Undefined)
      end
  | Throw e => (st, Throw e)
  | Undefined => (st, Undefined)
  end.

(** [importFromArrowAsViewer]: the views carry the releaser that holds
    nothing. *)
Definition importFromArrowAsViewer (arrowSchema : ArrowSchema.t) (arrowArray : ArrowArray.t)
    (pool : N) (st : Store) : Store * Outcome VectorPtr :=
  importFromArrowImpl arrowSchema arrowArray pool
    (fun buffer length st => (wrapInBufferViewAsViewer buffer length, st)) st.

(** [importFromArrowAsOwner].  The result holds the two structs of the
    caller as the function leaves them, the store, and the vector or the
    exception.  The two local shared pointers are destroyed when the function
    is left, [arrayReleaser] first. *)
Definition importFromArrowAsOwner (arrowSchema : ArrowSchema.t) (arrowArray : ArrowArray.t)
    (pool : N) (st : Store) : (ArrowSchema.t * ArrowArray.t * Store) * Outcome VectorPtr :=
  let '(schemaReleaser, st) := newSchemaReleaser arrowSchema st in
  let '(arrayReleaser, st) := newArrayReleaser arrowArray st in
  let '(st, imported) :=
    importFromArrowImpl arrowSchema arrowArray pool
      (fun buffer length st =>
         (* the arguments of wrapInBufferViewAsOwner are copies *)
         let st := copySchemaReleaser schemaReleaser st in
         let st := copyArrayReleaser arrayReleaser st in
         (wrapInBufferViewAsOwner buffer length schemaReleaser arrayReleaser, st))
      st in
  match imported with
  | Ok vector =>
      let arrowSchema := ArrowSchema.set_release None arrowSchema in
      let arrowArray := ArrowArray.set_release None arrowArray in
      let st := dropSchemaReleaser schemaReleaser (dropArrayReleaser arrayReleaser st) in
      ((arrowSchema, arrowArray, st), Ok vector)
  | _ =>
      let st := dropSchemaReleaser schemaReleaser (dropArrayReleaser arrayReleaser st) in
      ((arrowSchema, arrowArray, st), imported)
  end.
End ArrayImport.

(** What the release of an exported child slot must do for the release of
    its parent to go through: the slot holds a node whose callback is the
    one of the bridge, and releasing the node succeeds and leaves it in the
    released state. *)
Definition releasesWell (foreignSchemaRelease : N -> ArrowSchema.t -> ArrowSchema.t)
    (slot : option ArrowSchema.t) : Prop :=
  exists c c', slot = Some c /\ ArrowSchema.release c = Some BridgeCallback /\
    bridgeSchemaRelease foreignSchemaRelease c = (c', Ok tt) /\ ArrowSchema.released c'.

(** The node that the export loop links into slot [i]: the exported child,
    with the name of field [i] when the parent is a row. *)
Definition linkedChild (holderRowType : option (list (string * TypePtr))) (i : nat)
    (currentSchema : ArrowSchema.t) : ArrowSchema.t :=
  match holderRowType with
  | Some row => ArrowSchema.set_name (Some (c_str (nameOf row i))) currentSchema
  | None => currentSchema
  end.

(** The nodes of a schema tree: the root, and the nodes that the child
    slots of a node of the tree point to. *)
Inductive schemaNodeOf (root : ArrowSchema.t) : ArrowSchema.t -> Prop :=
| schemaNodeOf_root : schemaNodeOf root root
| schemaNodeOf_child (parent : ArrowSchema.t) (i : nat) (c : ArrowSchema.t) :
    schemaNodeOf root parent ->
    ArrowSchema.child parent i = Ok (Some c) ->
    schemaNodeOf root c.

(** ** Example inputs *)

(** A row with one field whose name has a NUL character in the middle. *)
Definition nulNameRow : list (string * TypePtr) :=
  [(String "a" (String "000" "b"), INTEGER)].

(** A row of scalars. *)
Definition scalarRow : list (string * TypePtr) :=
  [("id", BIGINT); ("name", VARCHAR); ("", DATE); ("score", DOUBLE)].

(** A row whose field at index 2 is of an unsupported kind. *)
Definition unsupportedRow : list (string * TypePtr) :=
  [("a", INTEGER); ("b", ARRAY VARCHAR); ("c", UNKNOWN); ("d", DOUBLE)].

(** A struct with arbitrary contents, as a caller may pass to an export. *)
Definition staleSchema : ArrowSchema.t :=
  ArrowSchema.mk (Some "x") None None 7 9 None None (Some (ForeignCallback 5))
    (Some (SchemaForeignData 3)).

(** The kinds whose flat vectors the array exporter takes: boolean, int8,
    int16, int32, int64, float32 and float64. *)
Definition flatKindSupported (k : TypeKind.t) : bool :=
  match k with
  | TypeKind.BOOLEAN | TypeKind.TINYINT | TypeKind.SMALLINT | TypeKind.INTEGER
  | TypeKind.BIGINT | TypeKind.REAL | TypeKind.DOUBLE => true
  | _ => false
  end.

(** A struct with arbitrary contents, as a caller may pass to an export. *)
Definition staleArray : ArrowArray.t :=
  ArrowArray.mk 11 12 13 14 15 None None None (Some (ForeignCallback 6))
    (Some (ArrayForeignData 4)).

(** A flat int32 vector of five values without nulls, at address 200. *)
Definition fiveInts : VectorPtr :=
  BaseVector.mk 0 INTEGER VectorEncoding.FLAT None 5
    (Some (mkBufferView 200%N 20 kViewerReleaser)) (Some 0%Z).

(** A foreign release callback that follows the Arrow contract on a node
    without children: it marks the node as released. *)
Definition compliantArrayRelease (address : N) (a : ArrowArray.t) : ArrowArray.t :=
  ArrowArray.set_private_data None (ArrowArray.set_release None a).

(** *** What an import decides *)

(** The three tests of [importFromArrowImpl] together: the element type,
    the address of the nulls buffer to wrap, if any, and the address and the
    size in bytes of the values buffer. *)
Definition importVerdict (cppSizeInBytes : TypePtr -> Outcome Z)
    (arrowSchema : ArrowSchema.t) (arrowArray : ArrowArray.t)
    : Outcome (TypePtr * option ptr * (ptr * Z)) :=
  do type <- importChecks arrowSchema arrowArray;
  do nullsAddress <- importNullsBuffer arrowArray;
  do values <- importValuesBuffer cppSizeInBytes arrowArray type;
  Ok (type, nullsAddress, values).

(** The number of buffer views of an imported vector: the values view, and
    the nulls view when there is a nulls buffer. *)
Definition viewCount (nullsAddress : option ptr) : nat :=
  match nullsAddress with
  | Some _ => 2
  | None => 1
  end.

(** The vector that an import builds over views with the given releaser. *)
Definition importedVector (pool : N) (arrowArray : ArrowArray.t) (releaser : BufferViewReleaser)
    (type : TypePtr) (nullsAddress : option ptr) (buffer1 : ptr) (length : Z) : VectorPtr :=
  createFlatVector pool type
    match nullsAddress with
    | Some buffer0 =>
        Some (mkBufferView buffer0 (nbytes (ArrowArray.length arrowArray)) releaser)
    | None => None
    end
    (ArrowArray.length arrowArray)
    (Some (mkBufferView buffer1 length releaser))
    (ArrowArray.null_count arrowArray).

(** Both entry points throw [e]. *)
Definition importRejects (cppSizeInBytes : TypePtr -> Outcome Z)
    (arrowSchema : ArrowSchema.t) (arrowArray : ArrowArray.t) (pool : N) (st : Store)
    (e : Exception) : Prop :=
  (importFromArrowAsViewer cppSizeInBytes arrowSchema arrowArray pool st).2 = Throw e /\
  (importFromArrowAsOwner cppSizeInBytes arrowSchema arrowArray pool st).2 = Throw e.

(** None of the entry points returns a vector. *)
Definition importFails (cppSizeInBytes : TypePtr -> Outcome Z)
    (arrowSchema : ArrowSchema.t) (arrowArray : ArrowArray.t) (pool : N) (st : Store) : Prop :=
  isOk (importFromArrowAsViewer cppSizeInBytes arrowSchema arrowArray pool st).2 = false /\
  isOk (importFromArrowAsOwner cppSizeInBytes arrowSchema arrowArray pool st).2 = false.


(** The tests that [importFromArrowImpl] makes on the two structs before it
    parses the schema. *)
Definition structsAcceptable (arrowSchema : ArrowSchema.t) (arrowArray : ArrowArray.t) : Prop :=
  ArrowSchema.release arrowSchema <> None /\
  ArrowArray.release arrowArray <> None /\
  ArrowArray.dictionary arrowArray = None /\
  ArrowArray.n_children arrowArray = 0%Z /\
  ArrowArray.children arrowArray = None /\
  ArrowArray.offset arrowArray = 0%Z /\
  (0 <= ArrowArray.length arrowArray)%Z.



(** An instance of [cppSizeInBytes] for the examples: the widths of the
    native types of the fixed-width numeric kinds, and an exception for
    every other kind. *)
Definition nativeWidth (type : TypePtr) : Outcome Z :=
  match type with
  | BOOLEAN | TINYINT => Ok 1%Z
  | SMALLINT => Ok 2%Z
  | INTEGER | REAL => Ok 4%Z
  | BIGINT | DOUBLE => Ok 8%Z
  | _ => Throw (mkException VELOX_CHECK "Not a fixed width type")
  end.

(** A live foreign schema of format "i". *)
Definition intSchema : ArrowSchema.t :=
  ArrowSchema.mk (Some "i") None None ARROW_FLAG_NULLABLE 0 None None
    (Some (ForeignCallback 5)) (Some (SchemaForeignData 3)).

(** A live foreign array of five elements with a nulls buffer at address
    100, a values buffer at address 200 and the given [null_count]. *)
Definition intArray (null_count : Z) : ArrowArray.t :=
  ArrowArray.mk 5 null_count 0 2 0 (Some [100%N; 200%N]) None None
    (Some (ForeignCallback 6)) (Some (ArrayForeignData 4)).

(** A live foreign schema of format "u", and an array of two strings with
    its three buffers (validity, offsets and data) and an unknown null
    count. *)
Definition stringSchema : ArrowSchema.t :=
  ArrowSchema.mk (Some "u") None None ARROW_FLAG_NULLABLE 0 None None
    (Some (ForeignCallback 5)) None.

Definition stringArray : ArrowArray.t :=
  ArrowArray.mk 2 (-1) 0 3 0 (Some [100%N; 200%N; 300%N]) None None
    (Some (ForeignCallback 6)) None.

(** The owner import of the int32 array with an unknown null count, from
    the empty store, and the vector it returns. *)
Definition ownedInts : (ArrowSchema.t * ArrowArray.t * Store) * Outcome VectorPtr :=
  importFromArrowAsOwner nativeWidth intSchema (intArray (-1)) 0 emptyStore.

Definition ownedIntsVector : VectorPtr :=
  importedVector 0 (intArray (-1)) (mkReleaser (Some (fresh (dom (schemaBlocks emptyStore))))
                                      (Some (fresh (dom (arrayBlocks emptyStore)))))
    INTEGER (Some 100%N) 200%N 20.

(** The vector that the viewer import of the same array returns. *)
Definition viewedIntsVector : VectorPtr :=
  importedVector 0 (intArray (-1)) kViewerReleaser INTEGER (Some 100%N) 200%N 20.

(** ** Further notions for the properties of the code *)

(** A type all of whose field names, at every depth, have no NUL
    character. *)
Fixpoint plainNames (type : TypePtr) : bool :=
  match type with
  | ARRAY e => plainNames e
  | MAP k v => plainNames k && plainNames v
  | ROW fields => forallb (fun f => String.eqb (c_str f.1) f.1 && plainNames f.2) fields
  | _ => true
  end.

(** The tree that the release of an exported tree leaves: the same nodes,
    each with [release] and [private_data] null. *)
Fixpoint releasedSchemaOf (nm : option string) (type : TypePtr) : ArrowSchema.t :=
  ArrowSchema.set_private_data None
    (ArrowSchema.set_release None
       (exportedNode nm type
          match type with
          | ARRAY e => [Some (releasedSchemaOf None e)]
          | MAP k v => [Some (releasedSchemaOf None k); Some (releasedSchemaOf None v)]
          | ROW fields => map (fun f => Some (releasedSchemaOf (Some (c_str f.1)) f.2)) fields
          | _ => []
          end)).

(** A child slot, or a dictionary, that the release of its parent passes
    without harm: a null pointer, a released node, or a live node of a
    foreign producer whose callback marks it as released. *)
Definition wellBehavedArray (foreignArrayRelease : N -> ArrowArray.t -> ArrowArray.t)
    (slot : option ArrowArray.t) : Prop :=
  match slot with
  | None => True
  | Some c =>
      match ArrowArray.release c with
      | None => True
      | Some BridgeCallback => False
      | Some (ForeignCallback address) =>
          ArrowArray.release (foreignArrayRelease address c) = None
      end
  end.

(** What the release of the parent leaves in such a slot. *)
Definition afterArrayRelease (foreignArrayRelease : N -> ArrowArray.t -> ArrowArray.t)
    (slot : option ArrowArray.t) : option ArrowArray.t :=
  match slot with
  | None => None
  | Some c =>
      match ArrowArray.release c with
      | Some (ForeignCallback address) => Some (foreignArrayRelease address c)
      | _ => Some c
      end
  end.

(** A schema slot that the loop over the children passes untouched: a null
    pointer or a released node. *)
Definition skippedSchema (slot : option ArrowSchema.t) : Prop :=
  match slot with
  | None => True
  | Some c => ArrowSchema.release c = None
  end.

(** The first characters that [importFromArrow] has a case for. *)
Definition formatAlphabet : list ascii :=
  list_ascii_of_string "bcsilfguUzZt+".

(** The scalar type of a one-character format code. *)
Definition scalarOfCode (c : ascii) : option TypePtr :=
  if isChar c "b" then Some BOOLEAN
  else if isChar c "c" then Some TINYINT
  else if isChar c "s" then Some SMALLINT
  else if isChar c "i" then Some INTEGER
  else if isChar c "l" then Some BIGINT
  else if isChar c "f" then Some REAL
  else if isChar c "g" then Some DOUBLE
  else if isChar c "u" || isChar c "U" then Some VARCHAR
  else if isChar c "z" || isChar c "Z" then Some VARBINARY
  else None.

(** A nested type: a row with an array of maps and an empty row. *)
Definition nestedType : TypePtr :=
  ROW [("tags", ARRAY (MAP VARCHAR BIGINT)); ("empty", ROW []); ("when", TIMESTAMP)].

(** A map whose value type has a field of an unsupported kind. *)
Definition unsupportedNested : TypePtr :=
  MAP VARCHAR (ROW [("ok", DOUBLE); ("bad", OPAQUE)]).

(** A foreign release callback that breaks the Arrow contract: it leaves
    the node as it is, [release] included. *)
Definition idleSchemaRelease (address : N) (s : ArrowSchema.t) : ArrowSchema.t := s.

(** A live node of the bridge with four slots: a null pointer, a released
    node and two live foreign nodes. *)
Definition mixedSchema : ArrowSchema.t :=
  ArrowSchema.mk (Some "+s") None None ARROW_FLAG_NULLABLE 4
    (Some [None; Some (compliantSchemaRelease 5 intSchema); Some intSchema; Some stringSchema])
    None (Some BridgeCallback) (Some (SchemaHolder (mkSchemaHolder 4 None))).

(** A live node of the bridge, with its holder, that has a null slot, a
    live foreign child, a released child and a live foreign dictionary. *)
Definition structArray : ArrowArray.t :=
  ArrowArray.mk 5 0 0 1 3 (Some [0%N])
    (Some [None; Some (intArray 0); Some (compliantArrayRelease 6 (intArray 0))])
    (Some stringArray) (Some BridgeCallback) (Some (ArrayHolder (mkArrayHolder fiveInts))).

(** The vector with each of its buffer views given the releaser that holds
    nothing: what the vector lets its user observe, ownership apart. *)
Definition asViewer (b : BufferPtr) : BufferPtr :=
  match b with
  | Some view => Some (mkBufferView (buffer_data view) (buffer_size view) kViewerReleaser)
  | None => None
  end.

Definition viewOf (v : VectorPtr) : VectorPtr :=
  BaseVector.mk (BaseVector.pool v) (BaseVector.type v) (BaseVector.encoding v)
    (asViewer (BaseVector.nulls v)) (BaseVector.length v) (asViewer (BaseVector.values v))
    (BaseVector.nullCount v).

(** A flat vector of two strings, a kind that the array exporter does not
    take. *)
Definition twoStrings : VectorPtr :=
  BaseVector.mk 0 VARCHAR VectorEncoding.FLAT None 2
    (Some (mkBufferView 300%N 32 kViewerReleaser)) (Some 0%Z).

(** A flat int32 vector of five values with a nulls buffer at address 100
    and the given cached null count. *)
Definition nullableInts (nullCount : option Z) : VectorPtr :=
  BaseVector.mk 0 INTEGER VectorEncoding.FLAT (Some (mkBufferView 100%N 1 kViewerReleaser)) 5
    (Some (mkBufferView 200%N 20 kViewerReleaser)) nullCount.

(** A flat int32 vector of five values without a nulls buffer, whose null
    count has not been computed. *)
Definition uncountedInts : VectorPtr :=
  BaseVector.mk 0 INTEGER VectorEncoding.FLAT None 5
    (Some (mkBufferView 200%N 20 kViewerReleaser)) None.

(** * Properties *)

(** ** Induction on types *)

(** An induction principle that reaches the children of a row. *)
Section TypePtr_induction.
Variable P : TypePtr -> Prop.
Hypothesis Hleaf : forall t, childTypes t = [] -> asRowType t = None -> P t.
Hypothesis Harray : forall e, P e -> P (ARRAY e).
Hypothesis Hmap : forall k v, P k -> P v -> P (MAP k v).
Hypothesis Hrow : forall fields, Forall (fun f => P f.2) fields -> P (ROW fields).

Lemma TypePtr_ind_fields : forall t, P t.
Proof.
  fix IH 1. intros t. destruct t as [| | | | | | | | | | | e | k v | fields | |];
    try (apply Hleaf; reflexivity).
  - apply Harray, IH.
  - apply Hmap; apply IH.
  - apply Hrow. induction fields as [|f fields IHf]; constructor.
    + apply IH.
    + exact IHf.
Qed.
End TypePtr_induction.

(** ** Release of schemas *)

Section SchemaRelease.
Import ArrowSchema.
Variable foreignSchemaRelease : N -> ArrowSchema.t -> ArrowSchema.t.

Local Abbreviation bridgeSchemaRelease := (bridgeSchemaRelease foreignSchemaRelease) (only parsing).

Lemma bridgeSchemaRelease_unfold (arrowSchema : ArrowSchema.t) :
  bridgeSchemaRelease arrowSchema =
  match release arrowSchema with
  | None => (arrowSchema, Ok tt)
  | Some _ =>
      let '(slots, r) :=
        match children arrowSchema with
        | Some slots =>
            let '(slots', r) :=
              releaseSchemaChildren
                (releaseSchemaIfLive foreignSchemaRelease bridgeSchemaRelease)
                (n_children arrowSchema) slots in
            (Some slots', r)
        | None => (None, if (n_children arrowSchema <=? 0)%Z then Ok tt else Undefined)
        end in
      let arrowSchema1 := set_children slots arrowSchema in
      match r with
      | Ok _ =>
          let '(dict, r') :=
            releaseSchemaDictionary foreignSchemaRelease bridgeSchemaRelease
              (dictionary arrowSchema) in
          let arrowSchema2 := set_dictionary dict arrowSchema1 in
          match r' with
          | Ok _ =>
              match deleteSchemaHolder (private_data arrowSchema) with
              | Ok _ => (set_private_data None (set_release None arrowSchema2), Ok tt)
              | r'' => (arrowSchema2, r'')
              end
          | _ => (arrowSchema2, r')
          end
      | _ => (arrowSchema1, r)
      end
  end.
Proof. destruct arrowSchema; reflexivity. Qed.

(** Releasing a node that is already released changes nothing. *)
Lemma bridgeSchemaRelease_released (arrowSchema : ArrowSchema.t) :
  release arrowSchema = None ->
  bridgeSchemaRelease arrowSchema = (arrowSchema, Ok tt).
Proof. intros H. rewrite bridgeSchemaRelease_unfold, H. reflexivity. Qed.

(** The loop over the children succeeds when the release of every child
    does. *)
Lemma releaseSchemaChildren_ok
    (releaseOne : option ArrowSchema.t -> option ArrowSchema.t * Outcome unit)
    (slots : list (option ArrowSchema.t)) :
  Forall (fun c => exists c', releaseOne c = (c', Ok tt)) slots ->
  exists slots',
    releaseSchemaChildren releaseOne (Z.of_nat (length slots)) slots = (slots', Ok tt) /\
    Forall2 (fun c c' => releaseOne c = (c', Ok tt)) slots slots'.
Proof.
  induction 1 as [|c slots [c' Hc] _ (slots' & IH & IH2)].
  - exists []. split; [reflexivity | constructor].
  - exists (c' :: slots'). split.
    + cbn [releaseSchemaChildren length].
      destruct (Z.leb_spec (Z.of_nat (S (length slots))) 0) as [Hle|_]; [lia|].
      rewrite Hc.
      replace (Z.of_nat (S (length slots)) - 1)%Z with (Z.of_nat (length slots)) by lia.
      rewrite IH. reflexivity.
    + constructor; assumption.
Qed.

Lemma releaseSchemaIfLive_releasesWell (slot : option ArrowSchema.t) :
  releasesWell foreignSchemaRelease slot ->
  exists c', releaseSchemaIfLive foreignSchemaRelease bridgeSchemaRelease slot = (Some c', Ok tt)
             /\ released c'.
Proof.
  intros (c & c' & -> & Hrel & Hc & Hreleased).
  exists c'. split; [|assumption].
  unfold releaseSchemaIfLive. rewrite Hrel. cbn [invokeSchemaRelease]. rewrite Hc.
  destruct Hreleased as [Hr _]. rewrite Hr. reflexivity.
Qed.

Lemma callSchemaRelease_releasesWell (slot : option ArrowSchema.t) :
  releasesWell foreignSchemaRelease slot ->
  exists c', callSchemaRelease foreignSchemaRelease slot = (Some c', Ok tt) /\ released c'.
Proof.
  intros (c & c' & -> & Hrel & Hc & Hreleased).
  exists c'. split; [|assumption].
  unfold callSchemaRelease. rewrite Hrel. cbn [invokeSchemaRelease]. rewrite Hc. reflexivity.
Qed.

(** The release of an exported node succeeds and marks it as released when
    the release of each of its children does. *)
Lemma bridgeSchemaRelease_exportedNode nm type slots :
  Forall (releasesWell foreignSchemaRelease) slots ->
  exists s', bridgeSchemaRelease (exportedNode nm type slots) = (s', Ok tt) /\ released s'.
Proof.
  intros Hslots.
  rewrite bridgeSchemaRelease_unfold. cbn [exportedNode release children n_children dictionary].
  destruct slots as [|c slots].
  - cbn. eexists. split; [reflexivity|]. split; reflexivity.
  - replace (0 <? length (c :: slots))%nat with true by reflexivity.
    destruct (releaseSchemaChildren_ok
                (releaseSchemaIfLive foreignSchemaRelease bridgeSchemaRelease) (c :: slots))
      as (slots' & Hloop & _).
    { eapply Forall_impl; [exact Hslots|]. intros slot Hslot.
      destruct (releaseSchemaIfLive_releasesWell slot Hslot) as (c' & Hc' & _). eauto. }
    rewrite Hloop. cbn. eexists. split; [reflexivity|]. split; reflexivity.
Qed.

(** Every tree that the export builds is released by [bridgeSchemaRelease],
    which leaves its root in the released state. *)
Lemma bridgeSchemaRelease_schemaOf type :
  forall nm, exists s', bridgeSchemaRelease (schemaOf nm type) = (s', Ok tt) /\ released s'.
Proof.
  assert (Hwell : forall t nm,
             (exists s', bridgeSchemaRelease (schemaOf nm t) = (s', Ok tt) /\ released s') ->
             releasesWell foreignSchemaRelease (Some (schemaOf nm t))).
  { intros t nm (s' & Hs' & Hrel). exists (schemaOf nm t), s'.
    repeat split; try assumption; try apply Hrel. destruct t; reflexivity. }
  induction type as [t Hchildren Hrow | e IHe | k v IHk IHv | fields IH] using TypePtr_ind_fields;
    intros nm.
  - replace (schemaOf nm t) with (exportedNode nm t []).
    + apply bridgeSchemaRelease_exportedNode. constructor.
    + destruct t; try reflexivity; discriminate.
  - cbn [schemaOf]. apply bridgeSchemaRelease_exportedNode.
    repeat constructor. apply Hwell, IHe.
  - cbn [schemaOf]. apply bridgeSchemaRelease_exportedNode.
    repeat constructor; apply Hwell; [apply IHk | apply IHv].
  - cbn [schemaOf]. apply bridgeSchemaRelease_exportedNode.
    apply Forall_map. eapply Forall_impl; [exact IH|].
    intros f Hf. apply Hwell, Hf.
Qed.

Lemma releasesWell_schemaOf nm type : releasesWell foreignSchemaRelease (Some (schemaOf nm type)).
Proof.
  destruct (bridgeSchemaRelease_schemaOf type nm) as (s' & Hs' & Hrel).
  exists (schemaOf nm type), s'. repeat split; try assumption; try apply Hrel.
  destruct type; reflexivity.
Qed.
End SchemaRelease.

(** ** Export of types *)

Section SchemaExport.
Import ArrowSchema.
Variable foreignSchemaRelease : N -> ArrowSchema.t -> ArrowSchema.t.


Lemma set_name_schemaOf nm nm' type : set_name nm (schemaOf nm' type) = schemaOf nm type.
Proof. destruct type; reflexivity. Qed.

Lemma set_children_twice v v' (s : ArrowSchema.t) :
  set_children v (set_children v' s) = set_children v s.
Proof. destruct s; reflexivity. Qed.

Lemma children_set_children v (s : ArrowSchema.t) : children (set_children v s) = v.
Proof. destruct s; reflexivity. Qed.

(** The loop links the children that were exported without an exception, in
    order, and goes on with what follows them. *)
Lemma exportChildren_prefix holderRowType (cs : list ArrowSchema.t) :
  forall tail i s pre,
    children s = Some (pre ++ replicate (length cs + length tail) None) ->
    length pre = i ->
    exportChildren foreignSchemaRelease holderRowType (map (fun c => (c, Ok tt)) cs ++ tail) i s =
    exportChildren foreignSchemaRelease holderRowType tail (i + length cs)
      (set_children
         (Some (pre ++ imap (fun j c => Some (linkedChild holderRowType (i + j) c)) cs
                    ++ replicate (length tail) None)) s).
Proof.
  induction cs as [|c cs IH]; intros tail i s pre Hchildren Hlen.
  - cbn [map app length imap]. rewrite Nat.add_0_r. f_equal.
    cbn in Hchildren. destruct s; cbn in *. subst. reflexivity.
  - cbn [map app exportChildren]. fold (linkedChild holderRowType i c).
    rewrite (IH tail (S i) _ (pre ++ [Some (linkedChild holderRowType i c)])).
    + unfold set_child. rewrite set_children_twice. cbn [length imap].
      replace (S i + length cs) with (i + S (length cs)) by lia.
      f_equal. f_equal. f_equal. rewrite <- app_assoc. cbn [app]. f_equal.
      rewrite Nat.add_0_r. f_equal. f_equal.
      apply imap_ext. intros j x _. cbn. f_equal. f_equal. lia.
    + unfold set_child. rewrite children_set_children, Hchildren. cbn [fmap option_fmap option_map].
      f_equal. rewrite insert_app_r_alt by lia.
      replace (i - length pre) with 0 by lia.
      cbn [length Nat.add replicate]. cbn. rewrite <- app_assoc. reflexivity.
    + rewrite length_app. cbn. lia.
Qed.

(** The handler of the loop releases the children that were linked. *)
Lemma releaseBuiltChildren_ok (pre : list (option ArrowSchema.t)) :
  forall rest,
    Forall (releasesWell foreignSchemaRelease) pre ->
    exists pre',
      releaseBuiltChildren foreignSchemaRelease (length pre) (pre ++ rest) = (pre' ++ rest, Ok tt) /\
      length pre' = length pre /\
      Forall (fun slot => exists c, slot = Some c /\ released c) pre'.
Proof.
  induction pre as [|c pre IH]; intros rest Hpre.
  - exists []. repeat split. constructor.
  - inversion Hpre as [|? ? Hc Hpre']; subst.
    destruct (callSchemaRelease_releasesWell _ _ Hc) as (c' & Hcall & Hreleased).
    destruct (IH rest Hpre') as (pre' & Hloop & Hlen & Hall).
    exists (Some c' :: pre'). cbn [length app releaseBuiltChildren].
    rewrite Hcall, Hloop. repeat split.
    + cbn. lia.
    + constructor; eauto.
Qed.

(** The slots of a row after the loop has linked every child. *)
Lemma linked_row_slots (fields : list (string * TypePtr)) :
  imap (fun j c => Some (linkedChild (Some fields) (0 + j) c))
    (map (fun f => schemaOf None f.2) fields) =
  map (fun f => Some (schemaOf (Some (c_str f.1)) f.2)) fields.
Proof.
  apply list_eq. intros i.
  rewrite list_lookup_imap, !list_lookup_fmap.
  destruct (fields !! i) as [f|] eqn:Hf; cbn; [|reflexivity].
  unfold nameOf. rewrite Hf. cbn. rewrite set_name_schemaOf. reflexivity.
Qed.

Lemma holderRowType_asRowType type :
  (if bool_decide (kind type = TypeKind.ROW) then asRowType type else None) = asRowType type.
Proof. destruct type; reflexivity. Qed.

(** The body of the export, when every recursive call has succeeded. *)
Lemma exportTypeNode_ok type formatStr (cs : list ArrowSchema.t) s :
  exportArrowFormatStr type = Ok formatStr ->
  size type = length cs ->
  exportTypeNode foreignSchemaRelease type (map (fun c => (c, Ok tt)) cs) s =
  (exportedNode None type
     (imap (fun j c => Some (linkedChild (asRowType type) (0 + j) c)) cs), Ok tt).
Proof.
  intros Hformat Hsize. unfold exportTypeNode. rewrite Hformat, Hsize, holderRowType_asRowType.
  destruct cs as [|c cs].
  - destruct s; cbn. unfold exportedNode, formatOf. rewrite Hformat. reflexivity.
  - replace (0 <? length (c :: cs))%nat with true by reflexivity.
    rewrite <- (app_nil_r (map _ (c :: cs))).
    erewrite (exportChildren_prefix _ (c :: cs) [] 0 _ []).
    + cbn [exportChildren length replicate]. rewrite app_nil_r.
      unfold exportedNode, formatOf. rewrite Hformat, length_imap.
      replace (0 <? length (c :: cs))%nat with true by reflexivity.
      destruct s; reflexivity.
    + destruct s; cbn. rewrite Nat.add_0_r. reflexivity.
    + reflexivity.
Qed.

(** The body of the export, when the recursive call on a child throws after
    the calls on the children before it have succeeded: the children that
    were linked are released, the exception goes on, and neither [release]
    nor [private_data] of the node is set. *)
Lemma exportTypeNode_rollback type formatStr (cs : list ArrowSchema.t) bad e rest s :
  isVeloxException e = true ->
  exportArrowFormatStr type = Ok formatStr ->
  size type = length cs + S (length rest) ->
  Forall (releasesWell foreignSchemaRelease)
    (imap (fun j c => Some (linkedChild (asRowType type) (0 + j) c)) cs) ->
  exists s' slots,
    exportTypeNode foreignSchemaRelease type
      (map (fun c => (c, Ok tt)) cs ++ (bad, Throw e) :: rest) s = (s', Throw e) /\
    release s' = release s /\ private_data s' = private_data s /\
    children s' = Some (slots ++ replicate (S (length rest)) None) /\
    length slots = length cs /\
    Forall (fun slot => exists c, slot = Some c /\ released c) slots.
Proof.
  intros Hvelox Hformat Hsize Hwell. unfold exportTypeNode.
  rewrite Hformat, Hsize, holderRowType_asRowType.
  replace (0 <? length cs + S (length rest))%nat with true
    by (symmetry; apply Nat.ltb_lt; lia).
  erewrite (exportChildren_prefix _ cs ((bad, Throw e) :: rest) 0 _ []).
  - cbn [exportChildren]. rewrite Hvelox, children_set_children.
    destruct (releaseBuiltChildren_ok _ (replicate (length ((bad, Throw e) :: rest)) None) Hwell)
      as (slots & Hloop & Hlen & Hall).
    rewrite length_imap in Hloop, Hlen. cbn [app].
    replace (0 + length cs) with (length cs) by lia.
    rewrite Hloop. exists (set_children (Some (slots ++ replicate (S (length rest)) None))
      (set_n_children (Z.of_nat (length cs + S (length rest)))
        (set_flags ARROW_FLAG_NULLABLE (set_dictionary None (set_metadata None
          (set_name None (set_format (Some formatStr) s))))))), slots.
    destruct s; cbn. repeat split; try assumption.
  - destruct s; cbn. reflexivity.
  - reflexivity.
Qed.

Lemma forallb_false_split {A : Type} (p : A -> bool) (l : list A) :
  forallb p l = false ->
  exists pre x post, l = pre ++ x :: post /\ forallb p pre = true /\ p x = false.
Proof.
  induction l as [|a l IH]; [discriminate|].
  cbn. destruct (p a) eqn:Ha; cbn.
  - intros H. destruct (IH H) as (pre & x & post & -> & Hpre & Hx).
    exists (a :: pre), x, post. cbn. rewrite Ha, Hpre. auto.
  - intros _. exists [], a, l. auto.
Qed.

(** A type all of whose nodes are supported is exported into the tree
    [schemaOf], whatever the struct held before. *)
Lemma exportToArrow_type_exportable type :
  exportable type = true ->
  forall s, exportToArrow_type foreignSchemaRelease type s = (schemaOf None type, Ok tt).
Proof.
  induction type as [t Hchildren Hrow | e IHe | k v IHk IHv | fields IH] using TypePtr_ind_fields;
    intros Hexp s.
  - destruct t; try discriminate; destruct s; reflexivity.
  - cbn [exportToArrow_type]. rewrite (IHe Hexp).
    erewrite (exportTypeNode_ok (ARRAY e) _ [schemaOf None e]); reflexivity.
  - cbn in Hexp. apply andb_prop in Hexp as [Hk Hv].
    cbn [exportToArrow_type]. rewrite (IHk Hk), (IHv Hv).
    erewrite (exportTypeNode_ok (MAP k v) _ [schemaOf None k; schemaOf None v]); reflexivity.
  - cbn [exportToArrow_type]. cbn in Hexp.
    replace (map (fun f => exportToArrow_type foreignSchemaRelease f.2 zero) fields)
      with (map (fun c => (c, @Ok unit tt)) (map (fun f => schemaOf None f.2) fields)).
    + erewrite exportTypeNode_ok; [|reflexivity|].
      * cbn [asRowType schemaOf]. rewrite linked_row_slots. reflexivity.
      * unfold size. cbn. rewrite !length_map. reflexivity.
    + rewrite map_map. apply map_ext_Forall.
      rewrite forallb_forall in Hexp. rewrite Forall_forall in IH |- *.
      intros f Hf. symmetry. apply IH; [assumption|]. apply Hexp, list_elem_of_In, Hf.
Qed.
Lemma releasesWell_linked_row (fields : list (string * TypePtr)) (pre : list (string * TypePtr)) post :
  fields = pre ++ post ->
  Forall (releasesWell foreignSchemaRelease)
    (imap (fun j c => Some (linkedChild (Some fields) (0 + j) c))
       (map (fun g => schemaOf None g.2) pre)).
Proof.
  intros ->. apply Forall_lookup. intros i slot.
  rewrite list_lookup_imap, list_lookup_fmap.
  destruct (pre !! i) as [g|]; [|discriminate].
  cbn. intros [= <-]. rewrite set_name_schemaOf. apply releasesWell_schemaOf.
Qed.

(** The export of a row whose field [f] is the first one that fails: the
    children before it are released, the exception of the failing child
    goes on, and [release] and [private_data] of the row are left as they
    were. *)
Lemma exportToArrow_row_rollback pre f post bad e s :
  isVeloxException e = true ->
  forallb (fun g => exportable g.2) pre = true ->
  exportToArrow_type foreignSchemaRelease f.2 zero = (bad, Throw e) ->
  exists s' slots,
    exportToArrow_type foreignSchemaRelease (ROW (pre ++ f :: post)) s = (s', Throw e) /\
    release s' = release s /\ private_data s' = private_data s /\
    children s' = Some (slots ++ replicate (S (length post)) None) /\
    length slots = length pre /\
    Forall (fun slot => exists c, slot = Some c /\ released c) slots.
Proof.
  intros Hvelox Hpre Hf. cbn [exportToArrow_type].
  rewrite map_app. cbn [map]. rewrite Hf.
  replace (map (fun g => exportToArrow_type foreignSchemaRelease g.2 zero) pre)
    with (map (fun c => (c, @Ok unit tt)) (map (fun g => schemaOf None g.2) pre)).
  - destruct (exportTypeNode_rollback (ROW (pre ++ f :: post)) "+s"
                (map (fun g => schemaOf None g.2) pre) bad e
                (map (fun g => exportToArrow_type foreignSchemaRelease g.2 zero) post) s)
      as (s' & slots & Hexport & Hrest).
    + assumption.
    + reflexivity.
    + unfold size. cbn. rewrite !length_map, length_app. reflexivity.
    + cbn [asRowType]. eapply releasesWell_linked_row. reflexivity.
    + rewrite !length_map in Hrest. eauto.
  - rewrite map_map. apply map_ext_Forall, Forall_forall.
    rewrite forallb_forall in Hpre.
    intros g Hg. symmetry. apply exportToArrow_type_exportable, Hpre, list_elem_of_In, Hg.
Qed.

(** A type with a node of an unsupported kind is not exported: the export
    throws the not-implemented exception and sets neither [release] nor
    [private_data]. *)
Lemma exportToArrow_type_unsupported type :
  exportable type = false ->
  forall s, exists s' msg,
    exportToArrow_type foreignSchemaRelease type s = (s', Throw (mkException VELOX_NYI msg)) /\
    release s' = release s /\ private_data s' = private_data s.
Proof.
  induction type as [t Hchildren Hrow | e IHe | k v IHk IHv | fields IH] using TypePtr_ind_fields;
    intros Hexp s.
  - destruct t; try discriminate; eexists _, _; repeat split; reflexivity.
  - destruct (IHe Hexp zero) as (bad & msg & He & _).
    cbn [exportToArrow_type]. rewrite He.
    destruct (exportTypeNode_rollback (ARRAY e) "+L" [] bad (mkException VELOX_NYI msg) [] s)
      as (s' & slots & Hexport & Hrel & Hpriv & _);
      [reflexivity | reflexivity | reflexivity | constructor |].
    eauto.
  - cbn in Hexp. cbn [exportToArrow_type].
    destruct (exportable k) eqn:Hk.
    + destruct (IHv Hexp zero) as (bad & msg & Hv & _).
      rewrite (exportToArrow_type_exportable k Hk), Hv.
      destruct (exportTypeNode_rollback (MAP k v) "+m" [schemaOf None k] bad
                  (mkException VELOX_NYI msg) [] s)
        as (s' & slots & Hexport & Hrel & Hpriv & _);
        [reflexivity | reflexivity | reflexivity | |].
      * repeat constructor. apply releasesWell_schemaOf.
      * eauto.
    + destruct (IHk eq_refl zero) as (bad & msg & Hbad & _). rewrite Hbad.
      destruct (exportTypeNode_rollback (MAP k v) "+m" [] bad (mkException VELOX_NYI msg)
                  [exportToArrow_type foreignSchemaRelease v zero] s)
        as (s' & slots & Hexport & Hrel & Hpriv & _);
      [reflexivity | reflexivity | reflexivity | constructor |].
      eauto.
  - cbn in Hexp. destruct (forallb_false_split _ _ Hexp) as (pre & f & post & -> & Hpre & Hf).
    rewrite Forall_forall in IH.
    destruct (IH f ltac:(set_solver) Hf zero) as (bad & msg & Hbad & _).
    destruct (exportToArrow_row_rollback pre f post bad (mkException VELOX_NYI msg) s
                eq_refl Hpre Hbad)
      as (s' & slots & Hexport & Hrel & Hpriv & _).
    eauto.
Qed.

(** The export of a type succeeds exactly when all its nodes are of a
    supported kind. *)
Lemma exportToArrow_type_inv type s s' :
  exportToArrow_type foreignSchemaRelease type s = (s', Ok tt) ->
  exportable type = true /\ s' = schemaOf None type.
Proof.
  intros H. destruct (exportable type) eqn:Hexp.
  - rewrite (exportToArrow_type_exportable type Hexp) in H. split; congruence.
  - destruct (exportToArrow_type_unsupported type Hexp s) as (? & ? & H' & _). congruence.
Qed.
End SchemaExport.

(** ** Import of exported schemas *)

Section SchemaImport.
Import ArrowSchema.

Lemma importFromArrow_unfold (arrowSchema : ArrowSchema.t) :
  importFromArrow arrowSchema =
  match format arrowSchema with
  | None => Throw (mkException VELOX_CHECK "format")
  | Some format =>
      let c0 := charAt format 0 in
      if isChar c0 "b" then Ok BOOLEAN
      else if isChar c0 "c" then Ok TINYINT
      else if isChar c0 "s" then Ok SMALLINT
      else if isChar c0 "i" then Ok INTEGER
      else if isChar c0 "l" then Ok BIGINT
      else if isChar c0 "f" then Ok REAL
      else if isChar c0 "g" then Ok DOUBLE
      else if isChar c0 "u" || isChar c0 "U" then Ok VARCHAR
      else if isChar c0 "z" || isChar c0 "Z" then Ok VARBINARY
      else if isChar c0 "t" then
        if isChar (charAt format 1) "t" && isChar (charAt format 2) "n" then Ok TIMESTAMP
        else if isChar (charAt format 1) "d" && isChar (charAt format 2) "D" then Ok DATE
        else importFailure format
      else if isChar c0 "+" then
        let c1 := charAt format 1 in
        if isChar c1 "L" then
          check (n_children arrowSchema =? 1)%Z
            orelse mkException VELOX_CHECK "arrowSchema.n_children == 1";
          match children arrowSchema with
          | Some (child0 :: _) =>
              match child0 with
              | None => Throw (mkException VELOX_CHECK "arrowSchema.children[0]")
              | Some c => do elementType <- importFromArrow c; Ok (ARRAY elementType)
              end
          | _ => Undefined
          end
        else if isChar c1 "m" then
          check (n_children arrowSchema =? 2)%Z
            orelse mkException VELOX_CHECK "arrowSchema.n_children == 2";
          match children arrowSchema with
          | Some (child0 :: slots) =>
              match child0 with
              | None => Throw (mkException VELOX_CHECK "arrowSchema.children[0]")
              | Some k =>
                  match slots with
                  | child1 :: _ =>
                      match child1 with
                      | None => Throw (mkException VELOX_CHECK "arrowSchema.children[1]")
                      | Some v =>
                          do valueType <- importFromArrow v;
                          do keyType <- importFromArrow k;
                          Ok (MAP keyType valueType)
                      end
                  | [] => Undefined
                  end
              end
          | _ => Undefined
          end
        else if isChar c1 "s" then
          check (0 <=? n_children arrowSchema)%Z
            orelse mkException STD_LENGTH_ERROR "vector::reserve";
          do fields <-
            match children arrowSchema with
            | Some slots =>
                importChildren importFromArrow (to_size_t (n_children arrowSchema)) slots
            | None => if (to_size_t (n_children arrowSchema) <=? 0)%Z then Ok [] else Undefined
            end;
          Ok (ROW fields)
        else importFailure format
      else importFailure format
  end.
Proof. destruct arrowSchema; reflexivity. Qed.

Lemma name_schemaOf nm type : name (schemaOf nm type) = nm.
Proof. destruct type; reflexivity. Qed.

Lemma importChildren_schemaOf (fields : list (string * TypePtr)) :
  Forall (fun f => forall nm, importFromArrow (schemaOf nm f.2) = Ok (cNamed f.2)) fields ->
  importChildren importFromArrow (Z.of_nat (length fields))
    (map (fun f => Some (schemaOf (Some (c_str f.1)) f.2)) fields) =
  Ok (map (fun f => (c_str f.1, cNamed f.2)) fields).
Proof.
  induction 1 as [|f fields Hf _ IH]; [reflexivity|].
  cbn [map length importChildren].
  destruct (Z.leb_spec (Z.of_nat (S (length fields))) 0) as [Hle|_]; [lia|].
  rewrite Hf, name_schemaOf. cbn [bind default].
  replace (Z.of_nat (S (length fields)) - 1)%Z with (Z.of_nat (length fields)) by lia.
  rewrite IH. reflexivity.
Qed.

(** Importing the tree that the export of a supported type builds gives the
    type back, with every field name read as a C string. *)
Lemma importFromArrow_schemaOf type :
  exportable type = true ->
  forall nm, importFromArrow (schemaOf nm type) = Ok (cNamed type).
Proof.
  induction type as [t Hchildren Hrow | e IHe | k v IHk IHv | fields IH] using TypePtr_ind_fields;
    intros Hexp nm.
  - destruct t; try discriminate; reflexivity.
  - rewrite importFromArrow_unfold. cbn. rewrite (IHe Hexp). reflexivity.
  - cbn in Hexp. apply andb_prop in Hexp as [Hk Hv].
    rewrite importFromArrow_unfold. cbn. rewrite (IHk Hk), (IHv Hv). reflexivity.
  - cbn in Hexp. rewrite importFromArrow_unfold.
    cbn [schemaOf exportedNode format formatOf exportArrowFormatStr kind children n_children].
    rewrite length_map.
    assert (Hall : Forall (fun f => forall nm, importFromArrow (schemaOf nm f.2) = Ok (cNamed f.2))
                     fields).
    { rewrite forallb_forall in Hexp. rewrite Forall_forall in IH |- *.
      intros f Hf. apply IH; [assumption|]. apply Hexp, list_elem_of_In, Hf. }
    destruct fields as [|f fields]; [reflexivity|].
    replace (0 <? length (f :: fields))%nat with true by reflexivity.
    cbv beta iota zeta delta [charAt isChar]. cbn [String.get default Ascii.eqb Bool.eqb andb orb].
    unfold to_size_t.
    destruct (Z.ltb_spec (Z.of_nat (length (f :: fields))) 0) as [Hlt|_]; [lia|].
    rewrite (importChildren_schemaOf (f :: fields) Hall). reflexivity.
Qed.

Lemma cNamed_nulFree_scalars (fields : list (string * TypePtr)) :
  Forall (fun f => isSupportedScalar f.2 = true) fields ->
  Forall (fun f => nulFree f.1) fields ->
  cNamed (ROW fields) = ROW fields.
Proof.
  intros Hscalar Hnames. cbn. f_equal.
  induction fields as [|[n t] fields IH]; [reflexivity|].
  inversion Hscalar; inversion Hnames; subst. cbn in *.
  f_equal; [|auto]. f_equal; [assumption|]. destruct t; try discriminate; reflexivity.
Qed.
End SchemaImport.

(** ** Round trip of schemas, and rollback of a failed export *)

Section SchemaTheorems.
Import ArrowSchema.
Variable foreignSchemaRelease : N -> ArrowSchema.t -> ArrowSchema.t.

Lemma isSupportedScalar_exportable type : isSupportedScalar type = true -> exportable type = true.
Proof. destruct type; try discriminate; reflexivity. Qed.

Lemma unsupportedKind_not_exportable type :
  supportedKind (kind type) = false -> exportable type = false.
Proof. destruct type; try discriminate; reflexivity. Qed.

(** C1, as amended.  For every supported scalar type (boolean, int8, int16,
    int32, int64, float32, float64, utf8-string, binary, timestamp, date),
    importing the schema that the export of the type produces yields the
    type again; and for every row type whose fields are of supported scalar
    kinds and whose field names have no NUL character, exporting then
    importing gives the row type back: same field order, same names, same
    child kinds. *)
Theorem schema_roundtrip :
  (forall type init,
      isSupportedScalar type = true ->
      exists s, exportToArrow_type foreignSchemaRelease type init = (s, Ok tt) /\
                importFromArrow s = Ok type) /\
  (forall fields init,
      Forall (fun f => isSupportedScalar f.2 = true) fields ->
      Forall (fun f => nulFree f.1) fields ->
      exists s, exportToArrow_type foreignSchemaRelease (ROW fields) init = (s, Ok tt) /\
                importFromArrow s = Ok (ROW fields)).
Proof.
  split.
  - intros type init Hscalar. exists (schemaOf None type). split.
    + apply exportToArrow_type_exportable, isSupportedScalar_exportable, Hscalar.
    + rewrite importFromArrow_schemaOf by (apply isSupportedScalar_exportable, Hscalar).
      destruct type; try discriminate; reflexivity.
  - intros fields init Hscalar Hnames.
    assert (Hexp : exportable (ROW fields) = true).
    { cbn. apply forallb_forall. intros f Hf. apply isSupportedScalar_exportable.
      rewrite Forall_forall in Hscalar. apply Hscalar, list_elem_of_In, Hf. }
    exists (schemaOf None (ROW fields)). split.
    + apply exportToArrow_type_exportable, Hexp.
    + rewrite (importFromArrow_schemaOf _ Hexp).
      rewrite cNamed_nulFree_scalars by assumption. reflexivity.
Qed.

(** C3.  For every row type whose field at index [K] is of an unsupported
    kind, the export of the row type throws the not-implemented exception
    and leaves [release] and [private_data] of the node being exported as
    they were; every child that the node links when the exception leaves has
    been released ([release] and [private_data] are null) and stands before
    index [K]; and when the fields before [K] can be exported, these are
    exactly the children [0..K-1]. *)
Theorem schema_export_rollback (fields : list (string * TypePtr)) (K : nat)
    (f : string * TypePtr) (init : ArrowSchema.t) :
  fields !! K = Some f ->
  supportedKind (kind f.2) = false ->
  exists s e slots,
    exportToArrow_type foreignSchemaRelease (ROW fields) init = (s, Throw e) /\
    macro e = VELOX_NYI /\
    release s = release init /\ private_data s = private_data init /\
    children s = Some slots /\ length slots = length fields /\
    (forall j c, slots !! j = Some (Some c) -> j < K /\ released c) /\
    (Forall (fun g => exportable g.2 = true) (take K fields) ->
     forall j, j < K -> exists c, slots !! j = Some (Some c) /\ released c).
Proof.
  intros HK Hkind.
  assert (Hf : exportable f.2 = false) by (apply unsupportedKind_not_exportable, Hkind).
  assert (Hrow : forallb (fun g => exportable g.2) fields = false).
  { destruct (forallb _ fields) eqn:Hall; [|reflexivity].
    rewrite forallb_forall in Hall. rewrite <- Hf. symmetry. apply Hall.
    apply list_elem_of_In, list_elem_of_lookup. eauto. }
  destruct (forallb_false_split _ _ Hrow) as (pre & g & post & -> & Hpre & Hg).
  assert (Hle : length pre <= K).
  { destruct (Nat.le_gt_cases (length pre) K) as [|Hlt]; [assumption|].
    rewrite lookup_app_l in HK by assumption.
    rewrite forallb_forall in Hpre.
    rewrite (Hpre f) in Hf; [discriminate|].
    apply list_elem_of_In, list_elem_of_lookup. eauto. }
  destruct (exportToArrow_type_unsupported foreignSchemaRelease g.2 Hg zero)
    as (bad & msg & Hbad & _).
  destruct (exportToArrow_row_rollback foreignSchemaRelease pre g post bad
              (mkException VELOX_NYI msg) init eq_refl Hpre Hbad)
    as (s & slots & Hexport & Hrel & Hpriv & Hchildren & Hlen & Hall).
  exists s, (mkException VELOX_NYI msg), (slots ++ replicate (S (length post)) None).
  split; [assumption|]. split; [reflexivity|]. split; [assumption|]. split; [assumption|].
  split; [assumption|]. split; [rewrite !length_app, length_replicate; cbn; lia|].
  split.
  - intros j c Hj.
    destruct (Nat.lt_ge_cases j (length slots)) as [Hlt|Hge].
    + rewrite lookup_app_l in Hj by assumption.
      rewrite Forall_lookup in Hall. destruct (Hall _ _ Hj) as (c' & [= <-] & Hc).
      split; [lia | exact Hc].
    + rewrite lookup_app_r, lookup_replicate in Hj by assumption.
      destruct Hj as [[=] _].
  - intros Htake j Hj.
    assert (HKeq : length pre = K).
    { destruct (Nat.eq_dec (length pre) K) as [|Hne]; [assumption|]. exfalso.
      rewrite Forall_lookup in Htake.
      specialize (Htake (length pre) g). rewrite Hg in Htake.
      enough (true = false) by discriminate. symmetry. apply Htake.
      rewrite lookup_take_lt by lia. rewrite lookup_app_r by lia.
      rewrite Nat.sub_diag. reflexivity. }
    assert (Hlt : j < length slots) by lia.
    destruct (lookup_lt_is_Some_2 slots j Hlt) as [slot Hslot].
    rewrite Forall_lookup in Hall. destruct (Hall _ _ Hslot) as (c & -> & Hc).
    exists c. split; [|assumption]. rewrite lookup_app_l by assumption. assumption.
Qed.
End SchemaTheorems.

(** C1, witness: a row of scalars with plain names. *)
Lemma schema_roundtrip_witness :
  exists s, exportToArrow_type compliantSchemaRelease (ROW scalarRow) staleSchema = (s, Ok tt) /\
            importFromArrow s = Ok (ROW scalarRow).
Proof.
  apply (proj2 (schema_roundtrip compliantSchemaRelease) scalarRow staleSchema);
    repeat constructor.
Defined.

(** C1, as stated, fails on a row whose field name holds a NUL character:
    the name crosses the interface as a C string and comes back cut. *)
Lemma schema_roundtrip_nul_name_counterexample :
  Forall (fun f => isSupportedScalar f.2 = true) nulNameRow /\
  exists s, exportToArrow_type compliantSchemaRelease (ROW nulNameRow) staleSchema = (s, Ok tt) /\
            importFromArrow s = Ok (ROW [("a", INTEGER)]) /\
            importFromArrow s <> Ok (ROW nulNameRow).
Proof.
  split; [repeat constructor|].
  eexists. split; [reflexivity|]. split; [reflexivity|]. discriminate.
Qed.

(** C3, witness: the field at index 2 is of kind UNKNOWN. *)
Lemma schema_export_rollback_witness :
  exists s e slots,
    exportToArrow_type compliantSchemaRelease (ROW unsupportedRow) staleSchema = (s, Throw e) /\
    macro e = VELOX_NYI /\
    ArrowSchema.release s = ArrowSchema.release staleSchema /\
    ArrowSchema.private_data s = ArrowSchema.private_data staleSchema /\
    ArrowSchema.children s = Some slots /\ length slots = length unsupportedRow /\
    (forall j c, slots !! j = Some (Some c) -> j < 2 /\ ArrowSchema.released c) /\
    (Forall (fun g => exportable g.2 = true) (take 2 unsupportedRow) ->
     forall j, j < 2 -> exists c, slots !! j = Some (Some c) /\ ArrowSchema.released c).
Proof.
  apply (schema_export_rollback compliantSchemaRelease unsupportedRow 2 ("c", UNKNOWN) staleSchema);
    reflexivity.
Defined.

(** ** Release and export of arrays *)

Section ArrayTheorems.
Import ArrowArray.
Variable foreignArrayRelease : N -> ArrowArray.t -> ArrowArray.t.

Lemma bridgeRelease_unfold (arrowArray : ArrowArray.t) :
  bridgeRelease foreignArrayRelease arrowArray =
  match release arrowArray with
  | None => (arrowArray, Ok tt)
  | Some _ =>
      let '(slots, r) :=
        match children arrowArray with
        | Some slots =>
            let '(slots', r) :=
              releaseArrayChildren
                (releaseArrayIfLive foreignArrayRelease (bridgeRelease foreignArrayRelease))
                (n_children arrowArray) slots in
            (Some slots', r)
        | None => (None, if (n_children arrowArray <=? 0)%Z then Ok tt else Undefined)
        end in
      let arrowArray1 := set_children slots arrowArray in
      match r with
      | Ok _ =>
          let '(dict, r') :=
            releaseArrayDictionary foreignArrayRelease (bridgeRelease foreignArrayRelease)
              (dictionary arrowArray) in
          let arrowArray2 := set_dictionary dict arrowArray1 in
          match r' with
          | Ok _ =>
              match deleteArrayHolder (private_data arrowArray) with
              | Ok _ => (set_private_data None (set_release None arrowArray2), Ok tt)
              | r'' => (arrowArray2, r'')
              end
          | _ => (arrowArray2, r')
          end
      | _ => (arrowArray1, r)
      end
  end.
Proof. destruct arrowArray; reflexivity. Qed.

(** Releasing an array that is already released changes nothing. *)
Lemma bridgeRelease_released (arrowArray : ArrowArray.t) :
  release arrowArray = None ->
  bridgeRelease foreignArrayRelease arrowArray = (arrowArray, Ok tt).
Proof. intros H. rewrite bridgeRelease_unfold, H. reflexivity. Qed.

(** What a successful export of a vector leaves in the struct. *)
Lemma exportToArrow_vector_inv vector init a :
  exportToArrow_vector vector init = (a, Ok tt) ->
  BaseVector.encoding vector = VectorEncoding.FLAT /\
  flatKindSupported (BaseVector.typeKind vector) = true /\
  a = mk (BaseVector.size vector) (default (-1)%Z (BaseVector.getNullCount vector)) 0 2 0
        (Some [BaseVector.rawNulls vector; BaseVector.valuesAsVoid vector]) None None
        (Some BridgeCallback) (Some (ArrayHolder (mkArrayHolder vector))).
Proof.
  unfold exportToArrow_vector, exportFlatVector. destruct init. cbn.
  destruct (BaseVector.encoding vector); try discriminate.
  destruct (BaseVector.typeKind vector); cbn; try discriminate;
    intros [= <-]; repeat split; reflexivity.
Qed.

Lemma exportToArrow_vector_flat vector init :
  BaseVector.encoding vector = VectorEncoding.FLAT ->
  flatKindSupported (BaseVector.typeKind vector) = true ->
  exportToArrow_vector vector init =
  (mk (BaseVector.size vector) (default (-1)%Z (BaseVector.getNullCount vector)) 0 2 0
     (Some [BaseVector.rawNulls vector; BaseVector.valuesAsVoid vector]) None None
     (Some BridgeCallback) (Some (ArrayHolder (mkArrayHolder vector))), Ok tt).
Proof.
  intros Henc Hkind. unfold exportToArrow_vector, exportFlatVector. destruct init. cbn.
  rewrite Henc. destruct (BaseVector.typeKind vector); try discriminate; reflexivity.
Qed.

Lemma exportToArrow_vector_unsupported vector init :
  BaseVector.encoding vector <> VectorEncoding.FLAT \/
  flatKindSupported (BaseVector.typeKind vector) = false ->
  isNotImplemented (exportToArrow_vector vector init).2.
Proof.
  intros H. unfold exportToArrow_vector, exportFlatVector, isNotImplemented. destruct init. cbn.
  destruct (BaseVector.encoding vector) eqn:Henc; try (eexists; reflexivity).
  destruct H as [H|H]; [congruence|].
  destruct (BaseVector.typeKind vector); try discriminate; eexists; reflexivity.
Qed.

(** C8, as amended.  For every flat vector of one of the kinds boolean,
    int8, int16, int32, int64, float32 and float64, [exportToArrow] sets
    [length] to the size of the vector, [offset] to 0, [null_count] to the
    cached null count if it is known and to -1 if not, [buffers[0]] to the
    raw pointer of the null bitmap (null when the vector has no nulls
    buffer), [buffers[1]] to the raw pointer of the values, [n_children] to
    0 and [dictionary] to null; and it throws the not-implemented exception
    whenever the encoding is not flat or the kind is none of these seven,
    the kinds utf8-string, binary, timestamp and date included. *)
Theorem array_export_postconditions (vector : VectorPtr) (init : ArrowArray.t) :
  (BaseVector.encoding vector = VectorEncoding.FLAT ->
   flatKindSupported (BaseVector.typeKind vector) = true ->
   exists a,
     exportToArrow_vector vector init = (a, Ok tt) /\
     length a = BaseVector.size vector /\
     offset a = 0%Z /\
     null_count a = match BaseVector.getNullCount vector with
                    | Some count => count
                    | None => (-1)%Z
                    end /\
     buffer a 0 = Ok (BaseVector.rawNulls vector) /\
     (BaseVector.nulls vector = None -> buffer a 0 = Ok nullptr) /\
     buffer a 1 = Ok (BaseVector.valuesAsVoid vector) /\
     n_children a = 0%Z /\
     dictionary a = None) /\
  (BaseVector.encoding vector <> VectorEncoding.FLAT \/
   flatKindSupported (BaseVector.typeKind vector) = false ->
   isNotImplemented (exportToArrow_vector vector init).2).
Proof.
  split.
  - intros Henc Hkind. eexists. split; [apply exportToArrow_vector_flat; assumption|].
    cbn. split; [reflexivity|]. split; [reflexivity|].
    split; [destruct (BaseVector.getNullCount vector); reflexivity|].
    split; [reflexivity|].
    split; [intros Hnulls; unfold BaseVector.rawNulls; rewrite Hnulls; reflexivity|].
    repeat split.
  - apply exportToArrow_vector_unsupported.
Qed.

(** C10.  [exportToArrow] sets [n_buffers] to 2 on every array, whether the
    export goes on to succeed or not; on an exported array of a vector
    without a nulls buffer, [buffers[0]] is null and is still counted; so an
    exported array passes the test of [n_buffers] of the importer. *)
Theorem exported_array_has_two_buffers :
  (forall vector init, n_buffers (exportToArrow_vector vector init).1 = 2%Z) /\
  (forall vector init a,
      exportToArrow_vector vector init = (a, Ok tt) ->
      (BaseVector.nulls vector = None -> buffer a 0 = Ok nullptr) /\
      exists p0 p1, buffers a = Some [p0; p1]) /\
  (forall cppSizeInBytes vector init a type,
      exportToArrow_vector vector init = (a, Ok tt) ->
      importValuesBuffer cppSizeInBytes a type =
      (do width <- cppSizeInBytes type;
       Ok (BaseVector.valuesAsVoid vector,
           ((to_size_t (length a) * width) mod 2 ^ 64)%Z))).
Proof.
  split; [|split].
  - intros vector init. unfold exportToArrow_vector, exportFlatVector. destruct init. cbn.
    destruct (BaseVector.encoding vector); try reflexivity.
    destruct (BaseVector.typeKind vector); reflexivity.
  - intros vector init a H. apply exportToArrow_vector_inv in H as (_ & _ & ->). split.
    + intros Hnulls. unfold BaseVector.rawNulls. rewrite Hnulls. reflexivity.
    + eexists _, _. reflexivity.
  - intros cpp vector init a type H. apply exportToArrow_vector_inv in H as (_ & _ & ->).
    reflexivity.
Qed.
End ArrayTheorems.

(** C8, witness: a flat int32 vector. *)
Lemma array_export_postconditions_witness :
  exists a,
    exportToArrow_vector fiveInts staleArray = (a, Ok tt) /\
    ArrowArray.length a = BaseVector.size fiveInts /\
    ArrowArray.offset a = 0%Z /\
    ArrowArray.null_count a = match BaseVector.getNullCount fiveInts with
                              | Some count => count
                              | None => (-1)%Z
                              end /\
    ArrowArray.buffer a 0 = Ok (BaseVector.rawNulls fiveInts) /\
    (BaseVector.nulls fiveInts = None -> ArrowArray.buffer a 0 = Ok nullptr) /\
    ArrowArray.buffer a 1 = Ok (BaseVector.valuesAsVoid fiveInts) /\
    ArrowArray.n_children a = 0%Z /\
    ArrowArray.dictionary a = None.
Proof.
  apply (proj1 (array_export_postconditions fiveInts staleArray)); reflexivity.
Defined.

(** C8, as stated, fails on a flat vector of strings: utf8-string is one of
    the supported scalar kinds, and the export of the vector throws the
    not-implemented exception instead of filling the struct. *)
Lemma array_export_postconditions_counterexample :
  BaseVector.encoding twoStrings = VectorEncoding.FLAT /\
  isSupportedScalar (BaseVector.type twoStrings) = true /\
  isNotImplemented (exportToArrow_vector twoStrings staleArray).2 /\
  ~ exists a, exportToArrow_vector twoStrings staleArray = (a, Ok tt).
Proof.
  split; [reflexivity|]. split; [reflexivity|]. split.
  - eexists. reflexivity.
  - intros [a Hexport]. discriminate Hexport.
Qed.

(** C10, witness. *)
Lemma exported_array_has_two_buffers_witness :
  (BaseVector.nulls fiveInts = None ->
   ArrowArray.buffer (exportToArrow_vector fiveInts staleArray).1 0 = Ok nullptr) /\
  exists p0 p1, ArrowArray.buffers (exportToArrow_vector fiveInts staleArray).1 = Some [p0; p1].
Proof.
  apply (proj1 (proj2 exported_array_has_two_buffers) fiveInts staleArray). reflexivity.
Defined.

(** ** Idempotence of release *)

Section ReleaseTheorems.
Variable foreignSchemaRelease : N -> ArrowSchema.t -> ArrowSchema.t.
Variable foreignArrayRelease : N -> ArrowArray.t -> ArrowArray.t.

(** Every node of an exported tree is itself a tree that the export
    builds. *)
Lemma schemaNodeOf_schemaOf nm type c :
  schemaNodeOf (schemaOf nm type) c -> exists nm' type', c = schemaOf nm' type'.
Proof.
  induction 1 as [|parent i c _ (nm' & type' & ->) Hchild]; [eauto|].
  unfold ArrowSchema.child in Hchild.
  destruct type'; cbn in Hchild; try discriminate.
  - destruct i as [|[|i]]; cbn in Hchild; try discriminate.
    injection Hchild as <-. eauto.
  - destruct i as [|[|[|i]]]; cbn in Hchild; try discriminate;
      injection Hchild as <-; eauto.
  - destruct fields as [|f fields]; [discriminate|].
    change (match (map (fun g : string * TypePtr => Some (schemaOf (Some (c_str g.1)) g.2))
                     (f :: fields)) !! i with
            | Some c => Ok c
            | None => Undefined
            end = Ok (Some c)) in Hchild.
    rewrite list_lookup_fmap in Hchild.
    destruct ((f :: fields) !! i) as [g|]; cbn in Hchild; [|discriminate].
    injection Hchild as <-. eauto.
Qed.

(** C2.  Calling the release function on a schema or on an array whose
    [release] is already null changes nothing; and on every node of a schema
    tree that the export of a type has built, and on the array that the
    export of a vector has built, the first call succeeds and leaves
    [release] and [private_data] null, and a second call changes nothing. *)
Theorem release_idempotent :
  (forall s, ArrowSchema.release s = None ->
             bridgeSchemaRelease foreignSchemaRelease s = (s, Ok tt)) /\
  (forall a, ArrowArray.release a = None ->
             bridgeRelease foreignArrayRelease a = (a, Ok tt)) /\
  (forall type init s c,
      exportToArrow_type foreignSchemaRelease type init = (s, Ok tt) ->
      schemaNodeOf s c ->
      exists c',
        bridgeSchemaRelease foreignSchemaRelease c = (c', Ok tt) /\
        ArrowSchema.released c' /\
        bridgeSchemaRelease foreignSchemaRelease c' = (c', Ok tt)) /\
  (forall vector init a,
      exportToArrow_vector vector init = (a, Ok tt) ->
      exists a',
        bridgeRelease foreignArrayRelease a = (a', Ok tt) /\
        ArrowArray.released a' /\
        bridgeRelease foreignArrayRelease a' = (a', Ok tt)).
Proof.
  split; [apply bridgeSchemaRelease_released|].
  split; [apply bridgeRelease_released|].
  split.
  - intros type init s c Hexport Hnode.
    apply exportToArrow_type_inv in Hexport as [_ ->].
    destruct (schemaNodeOf_schemaOf _ _ _ Hnode) as (nm' & type' & ->).
    destruct (bridgeSchemaRelease_schemaOf foreignSchemaRelease type' nm') as (c' & Hc' & Hrel).
    exists c'. repeat split; try assumption; try apply Hrel.
    apply bridgeSchemaRelease_released, Hrel.
  - intros vector init a Hexport.
    apply exportToArrow_vector_inv in Hexport as (_ & _ & ->).
    eexists. split; [rewrite bridgeRelease_unfold; reflexivity|].
    split; [split; reflexivity|]. apply bridgeRelease_released. reflexivity.
Qed.
End ReleaseTheorems.

(** C2, witness: the schema exported for a row of scalars, and the array
    exported for a flat int32 vector. *)
Lemma release_idempotent_witness :
  (exists c',
      bridgeSchemaRelease compliantSchemaRelease
        (exportToArrow_type compliantSchemaRelease (ROW scalarRow) staleSchema).1 = (c', Ok tt) /\
      ArrowSchema.released c' /\
      bridgeSchemaRelease compliantSchemaRelease c' = (c', Ok tt)) /\
  (exists a',
      bridgeRelease compliantArrayRelease (exportToArrow_vector fiveInts staleArray).1
        = (a', Ok tt) /\
      ArrowArray.released a' /\
      bridgeRelease compliantArrayRelease a' = (a', Ok tt)).
Proof.
  split.
  - apply (proj1 (proj2 (proj2 (release_idempotent compliantSchemaRelease compliantArrayRelease)))
             (ROW scalarRow) staleSchema
             (exportToArrow_type compliantSchemaRelease (ROW scalarRow) staleSchema).1);
      [reflexivity | constructor].
  - apply (proj2 (proj2 (proj2 (release_idempotent compliantSchemaRelease compliantArrayRelease)))
             fiveInts staleArray). reflexivity.
Defined.

(** ** Import of arrays *)

Section ImportLemmas.
Variable cppSizeInBytes : TypePtr -> Outcome Z.

(** The only primitive types that the parse of a schema gives are the
    scalar kinds with a format. *)
Lemma importFromArrow_primitive_scalar arrowSchema type :
  importFromArrow arrowSchema = Ok type ->
  isPrimitiveType type = true ->
  isSupportedScalar type = true.
Proof.
  intros H Hprim. rewrite importFromArrow_unfold in H.
  unfold bind, importFailure in H. cbv zeta in H.
  repeat match type of H with
         | context [if ?b then _ else _] => destruct b
         | context [match ?x with _ => _ end] => destruct x
         end;
    try discriminate; injection H as <-; first [reflexivity | discriminate].
Qed.

(** The first part of the import succeeds exactly when the tests on the two
    structs pass and the schema parses into a primitive type. *)
Lemma importChecks_Ok arrowSchema arrowArray type :
  importChecks arrowSchema arrowArray = Ok type <->
  structsAcceptable arrowSchema arrowArray /\
  importFromArrow arrowSchema = Ok type /\ isPrimitiveType type = true.
Proof.
  unfold importChecks, structsAcceptable, bind.
  destruct (ArrowSchema.release arrowSchema), (ArrowArray.release arrowArray),
    (ArrowArray.dictionary arrowArray), (ArrowArray.children arrowArray);
    cbn [isNull negb andb];
    destruct (Z.eqb_spec (ArrowArray.n_children arrowArray) 0);
    destruct (Z.eqb_spec (ArrowArray.offset arrowArray) 0);
    destruct (Z.leb_spec 0 (ArrowArray.length arrowArray));
    cbn [isNull negb andb];
    try (split; [discriminate | intros ((? & ? & ? & ? & ? & ? & ?) & _); congruence || lia]).
  destruct (importFromArrow arrowSchema) as [t| |]; [|split; [discriminate | intros (_ & [=] & _)]..].
  destruct (isPrimitiveType t) eqn:Hprim.
  - split.
    + intros [= <-]. repeat split; congruence.
    + intros (_ & [= <-] & _). reflexivity.
  - split; [discriminate|]. intros (_ & [= <-] & ?). congruence.
Qed.

(** The dispatch on the kind of a scalar type runs the function. *)
Lemma scalarTypeDispatch_scalar {A : Type} type (f : Outcome A) :
  isSupportedScalar type = true -> scalarTypeDispatch (kind type) f = f.
Proof. destruct type; try discriminate; reflexivity. Qed.

(** When the three tests pass, [importFromArrowImpl] wraps the buffers and
    builds the vector. *)
Lemma importFromArrowImpl_Ok arrowSchema arrowArray pool wrapInBufferView st
    type nullsAddress buffer1 length :
  importVerdict cppSizeInBytes arrowSchema arrowArray = Ok (type, nullsAddress, (buffer1, length)) ->
  importFromArrowImpl cppSizeInBytes arrowSchema arrowArray pool wrapInBufferView st =
  let '(nulls, st1) :=
    match nullsAddress with
    | Some buffer0 => wrapInBufferView buffer0 (nbytes (ArrowArray.length arrowArray)) st
    | None => (None, st)
    end in
  let '(values, st2) := wrapInBufferView buffer1 length st1 in
  (st2, Ok (createFlatVector pool type nulls (ArrowArray.length arrowArray) values
              (ArrowArray.null_count arrowArray))).
Proof.
  unfold importVerdict, importFromArrowImpl, bind.
  destruct (importChecks arrowSchema arrowArray) as [t| |] eqn:Hchecks; try discriminate.
  destruct (importNullsBuffer arrowArray) as [na| |]; try discriminate.
  destruct (importValuesBuffer cppSizeInBytes arrowArray t) as [[b1 len]| |]; try discriminate.
  intros [= -> -> -> ->].
  apply importChecks_Ok in Hchecks as (_ & Himport & Hprim).
  assert (Hscalar : isSupportedScalar type = true)
    by (eapply importFromArrow_primitive_scalar; eassumption).
  destruct nullsAddress as [b0|].
  - destruct (wrapInBufferView b0 _ st) as [nulls st1].
    destruct (wrapInBufferView buffer1 length st1).
    rewrite scalarTypeDispatch_scalar by assumption. reflexivity.
  - destruct (wrapInBufferView buffer1 length st).
    rewrite scalarTypeDispatch_scalar by assumption. reflexivity.
Qed.

(** When one of the three tests fails, [importFromArrowImpl] ends the way
    the test does. *)
Lemma importFromArrowImpl_not_Ok arrowSchema arrowArray pool wrapInBufferView st :
  (forall e, importVerdict cppSizeInBytes arrowSchema arrowArray = Throw e ->
             (importFromArrowImpl cppSizeInBytes arrowSchema arrowArray pool wrapInBufferView st).2
             = Throw e) /\
  (importVerdict cppSizeInBytes arrowSchema arrowArray = Undefined ->
   (importFromArrowImpl cppSizeInBytes arrowSchema arrowArray pool wrapInBufferView st).2
   = Undefined).
Proof.
  unfold importVerdict, importFromArrowImpl, bind.
  destruct (importChecks arrowSchema arrowArray) as [t|e1|];
    [|split; [intros ? [= <-]; reflexivity | discriminate]
     |split; [discriminate | reflexivity]].
  destruct (importNullsBuffer arrowArray) as [na|e2|];
    [|split; [intros ? [= <-]; reflexivity | discriminate]
     |split; [discriminate | reflexivity]].
  destruct (match na with
            | Some buffer0 => wrapInBufferView buffer0 (nbytes (ArrowArray.length arrowArray)) st
            | None => (None, st)
            end) as [nulls st1].
  destruct (importValuesBuffer cppSizeInBytes arrowArray t) as [[b1 len]|e3|];
    [split; discriminate
    |split; [intros ? [= <-]; reflexivity | discriminate]
    |split; [discriminate | reflexivity]].
Qed.

(** The outcome of the owner entry point is the outcome of
    [importFromArrowImpl]. *)
Lemma importFromArrowAsOwner_outcome arrowSchema arrowArray pool st :
  exists wrapInBufferView st0,
    (importFromArrowAsOwner cppSizeInBytes arrowSchema arrowArray pool st).2 =
    (importFromArrowImpl cppSizeInBytes arrowSchema arrowArray pool wrapInBufferView st0).2.
Proof.
  unfold importFromArrowAsOwner. cbn [newSchemaReleaser newArrayReleaser].
  eexists _, _.
  match goal with
  | |- context [importFromArrowImpl ?c ?s ?a ?p ?w ?st0] =>
      destruct (importFromArrowImpl c s a p w st0) as [st' [v| |]] eqn:Himpl
  end; cbn; rewrite Himpl; reflexivity.
Qed.

Lemma import_verdict_Throw arrowSchema arrowArray pool st e :
  importVerdict cppSizeInBytes arrowSchema arrowArray = Throw e ->
  importRejects cppSizeInBytes arrowSchema arrowArray pool st e.
Proof.
  intros H. split.
  - apply importFromArrowImpl_not_Ok, H.
  - destruct (importFromArrowAsOwner_outcome arrowSchema arrowArray pool st) as (w & st0 & ->).
    apply importFromArrowImpl_not_Ok, H.
Qed.


Lemma import_verdict_not_Ok arrowSchema arrowArray pool st :
  isOk (importVerdict cppSizeInBytes arrowSchema arrowArray) = false ->
  importFails cppSizeInBytes arrowSchema arrowArray pool st.
Proof.
  destruct (importVerdict cppSizeInBytes arrowSchema arrowArray) as [v|e|] eqn:H;
    [discriminate| |]; intros _.
  - destruct (import_verdict_Throw _ _ pool st _ H) as [Hv Ho].
    split; [rewrite Hv | rewrite Ho]; reflexivity.
  - split.
    + unfold importFromArrowAsViewer.
      rewrite (proj2 (importFromArrowImpl_not_Ok _ _ _ _ _) H). reflexivity.
    + destruct (importFromArrowAsOwner_outcome arrowSchema arrowArray pool st) as (w & st0 & ->).
      rewrite (proj2 (importFromArrowImpl_not_Ok _ _ _ _ _) H). reflexivity.
Qed.
End ImportLemmas.

(** ** The store *)

Lemma copySchemaReleaser_insert key node n schemas arrays calls :
  copySchemaReleaser (Some key) (mkStore (<[key := mkBlock node n]> schemas) arrays calls) =
  mkStore (<[key := mkBlock node (S n)]> schemas) arrays calls.
Proof. unfold copySchemaReleaser. cbn. rewrite alter_insert_eq. reflexivity. Qed.

Lemma copyArrayReleaser_insert key node n schemas arrays calls :
  copyArrayReleaser (Some key) (mkStore schemas (<[key := mkBlock node n]> arrays) calls) =
  mkStore schemas (<[key := mkBlock node (S n)]> arrays) calls.
Proof. unfold copyArrayReleaser. cbn. rewrite alter_insert_eq. reflexivity. Qed.

(** Dropping a reference that is not the last one only counts down. *)
Lemma dropSchemaReleaser_shared key node n schemas arrays calls :
  dropSchemaReleaser (Some key)
    (mkStore (<[key := mkBlock node (S (S n))]> schemas) arrays calls) =
  mkStore (<[key := mkBlock node (S n)]> schemas) arrays calls.
Proof.
  unfold dropSchemaReleaser. cbn. rewrite lookup_insert_eq. cbn.
  rewrite insert_insert_eq. reflexivity.
Qed.

Lemma dropArrayReleaser_shared key node n schemas arrays calls :
  dropArrayReleaser (Some key)
    (mkStore schemas (<[key := mkBlock node (S (S n))]> arrays) calls) =
  mkStore schemas (<[key := mkBlock node (S n)]> arrays) calls.
Proof.
  unfold dropArrayReleaser. cbn. rewrite lookup_insert_eq. cbn.
  rewrite insert_insert_eq. reflexivity.
Qed.

(** Dropping the last reference runs the deleter and frees the block. *)
Lemma dropSchemaReleaser_last key node (schemas : gmap nat (ControlBlock ArrowSchema.t))
    arrays calls :
  schemas !! key = None ->
  dropSchemaReleaser (Some key) (mkStore (<[key := mkBlock node 1]> schemas) arrays calls) =
  mkStore schemas arrays (schemaDeleter node calls).
Proof.
  intros Hfresh. unfold dropSchemaReleaser. cbn. rewrite lookup_insert_eq. cbn.
  rewrite delete_insert_id by assumption. reflexivity.
Qed.

Lemma dropArrayReleaser_last key node schemas (arrays : gmap nat (ControlBlock ArrowArray.t))
    calls :
  arrays !! key = None ->
  dropArrayReleaser (Some key) (mkStore schemas (<[key := mkBlock node 1]> arrays) calls) =
  mkStore schemas arrays (arrayDeleter node calls).
Proof.
  intros Hfresh. unfold dropArrayReleaser. cbn. rewrite lookup_insert_eq. cbn.
  rewrite delete_insert_id by assumption. reflexivity.
Qed.

Lemma fresh_key_free {T : Type} (blocks : gmap nat T) : blocks !! fresh (dom blocks) = None.
Proof. apply not_elem_of_dom_1, is_fresh. Qed.

(** ** The two entry points of the import *)

Section ImportEntryPoints.
Variable cppSizeInBytes : TypePtr -> Outcome Z.

(** The viewer entry point leaves the store as it is. *)
Lemma importFromArrowAsViewer_Ok arrowSchema arrowArray pool st type nullsAddress buffer1 length :
  importVerdict cppSizeInBytes arrowSchema arrowArray = Ok (type, nullsAddress, (buffer1, length)) ->
  importFromArrowAsViewer cppSizeInBytes arrowSchema arrowArray pool st =
  (st, Ok (importedVector pool arrowArray kViewerReleaser type nullsAddress buffer1 length)).
Proof.
  intros H. unfold importFromArrowAsViewer.
  rewrite (importFromArrowImpl_Ok _ _ _ _ _ _ _ _ _ _ H). destruct nullsAddress; reflexivity.
Qed.

(** The owner entry point marks the two structs of the caller as released
    and leaves two control blocks in the store, each with one reference for
    every view of the vector. *)
Lemma importFromArrowAsOwner_Ok arrowSchema arrowArray pool st type nullsAddress buffer1 length :
  importVerdict cppSizeInBytes arrowSchema arrowArray = Ok (type, nullsAddress, (buffer1, length)) ->
  importFromArrowAsOwner cppSizeInBytes arrowSchema arrowArray pool st =
  ((ArrowSchema.set_release None arrowSchema, ArrowArray.set_release None arrowArray,
    mkStore
      (<[fresh (dom (schemaBlocks st)) :=
           mkBlock arrowSchema (viewCount nullsAddress)]> (schemaBlocks st))
      (<[fresh (dom (arrayBlocks st)) :=
           mkBlock arrowArray (viewCount nullsAddress)]> (arrayBlocks st))
      (releaseCalls st)),
   Ok (importedVector pool arrowArray
         (mkReleaser (Some (fresh (dom (schemaBlocks st)))) (Some (fresh (dom (arrayBlocks st)))))
         type nullsAddress buffer1 length)).
Proof.
  intros H. unfold importFromArrowAsOwner. cbn [newSchemaReleaser newArrayReleaser].
  cbn [schemaBlocks arrayBlocks releaseCalls].
  rewrite (importFromArrowImpl_Ok _ _ _ _ _ _ _ _ _ _ H).
  destruct nullsAddress as [buffer0|]; cbv beta iota zeta; cbn [viewCount].
  - rewrite !copySchemaReleaser_insert, !copyArrayReleaser_insert.
    rewrite copySchemaReleaser_insert, copyArrayReleaser_insert.
    rewrite dropArrayReleaser_shared, dropSchemaReleaser_shared. reflexivity.
  - rewrite !copySchemaReleaser_insert, !copyArrayReleaser_insert.
    rewrite dropArrayReleaser_shared, dropSchemaReleaser_shared. reflexivity.
Qed.

(** A successful call of the owner entry point is one whose three tests
    passed. *)
Lemma importFromArrowAsOwner_inv arrowSchema arrowArray pool st result vector :
  importFromArrowAsOwner cppSizeInBytes arrowSchema arrowArray pool st = (result, Ok vector) ->
  exists type nullsAddress buffer1 length,
    importVerdict cppSizeInBytes arrowSchema arrowArray
    = Ok (type, nullsAddress, (buffer1, length)).
Proof.
  intros H.
  destruct (importVerdict cppSizeInBytes arrowSchema arrowArray)
    as [[[type na] [b1 len]]|e|] eqn:Hverdict; [eauto| |].
  - destruct (import_verdict_Throw _ _ _ pool st _ Hverdict) as [_ Ho].
    rewrite H in Ho. discriminate.
  - destruct (import_verdict_not_Ok cppSizeInBytes arrowSchema arrowArray pool st) as [_ Ho];
      [rewrite Hverdict; reflexivity|].
    rewrite H in Ho. discriminate.
Qed.

Lemma importFromArrowAsViewer_inv arrowSchema arrowArray pool st st' vector :
  importFromArrowAsViewer cppSizeInBytes arrowSchema arrowArray pool st = (st', Ok vector) ->
  exists type nullsAddress buffer1 length,
    importVerdict cppSizeInBytes arrowSchema arrowArray
    = Ok (type, nullsAddress, (buffer1, length)).
Proof.
  intros H.
  destruct (importVerdict cppSizeInBytes arrowSchema arrowArray)
    as [[[type na] [b1 len]]|e|] eqn:Hverdict; [eauto| |].
  - destruct (import_verdict_Throw _ _ _ pool st _ Hverdict) as [Hv _].
    rewrite H in Hv. discriminate.
  - destruct (import_verdict_not_Ok cppSizeInBytes arrowSchema arrowArray pool st) as [Hv _];
      [rewrite Hverdict; reflexivity|].
    rewrite H in Hv. discriminate.
Qed.

(** Destroying the vector of an owner import drops the last references to
    the two control blocks: each deleter runs, the one of the array first. *)
Lemma destroyVector_owner pool arrowSchema arrowArray type nullsAddress buffer1 length
    (schemas : gmap nat (ControlBlock ArrowSchema.t))
    (arrays : gmap nat (ControlBlock ArrowArray.t)) calls schemaKey arrayKey :
  schemas !! schemaKey = None ->
  arrays !! arrayKey = None ->
  destroyVector
    (importedVector pool arrowArray (mkReleaser (Some schemaKey) (Some arrayKey))
       type nullsAddress buffer1 length)
    (mkStore (<[schemaKey := mkBlock arrowSchema (viewCount nullsAddress)]> schemas)
       (<[arrayKey := mkBlock arrowArray (viewCount nullsAddress)]> arrays) calls) =
  mkStore schemas arrays (schemaDeleter arrowSchema (arrayDeleter arrowArray calls)).
Proof.
  intros Hschema Harray. unfold destroyVector, importedVector, createFlatVector.
  cbn [BaseVector.nulls BaseVector.values destroyBuffer buffer_releaser destroyReleaser
       schemaReleaser_ arrayReleaser_].
  destruct nullsAddress as [buffer0|];
    cbn [viewCount destroyBuffer buffer_releaser]; unfold destroyReleaser;
    cbn [schemaReleaser_ arrayReleaser_].
  - rewrite dropArrayReleaser_shared, dropSchemaReleaser_shared.
    rewrite dropArrayReleaser_last by assumption.
    rewrite dropSchemaReleaser_last by assumption. reflexivity.
  - rewrite dropArrayReleaser_last by assumption.
    rewrite dropSchemaReleaser_last by assumption. reflexivity.
Qed.
End ImportEntryPoints.

(** ** Preconditions of the import *)

Section ImportPreconditions.
Variable cppSizeInBytes : TypePtr -> Outcome Z.

Lemma importChecks_acceptable arrowSchema arrowArray :
  structsAcceptable arrowSchema arrowArray ->
  importChecks arrowSchema arrowArray =
  (do type <- importFromArrow arrowSchema;
   check isPrimitiveType type orelse notPrimitiveError;
   Ok type).
Proof.
  intros (Hs & Ha & Hd & Hn & Hc & Ho & Hl). unfold importChecks.
  destruct (ArrowSchema.release arrowSchema); [|congruence].
  destruct (ArrowArray.release arrowArray); [|congruence].
  rewrite Hd, Hn, Hc, Ho. cbn [isNull negb andb Z.eqb].
  destruct (Z.leb_spec 0 (ArrowArray.length arrowArray)); [reflexivity | lia].
Qed.


Lemma importVerdict_Ok_inv arrowSchema arrowArray type nullsAddress buffer1 length :
  importVerdict cppSizeInBytes arrowSchema arrowArray
  = Ok (type, nullsAddress, (buffer1, length)) ->
  structsAcceptable arrowSchema arrowArray /\
  importFromArrow arrowSchema = Ok type /\ isPrimitiveType type = true /\
  importNullsBuffer arrowArray = Ok nullsAddress /\
  ArrowArray.n_buffers arrowArray = 2%Z /\
  ArrowArray.buffer arrowArray 1 = Ok buffer1 /\
  exists width,
    cppSizeInBytes type = Ok width /\
    length = ((to_size_t (ArrowArray.length arrowArray) * width) mod 2 ^ 64)%Z.
Proof.
  unfold importVerdict, bind.
  destruct (importChecks arrowSchema arrowArray) as [t| |] eqn:Hchecks; try discriminate.
  destruct (importNullsBuffer arrowArray) as [na| |]; try discriminate.
  destruct (importValuesBuffer cppSizeInBytes arrowArray t) as [[b1 len]| |] eqn:Hvalues;
    try discriminate.
  intros [= -> -> -> ->].
  apply importChecks_Ok in Hchecks as (Hacc & Himport & Hprim).
  unfold importValuesBuffer, bind in Hvalues.
  destruct (Z.eqb_spec (ArrowArray.n_buffers arrowArray) 2); [|discriminate].
  destruct (ArrowArray.buffer arrowArray 1) as [b1| |]; try discriminate.
  destruct (cppSizeInBytes type) as [w| |]; try discriminate.
  injection Hvalues as <- <-.
  split; [exact Hacc|]. repeat split; try assumption. eauto.
Qed.




End ImportPreconditions.



(** ** The nulls buffer, the values buffer and the ownership of an import *)

Section ImportTheorems.
Variable cppSizeInBytes : TypePtr -> Outcome Z.

Lemma nbytes_ceiling (bits : Z) :
  (8 * (nbytes bits - 1) < bits <= 8 * nbytes bits)%Z.
Proof.
  unfold nbytes.
  pose proof (Z.div_mod (bits + 7) 8 ltac:(lia)).
  pose proof (Z.mod_pos_bound (bits + 7) 8 ltac:(lia)). lia.
Qed.

Lemma importNullsBuffer_Some arrowArray buffer0 :
  importNullsBuffer arrowArray = Ok (Some buffer0) ->
  ArrowArray.buffer arrowArray 0 = Ok buffer0.
Proof.
  unfold importNullsBuffer, bind.
  destruct (ArrowArray.buffer arrowArray 0) as [b0| |];
    [|destruct (negb _); discriminate..].
  destruct (negb _); destruct (_ =? _)%N; cbn; congruence.
Qed.

(** C7.  An array with [null_count] zero and a nulls buffer is rejected,
    and so is an array with a non-zero [null_count] (-1 included) and no
    nulls buffer: when the tests before the one of the nulls buffer pass,
    both entry points throw the error of that test, and when one of them
    throws, both entry points throw its error.  With a non-zero
    [null_count] and a nulls buffer, on an array and a schema that pass the
    other tests, the import succeeds and wraps [buffers[0]] into a view of
    [nbytes length] bytes, the ceiling of [length / 8]. *)
Theorem nulls_buffer_consistency (arrowSchema : ArrowSchema.t) (arrowArray : ArrowArray.t)
    (pool : N) (st : Store) :
  (forall buffer0,
      ArrowArray.null_count arrowArray = 0%Z ->
      ArrowArray.buffer arrowArray 0 = Ok buffer0 ->
      buffer0 <> nullptr ->
      (forall type, importChecks arrowSchema arrowArray = Ok type ->
         importRejects cppSizeInBytes arrowSchema arrowArray pool st nullsUnexpectedError) /\
      (forall e, importChecks arrowSchema arrowArray = Throw e ->
         importRejects cppSizeInBytes arrowSchema arrowArray pool st e)) /\
  (ArrowArray.null_count arrowArray <> 0%Z ->
   ArrowArray.buffer arrowArray 0 = Ok nullptr ->
   (forall type, importChecks arrowSchema arrowArray = Ok type ->
      importRejects cppSizeInBytes arrowSchema arrowArray pool st nullsMissingError) /\
   (forall e, importChecks arrowSchema arrowArray = Throw e ->
      importRejects cppSizeInBytes arrowSchema arrowArray pool st e)) /\
  (forall buffer0 type buffer1 width,
      ArrowArray.null_count arrowArray <> 0%Z ->
      ArrowArray.buffer arrowArray 0 = Ok buffer0 ->
      buffer0 <> nullptr ->
      structsAcceptable arrowSchema arrowArray ->
      importFromArrow arrowSchema = Ok type ->
      isPrimitiveType type = true ->
      ArrowArray.n_buffers arrowArray = 2%Z ->
      ArrowArray.buffer arrowArray 1 = Ok buffer1 ->
      cppSizeInBytes type = Ok width ->
      exists viewed owned result viewedNulls ownedNulls,
        importFromArrowAsViewer cppSizeInBytes arrowSchema arrowArray pool st
        = (st, Ok viewed) /\
        importFromArrowAsOwner cppSizeInBytes arrowSchema arrowArray pool st
        = (result, Ok owned) /\
        BaseVector.nulls viewed = Some viewedNulls /\
        BaseVector.nulls owned = Some ownedNulls /\
        buffer_data viewedNulls = buffer0 /\
        buffer_data ownedNulls = buffer0 /\
        buffer_size viewedNulls = nbytes (ArrowArray.length arrowArray) /\
        buffer_size ownedNulls = nbytes (ArrowArray.length arrowArray) /\
        (8 * (nbytes (ArrowArray.length arrowArray) - 1) < ArrowArray.length arrowArray
         <= 8 * nbytes (ArrowArray.length arrowArray))%Z).
Proof.
  split; [|split].
  - intros buffer0 Hcount Hbuffer Hnonnull.
    assert (Hnulls : importNullsBuffer arrowArray = Throw nullsUnexpectedError).
    { unfold importNullsBuffer. rewrite Hcount, Hbuffer. cbn.
      destruct (N.eqb_spec buffer0 nullptr); [contradiction | reflexivity]. }
    split.
    + intros type Hchecks. apply import_verdict_Throw. unfold importVerdict.
      rewrite Hchecks. cbn [bind]. rewrite Hnulls. reflexivity.
    + intros e Hchecks. apply import_verdict_Throw. unfold importVerdict.
      rewrite Hchecks. reflexivity.
  - intros Hcount Hbuffer.
    assert (Hnulls : importNullsBuffer arrowArray = Throw nullsMissingError).
    { unfold importNullsBuffer. rewrite Hbuffer.
      destruct (Z.eqb_spec (ArrowArray.null_count arrowArray) 0); [contradiction | reflexivity]. }
    split.
    + intros type Hchecks. apply import_verdict_Throw. unfold importVerdict.
      rewrite Hchecks. cbn [bind]. rewrite Hnulls. reflexivity.
    + intros e Hchecks. apply import_verdict_Throw. unfold importVerdict.
      rewrite Hchecks. reflexivity.
  - intros buffer0 type buffer1 width Hcount Hbuffer Hnonnull Hacc Himport Hprim Hn Hb1 Hwidth.
    assert (Hverdict : importVerdict cppSizeInBytes arrowSchema arrowArray =
                       Ok (type, Some buffer0,
                           (buffer1,
                            ((to_size_t (ArrowArray.length arrowArray) * width) mod 2 ^ 64)%Z))).
    { unfold importVerdict. rewrite (importChecks_acceptable _ _ Hacc), Himport. cbn [bind].
      rewrite Hprim. unfold importNullsBuffer. rewrite Hbuffer.
      destruct (Z.eqb_spec (ArrowArray.null_count arrowArray) 0); [contradiction|].
      cbn [negb bind].
      destruct (N.eqb_spec buffer0 nullptr); [contradiction|]. cbn [negb bind].
      unfold importValuesBuffer. rewrite Hn, Hb1, Hwidth. reflexivity. }
    eexists _, _, _, _, _.
    split; [apply importFromArrowAsViewer_Ok, Hverdict|].
    split; [apply importFromArrowAsOwner_Ok, Hverdict|].
    repeat split; try reflexivity; apply nbytes_ceiling.
Qed.

(** C9.  For every array that [importFromArrowAsViewer] accepts, the values
    buffer of the vector is a view that starts at the foreign address
    [buffers[1]], and the nulls buffer, when there is one, a view that
    starts at [buffers[0]]; the views hold no shared pointer and the store
    is left as it was. *)
Theorem viewer_import_zero_copy (arrowSchema : ArrowSchema.t) (arrowArray : ArrowArray.t)
    (pool : N) (st st' : Store) (vector : VectorPtr) :
  importFromArrowAsViewer cppSizeInBytes arrowSchema arrowArray pool st = (st', Ok vector) ->
  st' = st /\
  (exists values,
      BaseVector.values vector = Some values /\
      ArrowArray.buffer arrowArray 1 = Ok (buffer_data values) /\
      buffer_releaser values = kViewerReleaser) /\
  ArrowArray.buffer arrowArray 1 = Ok (BaseVector.valuesAsVoid vector) /\
  (forall nulls,
      BaseVector.nulls vector = Some nulls ->
      ArrowArray.buffer arrowArray 0 = Ok (buffer_data nulls) /\
      ArrowArray.buffer arrowArray 0 = Ok (BaseVector.rawNulls vector) /\
      buffer_releaser nulls = kViewerReleaser).
Proof.
  intros H.
  destruct (importFromArrowAsViewer_inv _ _ _ _ _ _ _ H) as (type & na & b1 & len & Hverdict).
  rewrite (importFromArrowAsViewer_Ok _ _ _ pool st _ _ _ _ Hverdict) in H.
  injection H as <- <-.
  apply importVerdict_Ok_inv in Hverdict as (_ & _ & _ & Hnulls & _ & Hb1 & _).
  split; [reflexivity|]. split; [eexists; repeat split; assumption|].
  split; [assumption|].
  intros nulls Hsome. destruct na as [b0|]; [|discriminate].
  apply importNullsBuffer_Some in Hnulls.
  unfold BaseVector.rawNulls. rewrite Hsome.
  injection Hsome as <-. repeat split; assumption.
Qed.

(** C4, as amended.  After [importFromArrowAsOwner] has returned a vector,
    [release] is null on the schema and on the array of the caller; every
    other member of the two structs, [private_data] included, is as it was;
    and no release callback has been called yet. *)
Theorem owner_import_marks_released (arrowSchema : ArrowSchema.t) (arrowArray : ArrowArray.t)
    (pool : N) (st : Store) (arrowSchema' : ArrowSchema.t) (arrowArray' : ArrowArray.t)
    (st' : Store) (vector : VectorPtr) :
  importFromArrowAsOwner cppSizeInBytes arrowSchema arrowArray pool st
  = ((arrowSchema', arrowArray', st'), Ok vector) ->
  ArrowSchema.release arrowSchema' = None /\
  ArrowArray.release arrowArray' = None /\
  arrowSchema' = ArrowSchema.set_release None arrowSchema /\
  arrowArray' = ArrowArray.set_release None arrowArray /\
  ArrowSchema.private_data arrowSchema' = ArrowSchema.private_data arrowSchema /\
  ArrowArray.private_data arrowArray' = ArrowArray.private_data arrowArray /\
  releaseCalls st' = releaseCalls st.
Proof.
  intros H.
  destruct (importFromArrowAsOwner_inv _ _ _ _ _ _ _ H) as (type & na & b1 & len & Hverdict).
  rewrite (importFromArrowAsOwner_Ok _ _ _ pool st _ _ _ _ Hverdict) in H.
  injection H as <- <- <- <-.
  destruct arrowSchema, arrowArray. repeat split.
Qed.

(** C5.  After [importFromArrowAsOwner] has returned a vector, no release
    callback has been called; and once the vector is destroyed, and with it
    its buffer views, whether one or two, the release callback of the array
    and the release callback of the schema have each been called exactly
    once, on the copies that the import made of the structs of the caller,
    and the two control blocks are gone. *)
Theorem owner_release_exactly_once (arrowSchema : ArrowSchema.t) (arrowArray : ArrowArray.t)
    (pool : N) (st : Store) (arrowSchema' : ArrowSchema.t) (arrowArray' : ArrowArray.t)
    (st' : Store) (vector : VectorPtr) :
  importFromArrowAsOwner cppSizeInBytes arrowSchema arrowArray pool st
  = ((arrowSchema', arrowArray', st'), Ok vector) ->
  releaseCalls st' = releaseCalls st /\
  exists schemaCallback arrayCallback,
    ArrowSchema.release arrowSchema = Some schemaCallback /\
    ArrowArray.release arrowArray = Some arrayCallback /\
    releaseCalls (destroyVector vector st') =
      releaseCalls st ++ [ArrayReleaseCall arrayCallback arrowArray;
                          SchemaReleaseCall schemaCallback arrowSchema] /\
    schemaBlocks (destroyVector vector st') = schemaBlocks st /\
    arrayBlocks (destroyVector vector st') = arrayBlocks st.
Proof.
  intros H.
  destruct (importFromArrowAsOwner_inv _ _ _ _ _ _ _ H) as (type & na & b1 & len & Hverdict).
  rewrite (importFromArrowAsOwner_Ok _ _ _ pool st _ _ _ _ Hverdict) in H.
  injection H as <- <- <- <-.
  split; [reflexivity|].
  apply importVerdict_Ok_inv in Hverdict as ((Hs & Ha & _) & _).
  destruct (ArrowSchema.release arrowSchema) as [cbS|] eqn:HcbS; [|congruence].
  destruct (ArrowArray.release arrowArray) as [cbA|] eqn:HcbA; [|congruence].
  exists cbS, cbA. split; [reflexivity|]. split; [reflexivity|].
  rewrite destroyVector_owner by apply fresh_key_free.
  cbn [releaseCalls schemaBlocks arrayBlocks].
  unfold schemaDeleter, arrayDeleter. rewrite HcbS, HcbA, <- app_assoc.
  repeat split.
Qed.
End ImportTheorems.

(** C7, witness: the int32 array with an unknown null count and a nulls
    buffer. *)
Lemma nulls_buffer_consistency_witness :
  exists viewed owned result viewedNulls ownedNulls,
    importFromArrowAsViewer nativeWidth intSchema (intArray (-1)) 0 emptyStore
    = (emptyStore, Ok viewed) /\
    importFromArrowAsOwner nativeWidth intSchema (intArray (-1)) 0 emptyStore
    = (result, Ok owned) /\
    BaseVector.nulls viewed = Some viewedNulls /\
    BaseVector.nulls owned = Some ownedNulls /\
    buffer_data viewedNulls = 100%N /\
    buffer_data ownedNulls = 100%N /\
    buffer_size viewedNulls = nbytes (ArrowArray.length (intArray (-1))) /\
    buffer_size ownedNulls = nbytes (ArrowArray.length (intArray (-1))) /\
    (8 * (nbytes (ArrowArray.length (intArray (-1))) - 1) < ArrowArray.length (intArray (-1))
     <= 8 * nbytes (ArrowArray.length (intArray (-1))))%Z.
Proof.
  apply (proj2 (proj2 (nulls_buffer_consistency nativeWidth intSchema (intArray (-1)) 0 emptyStore))
           100%N INTEGER 200%N 4%Z);
    try reflexivity; try discriminate.
  repeat split; try discriminate; reflexivity.
Defined.

(** C9, witness. *)
Lemma viewer_import_zero_copy_witness :
  emptyStore = emptyStore /\
  (exists values,
      BaseVector.values viewedIntsVector = Some values /\
      ArrowArray.buffer (intArray (-1)) 1 = Ok (buffer_data values) /\
      buffer_releaser values = kViewerReleaser) /\
  ArrowArray.buffer (intArray (-1)) 1 = Ok (BaseVector.valuesAsVoid viewedIntsVector) /\
  (forall nulls,
      BaseVector.nulls viewedIntsVector = Some nulls ->
      ArrowArray.buffer (intArray (-1)) 0 = Ok (buffer_data nulls) /\
      ArrowArray.buffer (intArray (-1)) 0 = Ok (BaseVector.rawNulls viewedIntsVector) /\
      buffer_releaser nulls = kViewerReleaser).
Proof.
  apply (viewer_import_zero_copy nativeWidth intSchema (intArray (-1)) 0 emptyStore emptyStore
           viewedIntsVector).
  reflexivity.
Defined.

Lemma ownedInts_eq :
  ownedInts = ((ownedInts.1.1.1, ownedInts.1.1.2, ownedInts.1.2), Ok ownedIntsVector).
Proof.
  unfold ownedInts.
  rewrite (importFromArrowAsOwner_Ok nativeWidth intSchema (intArray (-1)) 0 emptyStore
             INTEGER (Some 100%N) 200%N 20 eq_refl).
  reflexivity.
Defined.

(** C4, witness. *)
Lemma owner_import_marks_released_witness :
  ArrowSchema.release ownedInts.1.1.1 = None /\
  ArrowArray.release ownedInts.1.1.2 = None /\
  ownedInts.1.1.1 = ArrowSchema.set_release None intSchema /\
  ownedInts.1.1.2 = ArrowArray.set_release None (intArray (-1)) /\
  ArrowSchema.private_data ownedInts.1.1.1 = ArrowSchema.private_data intSchema /\
  ArrowArray.private_data ownedInts.1.1.2 = ArrowArray.private_data (intArray (-1)) /\
  releaseCalls ownedInts.1.2 = releaseCalls emptyStore.
Proof.
  apply (owner_import_marks_released nativeWidth intSchema (intArray (-1)) 0 emptyStore
           ownedInts.1.1.1 ownedInts.1.1.2 ownedInts.1.2 ownedIntsVector).
  exact ownedInts_eq.
Defined.

(** C4, as stated, fails: after a successful owner import the structs of
    the caller still hold their [private_data], so they are not in the
    released state of the data model, where [release] and [private_data] are
    both null. *)
Lemma owner_import_private_data_counterexample :
  isOk ownedInts.2 = true /\
  ArrowSchema.private_data ownedInts.1.1.1 = Some (SchemaForeignData 3) /\
  ArrowArray.private_data ownedInts.1.1.2 = Some (ArrayForeignData 4) /\
  ~ ArrowSchema.released ownedInts.1.1.1 /\
  ~ ArrowArray.released ownedInts.1.1.2.
Proof.
  rewrite ownedInts_eq. cbn.
  repeat split; try (intros [_ H]; discriminate H).
Qed.

(** C5, witness. *)
Lemma owner_release_exactly_once_witness :
  releaseCalls ownedInts.1.2 = releaseCalls emptyStore /\
  exists schemaCallback arrayCallback,
    ArrowSchema.release intSchema = Some schemaCallback /\
    ArrowArray.release (intArray (-1)) = Some arrayCallback /\
    releaseCalls (destroyVector ownedIntsVector ownedInts.1.2) =
      releaseCalls emptyStore ++ [ArrayReleaseCall arrayCallback (intArray (-1));
                                  SchemaReleaseCall schemaCallback intSchema] /\
    schemaBlocks (destroyVector ownedIntsVector ownedInts.1.2) = schemaBlocks emptyStore /\
    arrayBlocks (destroyVector ownedIntsVector ownedInts.1.2) = arrayBlocks emptyStore.
Proof.
  apply (owner_release_exactly_once nativeWidth intSchema (intArray (-1)) 0 emptyStore
           ownedInts.1.1.1 ownedInts.1.1.2 ownedInts.1.2 ownedIntsVector).
  exact ownedInts_eq.
Defined.

(** ** The scenario of the specification *)

(** Exporting a flat int32 vector of five values without nulls gives the
    format "i", a null count of 0, a null [buffers[0]] and the address of the
    values in [buffers[1]]; importing the two structs again, as a viewer,
    gives an int32 vector of length 5 over the same address and 20 bytes. *)
Example export_then_import_five_ints :
  exists arrowSchema arrowArray imported values,
    exportToArrow_type compliantSchemaRelease INTEGER staleSchema = (arrowSchema, Ok tt) /\
    exportToArrow_vector fiveInts staleArray = (arrowArray, Ok tt) /\
    ArrowSchema.format arrowSchema = Some "i" /\
    ArrowArray.null_count arrowArray = 0%Z /\
    ArrowArray.buffers arrowArray = Some [nullptr; 200%N] /\
    importFromArrowAsViewer nativeWidth arrowSchema arrowArray 0 emptyStore
    = (emptyStore, Ok imported) /\
    BaseVector.type imported = INTEGER /\
    BaseVector.size imported = 5%Z /\
    BaseVector.nulls imported = None /\
    BaseVector.values imported = Some values /\
    buffer_data values = 200%N /\ buffer_size values = 20%Z.
Proof. eexists _, _, _, _. repeat split. Qed.

(** * Further properties of the code *)

(** ** Export and import of nested types *)

Section NestedSchemas.
Import ArrowSchema.
Variable foreignSchemaRelease : N -> ArrowSchema.t -> ArrowSchema.t.

Lemma cNamed_plainNames type : plainNames type = true -> cNamed type = type.
Proof.
  induction type as [t Hchildren Hrow | e IHe | k v IHk IHv | fields IH] using TypePtr_ind_fields;
    intros Hplain.
  - destruct t; try reflexivity; discriminate.
  - cbn in *. f_equal. auto.
  - cbn in *. apply andb_prop in Hplain as [Hk Hv]. f_equal; auto.
  - cbn in *. f_equal.
    induction fields as [|[n t] fields IHfields]; [reflexivity|].
    cbn in Hplain. apply andb_prop in Hplain as [Hhead Hrest].
    apply andb_prop in Hhead as [Hname Htype].
    inversion IH as [|? ? IHt IHrest]; subst. cbn in *.
    f_equal; [|auto]. f_equal; [apply String.eqb_eq, Hname | auto].
Qed.

(** X1.  Every type all of whose nodes are of a supported kind, nested
    arrays, maps and rows included, is exported without an exception, and
    importing the schema gives the type with every field name cut at its
    first NUL character: the type itself when no name has one. *)
Theorem nested_type_roundtrip (type : TypePtr) (init : ArrowSchema.t) :
  exportable type = true ->
  exists s,
    exportToArrow_type foreignSchemaRelease type init = (s, Ok tt) /\
    importFromArrow s = Ok (cNamed type) /\
    (plainNames type = true -> importFromArrow s = Ok type).
Proof.
  intros Hexp. exists (schemaOf None type).
  split; [apply exportToArrow_type_exportable, Hexp|].
  split; [apply importFromArrow_schemaOf, Hexp|].
  intros Hplain. rewrite importFromArrow_schemaOf by assumption.
  rewrite cNamed_plainNames by assumption. reflexivity.
Qed.

(** X2.  The export of a type succeeds exactly when all its nodes are of a
    supported kind.  When it succeeds, it has written every member of the
    struct: what it leaves does not depend on what the struct held.  When it
    fails, at whatever depth, the exception is the not-implemented one and
    [release] and [private_data] of the struct are as they were. *)
Theorem type_export_outcome (type : TypePtr) (init : ArrowSchema.t) :
  isOk (exportToArrow_type foreignSchemaRelease type init).2 = exportable type /\
  (exportable type = true ->
   forall other,
     exportToArrow_type foreignSchemaRelease type init =
     exportToArrow_type foreignSchemaRelease type other) /\
  (exportable type = false ->
   exists s msg,
     exportToArrow_type foreignSchemaRelease type init
     = (s, Throw (mkException VELOX_NYI msg)) /\
     release s = release init /\ private_data s = private_data init).
Proof.
  split; [|split].
  - destruct (exportable type) eqn:Hexp.
    + rewrite (exportToArrow_type_exportable _ _ Hexp). reflexivity.
    + destruct (exportToArrow_type_unsupported foreignSchemaRelease _ Hexp init)
        as (s & msg & -> & _). reflexivity.
  - intros Hexp other. rewrite !(exportToArrow_type_exportable _ _ Hexp). reflexivity.
  - intros Hexp. apply exportToArrow_type_unsupported, Hexp.
Qed.

Lemma schemaNodeOf_schemaOf_exportable nm type c :
  exportable type = true ->
  schemaNodeOf (schemaOf nm type) c ->
  exists nm' type', c = schemaOf nm' type' /\ exportable type' = true.
Proof.
  intros Hexp. induction 1 as [|parent i c _ (nm' & type' & -> & Hexp') Hchild]; [eauto|].
  unfold ArrowSchema.child in Hchild.
  destruct type'; cbn in Hchild; try discriminate.
  - destruct i as [|[|i]]; cbn in Hchild; try discriminate.
    injection Hchild as <-. eauto.
  - cbn in Hexp'. apply andb_prop in Hexp' as [Hk Hv].
    destruct i as [|[|[|i]]]; cbn in Hchild; try discriminate;
      injection Hchild as <-; eauto.
  - destruct fields as [|f fields]; [discriminate|].
    change (match (map (fun g : string * TypePtr => Some (schemaOf (Some (c_str g.1)) g.2))
                     (f :: fields)) !! i with
            | Some c => Ok c
            | None => Undefined
            end = Ok (Some c)) in Hchild.
    rewrite list_lookup_fmap in Hchild.
    destruct ((f :: fields) !! i) as [g|] eqn:Hg; cbn in Hchild; [|discriminate].
    injection Hchild as <-. exists (Some (c_str g.1)), g.2. split; [reflexivity|].
    cbn [exportable] in Hexp'. rewrite forallb_forall in Hexp'.
    apply Hexp', list_elem_of_In, list_elem_of_lookup. eauto.
Qed.

(** X3.  Every node of a schema tree that the export has built is nullable,
    has no metadata and no dictionary, holds the release function of the
    bridge and a holder of the bridge, has the format of a supported kind,
    and counts in [n_children] the slots of its children array, none of
    which is null; the root has no name. *)
Theorem exported_schema_invariant (type : TypePtr) (init s c : ArrowSchema.t) :
  exportToArrow_type foreignSchemaRelease type init = (s, Ok tt) ->
  schemaNodeOf s c ->
  name s = None /\
  flags c = ARROW_FLAG_NULLABLE /\
  metadata c = None /\
  dictionary c = None /\
  release c = Some BridgeCallback /\
  (exists holder, private_data c = Some (SchemaHolder holder)) /\
  (exists nodeType formatStr,
      exportArrowFormatStr nodeType = Ok formatStr /\ format c = Some formatStr) /\
  match children c with
  | None => n_children c = 0%Z
  | Some slots =>
      n_children c = Z.of_nat (length slots) /\ slots <> [] /\
      Forall (fun slot => slot <> None) slots
  end.
Proof.
  intros Hexport Hnode.
  apply exportToArrow_type_inv in Hexport as [Hexp ->].
  destruct (schemaNodeOf_schemaOf_exportable _ _ _ Hexp Hnode) as (nm' & t & -> & Hexp').
  split; [destruct type; reflexivity|].
  split; [destruct t; reflexivity|]. split; [destruct t; reflexivity|].
  split; [destruct t; reflexivity|]. split; [destruct t; reflexivity|].
  split; [destruct t; eexists; reflexivity|].
  split.
  - exists t. destruct t; try discriminate; eexists; split; reflexivity.
  - destruct t; try discriminate; cbn; try reflexivity.
    + repeat split; [discriminate|]. repeat constructor; discriminate.
    + repeat split; [discriminate|]. repeat constructor; discriminate.
    + rewrite length_map. destruct fields as [|f fields]; [reflexivity|].
      cbn [length Nat.ltb Nat.leb]. repeat split.
      * cbn. rewrite length_map. reflexivity.
      * discriminate.
      * apply Forall_map, Forall_forall. intros g _. discriminate.
Qed.

Lemma releaseSchemaChildren_map {X : Type}
    (releaseOne : option ArrowSchema.t -> option ArrowSchema.t * Outcome unit)
    (before after : X -> option ArrowSchema.t) (l : list X) :
  Forall (fun x => releaseOne (before x) = (after x, Ok tt)) l ->
  releaseSchemaChildren releaseOne (Z.of_nat (length l)) (map before l)
  = (map after l, Ok tt).
Proof.
  induction 1 as [|x l Hx _ IH]; [reflexivity|].
  cbn [map releaseSchemaChildren length].
  destruct (Z.leb_spec (Z.of_nat (S (length l))) 0) as [Hle|_]; [lia|].
  rewrite Hx.
  replace (Z.of_nat (S (length l)) - 1)%Z with (Z.of_nat (length l)) by lia.
  rewrite IH. reflexivity.
Qed.

Lemma bridgeSchemaRelease_exportedNode_eq {X : Type} nm type
    (before after : X -> option ArrowSchema.t) (l : list X) :
  Forall (fun x =>
            releaseSchemaIfLive foreignSchemaRelease
              (bridgeSchemaRelease foreignSchemaRelease) (before x) = (after x, Ok tt)) l ->
  bridgeSchemaRelease foreignSchemaRelease (exportedNode nm type (map before l)) =
  (set_private_data None (set_release None (exportedNode nm type (map after l))), Ok tt).
Proof.
  intros Hall. rewrite bridgeSchemaRelease_unfold.
  unfold exportedNode. cbn [release children n_children dictionary]. rewrite !length_map.
  destruct l as [|x l]; [reflexivity|].
  change (0 <? length (x :: l))%nat with true. cbv iota.
  rewrite (releaseSchemaChildren_map _ before after (x :: l) Hall).
  reflexivity.
Qed.

Lemma releaseSchemaIfLive_schemaOf nm type :
  bridgeSchemaRelease foreignSchemaRelease (schemaOf nm type)
  = (releasedSchemaOf nm type, Ok tt) ->
  releaseSchemaIfLive foreignSchemaRelease (bridgeSchemaRelease foreignSchemaRelease)
    (Some (schemaOf nm type))
  = (Some (releasedSchemaOf nm type), Ok tt).
Proof.
  intros H. unfold releaseSchemaIfLive.
  replace (release (schemaOf nm type)) with (Some BridgeCallback) by (destruct type; reflexivity).
  cbn [invokeSchemaRelease]. rewrite H.
  replace (release (releasedSchemaOf nm type)) with (@None ReleaseCallback)
    by (destruct type; reflexivity).
  reflexivity.
Qed.

(** The release of an exported tree leaves the tree [releasedSchemaOf]. *)
Lemma bridgeSchemaRelease_schemaOf_eq type :
  forall nm,
    bridgeSchemaRelease foreignSchemaRelease (schemaOf nm type)
    = (releasedSchemaOf nm type, Ok tt).
Proof.
  induction type as [t Hchildren Hrow | e IHe | k v IHk IHv | fields IH] using TypePtr_ind_fields;
    intros nm.
  - destruct t; try discriminate; reflexivity.
  - cbn [schemaOf releasedSchemaOf].
    apply (bridgeSchemaRelease_exportedNode_eq nm (ARRAY e)
             (fun t => Some (schemaOf None t)) (fun t => Some (releasedSchemaOf None t)) [e]).
    repeat constructor. apply releaseSchemaIfLive_schemaOf, IHe.
  - cbn [schemaOf releasedSchemaOf].
    apply (bridgeSchemaRelease_exportedNode_eq nm (MAP k v)
             (fun t => Some (schemaOf None t)) (fun t => Some (releasedSchemaOf None t)) [k; v]).
    repeat constructor; apply releaseSchemaIfLive_schemaOf; [apply IHk | apply IHv].
  - cbn [schemaOf releasedSchemaOf].
    apply (bridgeSchemaRelease_exportedNode_eq nm (ROW fields)).
    eapply Forall_impl; [exact IH|]. intros f Hf. apply releaseSchemaIfLive_schemaOf, Hf.
Qed.

Lemma schemaNodeOf_releasedSchemaOf nm type c :
  schemaNodeOf (releasedSchemaOf nm type) c ->
  exists nm' type', c = releasedSchemaOf nm' type'.
Proof.
  induction 1 as [|parent i c _ (nm' & type' & ->) Hchild]; [eauto|].
  unfold ArrowSchema.child in Hchild.
  destruct type'; cbn in Hchild; try discriminate.
  - destruct i as [|[|i]]; cbn in Hchild; try discriminate.
    injection Hchild as <-. eauto.
  - destruct i as [|[|[|i]]]; cbn in Hchild; try discriminate;
      injection Hchild as <-; eauto.
  - destruct fields as [|f fields]; [discriminate|].
    change (match (map (fun g : string * TypePtr =>
                          Some (releasedSchemaOf (Some (c_str g.1)) g.2))
                     (f :: fields)) !! i with
            | Some c => Ok c
            | None => Undefined
            end = Ok (Some c)) in Hchild.
    rewrite list_lookup_fmap in Hchild.
    destruct ((f :: fields) !! i) as [g|]; cbn in Hchild; [|discriminate].
    injection Hchild as <-. eauto.
Qed.

(** X4.  One call of the release function on the root of an exported schema
    tree releases the whole tree: it succeeds, and every node of the tree it
    leaves, at every depth, has [release] and [private_data] null. *)
Theorem exported_schema_release_is_recursive (type : TypePtr) (init s : ArrowSchema.t) :
  exportToArrow_type foreignSchemaRelease type init = (s, Ok tt) ->
  exists s',
    bridgeSchemaRelease foreignSchemaRelease s = (s', Ok tt) /\
    forall c, schemaNodeOf s' c -> released c.
Proof.
  intros Hexport. apply exportToArrow_type_inv in Hexport as [_ ->].
  exists (releasedSchemaOf None type). split; [apply bridgeSchemaRelease_schemaOf_eq|].
  intros c Hnode. destruct (schemaNodeOf_releasedSchemaOf _ _ _ Hnode) as (nm' & t & ->).
  destruct t; split; reflexivity.
Qed.
End NestedSchemas.

(** X1, witness: a row with an array of maps, an empty row and a
    timestamp. *)
Lemma nested_type_roundtrip_witness :
  exists s,
    exportToArrow_type compliantSchemaRelease nestedType staleSchema = (s, Ok tt) /\
    importFromArrow s = Ok (cNamed nestedType) /\
    (plainNames nestedType = true -> importFromArrow s = Ok nestedType).
Proof.
  apply (nested_type_roundtrip compliantSchemaRelease nestedType staleSchema).
  reflexivity.
Defined.

(** X2, witness: a map whose value type has a field of an unsupported
    kind. *)
Lemma type_export_outcome_witness :
  exists s msg,
    exportToArrow_type compliantSchemaRelease unsupportedNested staleSchema
    = (s, Throw (mkException VELOX_NYI msg)) /\
    ArrowSchema.release s = ArrowSchema.release staleSchema /\
    ArrowSchema.private_data s = ArrowSchema.private_data staleSchema.
Proof.
  apply (proj2 (proj2 (type_export_outcome compliantSchemaRelease unsupportedNested staleSchema))).
  reflexivity.
Defined.

(** X3, witness: the map under the array of the first field of the nested
    row. *)
Lemma exported_schema_invariant_witness :
  ArrowSchema.flags (schemaOf None (MAP VARCHAR BIGINT)) = ARROW_FLAG_NULLABLE /\
  ArrowSchema.release (schemaOf None (MAP VARCHAR BIGINT)) = Some BridgeCallback.
Proof.
  pose proof (exported_schema_invariant compliantSchemaRelease nestedType staleSchema
                (schemaOf None nestedType) (schemaOf None (MAP VARCHAR BIGINT))) as H.
  destruct H as (_ & Hflags & _ & _ & Hrelease & _).
  - reflexivity.
  - apply (schemaNodeOf_child _ (schemaOf (Some "tags") (ARRAY (MAP VARCHAR BIGINT))) 0);
      [|reflexivity].
    apply (schemaNodeOf_child _ (schemaOf None nestedType) 0); [|reflexivity].
    apply schemaNodeOf_root.
  - split; assumption.
Defined.

(** X4, witness: the nested row. *)
Lemma exported_schema_release_is_recursive_witness :
  exists s',
    bridgeSchemaRelease compliantSchemaRelease (schemaOf None nestedType) = (s', Ok tt) /\
    forall c, schemaNodeOf s' c -> ArrowSchema.released c.
Proof.
  apply (exported_schema_release_is_recursive compliantSchemaRelease nestedType staleSchema).
  reflexivity.
Defined.

(** ** Release of nodes with foreign children *)

Section ForeignSchemaChildren.
Import ArrowSchema.
Variable foreignSchemaRelease : N -> ArrowSchema.t -> ArrowSchema.t.

Lemma releaseSchemaChildren_stops
    (releaseOne : option ArrowSchema.t -> option ArrowSchema.t * Outcome unit)
    (skipped rest : list (option ArrowSchema.t)) (child child' : option ArrowSchema.t)
    (e : Exception) :
  Forall (fun slot => releaseOne slot = (slot, Ok tt)) skipped ->
  releaseOne child = (child', Throw e) ->
  forall todo,
    (Z.of_nat (length skipped) < todo)%Z ->
    releaseSchemaChildren releaseOne todo (skipped ++ child :: rest)
    = (skipped ++ child' :: rest, Throw e).
Proof.
  intros Hskipped Hchild. induction Hskipped as [|slot skipped Hslot _ IH]; intros todo Htodo.
  - cbn [app releaseSchemaChildren]. cbn in Htodo.
    destruct (Z.leb_spec todo 0) as [Hle|_]; [lia|]. rewrite Hchild. reflexivity.
  - cbn [app releaseSchemaChildren]. cbn [length] in Htodo.
    destruct (Z.leb_spec todo 0) as [Hle|_]; [lia|]. rewrite Hslot.
    rewrite IH by lia. reflexivity.
Qed.

(** X5.  When the loop over the children of a live schema node reaches a
    live child of a foreign producer whose callback leaves [release] set,
    after slots that are null or released, the release of the node throws
    the exception of [VELOX_CHECK_NULL]: the callback has run on that child,
    the node itself stays live with its [private_data], and the slots after
    the child are not visited. *)
Theorem schema_release_stops_at_unreleased_child
    (s c : ArrowSchema.t) (skipped rest : list (option ArrowSchema.t)) (address : N) :
  release s <> None ->
  children s = Some (skipped ++ Some c :: rest) ->
  (Z.of_nat (length skipped) < n_children s)%Z ->
  Forall skippedSchema skipped ->
  release c = Some (ForeignCallback address) ->
  release (foreignSchemaRelease address c) <> None ->
  bridgeSchemaRelease foreignSchemaRelease s =
  (set_children (Some (skipped ++ Some (foreignSchemaRelease address c) :: rest)) s,
   Throw (mkException VELOX_CHECK "child->release")).
Proof.
  intros Hlive Hchildren Hcount Hskipped Hc Hstill.
  rewrite bridgeSchemaRelease_unfold.
  destruct (release s) as [cb|] eqn:Hrelease; [|congruence].
  rewrite Hchildren.
  rewrite (releaseSchemaChildren_stops _ skipped rest (Some c)
             (Some (foreignSchemaRelease address c))
             (mkException VELOX_CHECK "child->release")); [reflexivity| | |assumption].
  - eapply Forall_impl; [exact Hskipped|]. intros [slot|] Hslot; [|reflexivity].
    cbn in Hslot. unfold releaseSchemaIfLive. rewrite Hslot. reflexivity.
  - unfold releaseSchemaIfLive. rewrite Hc. cbn [invokeSchemaRelease bind].
    rewrite bool_decide_eq_false_2 by assumption. reflexivity.
Qed.
End ForeignSchemaChildren.

(** X5, witness: the third slot of [mixedSchema], with a callback that
    leaves the node as it is. *)
Lemma schema_release_stops_at_unreleased_child_witness :
  bridgeSchemaRelease idleSchemaRelease mixedSchema =
  (ArrowSchema.set_children
     (Some ([None; Some (compliantSchemaRelease 5 intSchema)]
            ++ Some (idleSchemaRelease 5 intSchema) :: [Some stringSchema]))
     mixedSchema,
   Throw (mkException VELOX_CHECK "child->release")).
Proof.
  apply (schema_release_stops_at_unreleased_child idleSchemaRelease mixedSchema intSchema
           [None; Some (compliantSchemaRelease 5 intSchema)] [Some stringSchema] 5).
  - discriminate.
  - reflexivity.
  - vm_compute. reflexivity.
  - repeat constructor.
  - reflexivity.
  - discriminate.
Defined.

Section ForeignArrayChildren.
Import ArrowArray.
Variable foreignArrayRelease : N -> ArrowArray.t -> ArrowArray.t.

Lemma releaseArrayIfLive_wellBehaved (slot : option ArrowArray.t) :
  wellBehavedArray foreignArrayRelease slot ->
  releaseArrayIfLive foreignArrayRelease (bridgeRelease foreignArrayRelease) slot
  = (afterArrayRelease foreignArrayRelease slot, Ok tt).
Proof.
  destruct slot as [c|]; [|reflexivity].
  unfold wellBehavedArray, afterArrayRelease, releaseArrayIfLive.
  destruct (release c) as [[|address]|]; [intros [] | | reflexivity].
  intros Hreleased. cbn [invokeArrayRelease bind].
  rewrite bool_decide_eq_true_2 by assumption. reflexivity.
Qed.

Lemma releaseArrayChildren_wellBehaved (slots : list (option ArrowArray.t)) :
  Forall (wellBehavedArray foreignArrayRelease) slots ->
  releaseArrayChildren
    (releaseArrayIfLive foreignArrayRelease (bridgeRelease foreignArrayRelease))
    (Z.of_nat (List.length slots)) slots
  = (map (afterArrayRelease foreignArrayRelease) slots, Ok tt).
Proof.
  induction 1 as [|slot slots Hslot _ IH]; [reflexivity|].
  cbn [map releaseArrayChildren List.length].
  destruct (Z.leb_spec (Z.of_nat (S (List.length slots))) 0) as [Hle|_]; [lia|].
  rewrite (releaseArrayIfLive_wellBehaved _ Hslot).
  replace (Z.of_nat (S (List.length slots)) - 1)%Z with (Z.of_nat (List.length slots)) by lia.
  rewrite IH. reflexivity.
Qed.

Lemma releaseArrayDictionary_wellBehaved (dict : option ArrowArray.t) :
  wellBehavedArray foreignArrayRelease dict ->
  releaseArrayDictionary foreignArrayRelease (bridgeRelease foreignArrayRelease) dict
  = (afterArrayRelease foreignArrayRelease dict, Ok tt).
Proof.
  destruct dict as [d|]; [|reflexivity].
  unfold wellBehavedArray, afterArrayRelease, releaseArrayDictionary.
  destruct (release d) as [[|address]|]; [intros [] | | reflexivity].
  intros Hreleased. cbn [invokeArrayRelease bind].
  rewrite bool_decide_eq_true_2 by assumption. reflexivity.
Qed.

Lemma afterArrayRelease_released (slot : option ArrowArray.t) (c : ArrowArray.t) :
  wellBehavedArray foreignArrayRelease slot ->
  afterArrayRelease foreignArrayRelease slot = Some c ->
  release c = None.
Proof.
  destruct slot as [c0|]; [|discriminate]. cbn.
  destruct (release c0) as [[|address]|] eqn:Hrelease; [intros [] | |];
    intros H [= <-]; assumption.
Qed.

(** X6.  The release of a live array node whose [private_data] is null or
    a holder of the bridge, and whose [n_children] slots and dictionary are
    null, released, or live nodes of a foreign producer whose callback marks
    them as released, succeeds: each live child and the dictionary have had
    their callback run once, no pointer of the node leads to a live node any
    more, and the node itself has [release] and [private_data] null.  When
    [private_data] is the data of another producer instead, the release
    reaches the [delete] of the holder, which is undefined on such data. *)
Theorem array_release_with_foreign_children
    (a : ArrowArray.t) (slots : list (option ArrowArray.t)) :
  release a <> None ->
  children a = Some slots ->
  n_children a = Z.of_nat (List.length slots) ->
  Forall (wellBehavedArray foreignArrayRelease) slots ->
  wellBehavedArray foreignArrayRelease (dictionary a) ->
  (private_data a = None \/ (exists holder, private_data a = Some (ArrayHolder holder)) ->
   exists a',
     bridgeRelease foreignArrayRelease a = (a', Ok tt) /\
     released a' /\
     children a' = Some (map (afterArrayRelease foreignArrayRelease) slots) /\
     dictionary a' = afterArrayRelease foreignArrayRelease (dictionary a) /\
     (forall c, In (Some c) (map (afterArrayRelease foreignArrayRelease) slots) ->
                release c = None) /\
     (forall c, dictionary a' = Some c -> release c = None)) /\
  (forall address,
      private_data a = Some (ArrayForeignData address) ->
      (bridgeRelease foreignArrayRelease a).2 = Undefined).
Proof.
  intros Hlive Hchildren Hcount Hslots Hdict.
  rewrite bridgeRelease_unfold.
  destruct (release a) as [cb|] eqn:Hrelease; [|congruence].
  rewrite Hchildren, Hcount, (releaseArrayChildren_wellBehaved _ Hslots).
  rewrite (releaseArrayDictionary_wellBehaved _ Hdict).
  split.
  - intros Hprivate.
    replace (deleteArrayHolder (private_data a)) with (Ok tt)
      by (destruct Hprivate as [-> | [holder ->]]; reflexivity).
    eexists. split; [reflexivity|].
    split; [split; reflexivity|]. split; [reflexivity|]. split; [reflexivity|].
    split.
    + intros c Hin. apply in_map_iff in Hin as (slot & Hafter & Hin).
      apply (afterArrayRelease_released slot c); [|assumption].
      rewrite Forall_forall in Hslots. apply Hslots, list_elem_of_In, Hin.
    + cbn [dictionary set_private_data set_release set_dictionary set_children].
      intros c Hafter. apply (afterArrayRelease_released (dictionary a) c); assumption.
  - intros address ->. reflexivity.
Qed.
End ForeignArrayChildren.

(** X6, witness: [structArray], whose foreign child and dictionary follow
    the Arrow contract. *)
Lemma array_release_with_foreign_children_witness :
  exists a',
    bridgeRelease compliantArrayRelease structArray = (a', Ok tt) /\
    ArrowArray.released a' /\
    (ArrowArray.children a' =
       Some (map (afterArrayRelease compliantArrayRelease)
               [None; Some (intArray 0); Some (compliantArrayRelease 6 (intArray 0))])) /\
    (ArrowArray.dictionary a' = afterArrayRelease compliantArrayRelease (Some stringArray)) /\
    (forall c, In (Some c)
                 (map (afterArrayRelease compliantArrayRelease)
                    [None; Some (intArray 0); Some (compliantArrayRelease 6 (intArray 0))]) ->
               ArrowArray.release c = None) /\
    (forall c, ArrowArray.dictionary a' = Some c -> ArrowArray.release c = None).
Proof.
  apply (array_release_with_foreign_children compliantArrayRelease structArray
           [None; Some (intArray 0); Some (compliantArrayRelease 6 (intArray 0))]).
  - discriminate.
  - reflexivity.
  - reflexivity.
  - repeat constructor.
  - reflexivity.
  - right. exists (mkArrayHolder fiveInts). reflexivity.
Defined.

(** ** Export of vectors, and the import of what was exported *)

(** X7.  An export of a vector that fails has thrown the not-implemented
    exception after it wrote the first members of the struct: [release] is
    the release function of the bridge, [n_buffers] is two and [length] is
    the size of the vector, while [private_data], [n_children], [children]
    and [dictionary] are still what the caller's struct held. *)
Theorem failed_array_export_state (vector : VectorPtr) (init a : ArrowArray.t)
    (e : Exception) :
  exportToArrow_vector vector init = (a, Throw e) ->
  macro e = VELOX_NYI /\
  ArrowArray.release a = Some BridgeCallback /\
  ArrowArray.n_buffers a = 2%Z /\
  ArrowArray.length a = BaseVector.size vector /\
  ArrowArray.private_data a = ArrowArray.private_data init /\
  ArrowArray.n_children a = ArrowArray.n_children init /\
  ArrowArray.children a = ArrowArray.children init /\
  ArrowArray.dictionary a = ArrowArray.dictionary init.
Proof.
  unfold exportToArrow_vector, exportFlatVector.
  cbn [ArrowArray.set_buffer ArrowArray.set_n_buffers ArrowArray.set_buffers
       ArrowArray.set_release ArrowArray.set_length ArrowArray.set_null_count
       ArrowArray.set_offset ArrowArray.buffers kMaxBuffers replicate List.length].
  rewrite bool_decide_eq_true_2 by lia.
  destruct (BaseVector.encoding vector); try (intros [= <- <-]; repeat split).
  destruct (BaseVector.typeKind vector); try (intros [= <- <-]; repeat split);
    cbn; intros [=].
Qed.

(** X7, witness: a flat vector of strings. *)
Lemma failed_array_export_state_witness :
  ArrowArray.release (exportToArrow_vector twoStrings staleArray).1 = Some BridgeCallback /\
  ArrowArray.private_data (exportToArrow_vector twoStrings staleArray).1
  = Some (ArrayForeignData 4).
Proof.
  pose proof (failed_array_export_state twoStrings staleArray
                (exportToArrow_vector twoStrings staleArray).1
                (mkException VELOX_NYI "Conversion of FlatVector of {} is not supported yet."))
    as H.
  destruct H as (_ & Hrelease & _ & _ & Hprivate & _); [reflexivity|].
  split; [exact Hrelease | exact Hprivate].
Defined.

Section ImportedVectors.
Variable cppSizeInBytes : TypePtr -> Outcome Z.

(** What the two entry points return when the three tests pass: the same
    vector, ownership apart, with the members below. *)
Lemma imports_of_verdict arrowSchema arrowArray pool st type nullsAddress buffer1 length :
  importVerdict cppSizeInBytes arrowSchema arrowArray
  = Ok (type, nullsAddress, (buffer1, length)) ->
  exists viewed owned result,
    importFromArrowAsViewer cppSizeInBytes arrowSchema arrowArray pool st = (st, Ok viewed) /\
    importFromArrowAsOwner cppSizeInBytes arrowSchema arrowArray pool st = (result, Ok owned) /\
    viewOf owned = viewed /\
    BaseVector.pool viewed = pool /\
    BaseVector.type viewed = type /\
    BaseVector.encoding viewed = VectorEncoding.FLAT /\
    BaseVector.size viewed = ArrowArray.length arrowArray /\
    BaseVector.getNullCount viewed =
      (if (ArrowArray.null_count arrowArray =? -1)%Z then None
       else Some (ArrowArray.null_count arrowArray)) /\
    BaseVector.rawNulls viewed = default nullptr nullsAddress /\
    BaseVector.nulls viewed =
      match nullsAddress with
      | Some buffer0 =>
          Some (mkBufferView buffer0 (nbytes (ArrowArray.length arrowArray)) kViewerReleaser)
      | None => None
      end /\
    BaseVector.values viewed = Some (mkBufferView buffer1 length kViewerReleaser).
Proof.
  intros Hverdict. eexists _, _, _.
  split; [apply (importFromArrowAsViewer_Ok _ _ _ _ _ _ _ _ _ Hverdict)|].
  split; [apply (importFromArrowAsOwner_Ok _ _ _ _ _ _ _ _ _ Hverdict)|].
  destruct nullsAddress; repeat split.
Qed.
End ImportedVectors.

Section VectorRoundTrip.
Variable foreignSchemaRelease : N -> ArrowSchema.t -> ArrowSchema.t.
Variable cppSizeInBytes : TypePtr -> Outcome Z.

Lemma flatKindSupported_scalar (type : TypePtr) :
  flatKindSupported (kind type) = true ->
  exportable type = true /\ isSupportedScalar type = true /\ isPrimitiveType type = true /\
  importFromArrow (schemaOf None type) = Ok type.
Proof. destruct type; try discriminate; repeat split. Qed.

(** What the tests of an import find in the structs that the two exports
    of a flat vector of a supported kind have filled. *)
Lemma importVerdict_exported (vector : VectorPtr) (arrayInit : ArrowArray.t) (width : Z) :
  BaseVector.encoding vector = VectorEncoding.FLAT ->
  flatKindSupported (BaseVector.typeKind vector) = true ->
  (0 <= BaseVector.size vector)%Z ->
  cppSizeInBytes (BaseVector.type vector) = Ok width ->
  importVerdict cppSizeInBytes (schemaOf None (BaseVector.type vector))
    (exportToArrow_vector vector arrayInit).1 =
  (do nullsAddress <- importNullsBuffer (exportToArrow_vector vector arrayInit).1;
   Ok (BaseVector.type vector, nullsAddress,
       (BaseVector.valuesAsVoid vector,
        ((to_size_t (BaseVector.size vector) * width) mod 2 ^ 64)%Z))).
Proof.
  intros Hflat Hkind Hsize Hwidth.
  rewrite (exportToArrow_vector_flat vector arrayInit Hflat Hkind). cbn [fst].
  destruct (flatKindSupported_scalar _ Hkind) as (_ & _ & Hprim & Himport).
  unfold importVerdict.
  replace (importChecks _ _) with (Ok (A:=TypePtr) (BaseVector.type vector)).
  - cbn [bind]. destruct (importNullsBuffer _); [|reflexivity..].
    unfold importValuesBuffer. cbn [ArrowArray.n_buffers ArrowArray.length]. cbn.
    rewrite Hwidth. reflexivity.
  - symmetry. apply importChecks_Ok. split; [|split; assumption].
    repeat split; try discriminate; try assumption.
    destruct (BaseVector.type vector); discriminate.
Qed.

Lemma importNullsBuffer_exported (vector : VectorPtr) (arrayInit : ArrowArray.t) :
  BaseVector.encoding vector = VectorEncoding.FLAT ->
  flatKindSupported (BaseVector.typeKind vector) = true ->
  importNullsBuffer (exportToArrow_vector vector arrayInit).1 =
  if negb (default (-1) (BaseVector.getNullCount vector) =? 0)%Z then
    if (BaseVector.rawNulls vector =? nullptr)%N then Throw nullsMissingError
    else Ok (Some (BaseVector.rawNulls vector))
  else
    if (BaseVector.rawNulls vector =? nullptr)%N then Ok None
    else Throw nullsUnexpectedError.
Proof.
  intros Hflat Hkind.
  rewrite (exportToArrow_vector_flat vector arrayInit Hflat Hkind). cbn [fst].
  unfold importNullsBuffer. cbn [ArrowArray.null_count].
  change (ArrowArray.buffer _ 0) with (Ok (A:=ptr) (BaseVector.rawNulls vector)).
  cbn [bind].
  destruct (negb _); destruct (BaseVector.rawNulls vector =? nullptr)%N; reflexivity.
Qed.

(** X8.  A flat vector of a supported kind, of a non-negative size, whose
    cached null count is zero exactly when it has no nulls buffer, goes
    through the bridge unchanged: the export of its type and the export of
    the vector succeed, both imports of the two structs succeed, and the
    vector that each returns has the type, the size, the null count, the
    nulls pointer and the values pointer of the exported one, and the flat
    encoding. *)
Theorem flat_vector_roundtrip (vector : VectorPtr) (schemaInit : ArrowSchema.t)
    (arrayInit : ArrowArray.t) (pool : N) (st : Store) (width : Z) :
  BaseVector.encoding vector = VectorEncoding.FLAT ->
  flatKindSupported (BaseVector.typeKind vector) = true ->
  (0 <= BaseVector.size vector)%Z ->
  (BaseVector.getNullCount vector = Some 0%Z <-> BaseVector.rawNulls vector = nullptr) ->
  BaseVector.getNullCount vector <> Some (-1)%Z ->
  cppSizeInBytes (BaseVector.type vector) = Ok width ->
  exists arrowSchema arrowArray viewed owned result,
    exportToArrow_type foreignSchemaRelease (BaseVector.type vector) schemaInit
    = (arrowSchema, Ok tt) /\
    exportToArrow_vector vector arrayInit = (arrowArray, Ok tt) /\
    importFromArrowAsViewer cppSizeInBytes arrowSchema arrowArray pool st = (st, Ok viewed) /\
    importFromArrowAsOwner cppSizeInBytes arrowSchema arrowArray pool st = (result, Ok owned) /\
    viewOf owned = viewed /\
    BaseVector.type viewed = BaseVector.type vector /\
    BaseVector.encoding viewed = VectorEncoding.FLAT /\
    BaseVector.size viewed = BaseVector.size vector /\
    BaseVector.getNullCount viewed = BaseVector.getNullCount vector /\
    BaseVector.rawNulls viewed = BaseVector.rawNulls vector /\
    BaseVector.valuesAsVoid viewed = BaseVector.valuesAsVoid vector.
Proof.
  intros Hflat Hkind Hsize Hnulls Hcount Hwidth.
  destruct (flatKindSupported_scalar _ Hkind) as (Hexp & _ & _ & _).
  pose proof (importVerdict_exported vector arrayInit width Hflat Hkind Hsize Hwidth) as Hverdict.
  rewrite (importNullsBuffer_exported vector arrayInit Hflat Hkind) in Hverdict.
  assert (Haddress :
            (if negb (default (-1) (BaseVector.getNullCount vector) =? 0)%Z
             then if (BaseVector.rawNulls vector =? nullptr)%N
                  then Throw nullsMissingError
                  else Ok (Some (BaseVector.rawNulls vector))
             else if (BaseVector.rawNulls vector =? nullptr)%N
                  then Ok None
                  else Throw nullsUnexpectedError)
            = Ok (if (BaseVector.rawNulls vector =? nullptr)%N then None
                  else Some (BaseVector.rawNulls vector))).
  { destruct (N.eqb_spec (BaseVector.rawNulls vector) nullptr) as [Hraw|Hraw].
    - apply Hnulls in Hraw. rewrite Hraw. reflexivity.
    - destruct (BaseVector.getNullCount vector) as [count|]; [|reflexivity].
      change (default (-1)%Z (Some count)) with count. destruct (Z.eqb_spec count 0) as [->|_]; [|reflexivity].
      exfalso. apply Hraw, Hnulls. reflexivity. }
  rewrite Haddress in Hverdict. cbn [bind] in Hverdict.
  destruct (imports_of_verdict _ _ _ pool st _ _ _ _ Hverdict)
    as (viewed & owned & result & Hviewed & Howned & Hview & _ & Htype & Hencoding & Hlength
        & Hnullcount & Hraw & _ & Hvalues).
  pose proof (exportToArrow_vector_flat vector arrayInit Hflat Hkind) as Hexport.
  rewrite Hexport in Hlength, Hnullcount. cbn in Hlength, Hnullcount.
  exists (schemaOf None (BaseVector.type vector)), (exportToArrow_vector vector arrayInit).1,
    viewed, owned, result.
  split; [apply exportToArrow_type_exportable, Hexp|].
  split; [rewrite Hexport; reflexivity|].
  split; [exact Hviewed|]. split; [exact Howned|]. split; [exact Hview|].
  split; [exact Htype|]. split; [exact Hencoding|]. split; [exact Hlength|].
  split; [|split].
  - rewrite Hnullcount. destruct (BaseVector.getNullCount vector) as [count|]; [|reflexivity].
    change (default (-1)%Z (Some count)) with count. destruct (Z.eqb_spec count (-1)) as [->|_]; [congruence | reflexivity].
  - rewrite Hraw. destruct (N.eqb_spec (BaseVector.rawNulls vector) nullptr) as [->|_];
      reflexivity.
  - unfold BaseVector.valuesAsVoid at 1. rewrite Hvalues. reflexivity.
Qed.

(** X9.  The array exporter does not establish what the importers ask of
    the nulls buffer.  A flat vector of a supported kind without a nulls
    buffer whose cached null count is not zero (unknown, for one) is
    exported without an exception, and both imports reject the exported
    structs with the message for a missing nulls buffer; a vector with a
    nulls buffer and a cached null count of zero is exported as well, and
    both imports reject the result with the message for an unexpected nulls
    buffer. *)
Theorem exported_nulls_may_be_rejected (vector : VectorPtr) (schemaInit : ArrowSchema.t)
    (arrayInit : ArrowArray.t) (pool : N) (st : Store) (width : Z) :
  BaseVector.encoding vector = VectorEncoding.FLAT ->
  flatKindSupported (BaseVector.typeKind vector) = true ->
  (0 <= BaseVector.size vector)%Z ->
  cppSizeInBytes (BaseVector.type vector) = Ok width ->
  exists arrowSchema arrowArray,
    exportToArrow_type foreignSchemaRelease (BaseVector.type vector) schemaInit
    = (arrowSchema, Ok tt) /\
    exportToArrow_vector vector arrayInit = (arrowArray, Ok tt) /\
    (BaseVector.getNullCount vector <> Some 0%Z ->
     BaseVector.rawNulls vector = nullptr ->
     importRejects cppSizeInBytes arrowSchema arrowArray pool st nullsMissingError) /\
    (BaseVector.getNullCount vector = Some 0%Z ->
     BaseVector.rawNulls vector <> nullptr ->
     importRejects cppSizeInBytes arrowSchema arrowArray pool st nullsUnexpectedError).
Proof.
  intros Hflat Hkind Hsize Hwidth.
  destruct (flatKindSupported_scalar _ Hkind) as (Hexp & _ & _ & _).
  pose proof (importVerdict_exported vector arrayInit width Hflat Hkind Hsize Hwidth) as Hverdict.
  rewrite (importNullsBuffer_exported vector arrayInit Hflat Hkind) in Hverdict.
  pose proof (exportToArrow_vector_flat vector arrayInit Hflat Hkind) as Hexport.
  rewrite Hexport in Hverdict. cbn [fst] in Hverdict.
  eexists (schemaOf None (BaseVector.type vector)), _.
  split; [apply exportToArrow_type_exportable, Hexp|].
  split; [exact Hexport|]. split.
  - intros Hcount Hraw. apply import_verdict_Throw. rewrite Hverdict, Hraw.
    destruct (BaseVector.getNullCount vector) as [count|]; [|reflexivity].
    change (default (-1)%Z (Some count)) with count. destruct (Z.eqb_spec count 0) as [->|_]; [congruence | reflexivity].
  - intros Hcount Hraw. apply import_verdict_Throw. rewrite Hverdict, Hcount.
    change (default (-1)%Z (Some 0%Z)) with 0%Z. cbn [Z.eqb negb].
    replace (BaseVector.rawNulls vector =? nullptr)%N with false
      by (symmetry; apply N.eqb_neq, Hraw).
    reflexivity.
Qed.
End VectorRoundTrip.

(** X8, witness: five int32 values with a nulls buffer and two nulls. *)
Lemma flat_vector_roundtrip_witness :
  exists arrowSchema arrowArray viewed owned result,
    exportToArrow_type compliantSchemaRelease (BaseVector.type (nullableInts (Some 2%Z)))
      staleSchema = (arrowSchema, Ok tt) /\
    exportToArrow_vector (nullableInts (Some 2%Z)) staleArray = (arrowArray, Ok tt) /\
    importFromArrowAsViewer nativeWidth arrowSchema arrowArray 7 emptyStore
    = (emptyStore, Ok viewed) /\
    importFromArrowAsOwner nativeWidth arrowSchema arrowArray 7 emptyStore
    = (result, Ok owned) /\
    viewOf owned = viewed /\
    BaseVector.type viewed = BaseVector.type (nullableInts (Some 2%Z)) /\
    BaseVector.encoding viewed = VectorEncoding.FLAT /\
    BaseVector.size viewed = BaseVector.size (nullableInts (Some 2%Z)) /\
    BaseVector.getNullCount viewed = BaseVector.getNullCount (nullableInts (Some 2%Z)) /\
    BaseVector.rawNulls viewed = BaseVector.rawNulls (nullableInts (Some 2%Z)) /\
    BaseVector.valuesAsVoid viewed = BaseVector.valuesAsVoid (nullableInts (Some 2%Z)).
Proof.
  apply (flat_vector_roundtrip compliantSchemaRelease nativeWidth (nullableInts (Some 2%Z))
           staleSchema staleArray 7 emptyStore 4).
  - reflexivity.
  - reflexivity.
  - vm_compute. discriminate.
  - split; discriminate.
  - discriminate.
  - reflexivity.
Defined.

(** X9, witness: five int32 values without a nulls buffer whose null count
    has not been computed. *)
Lemma exported_nulls_may_be_rejected_witness :
  exists arrowSchema arrowArray,
    exportToArrow_type compliantSchemaRelease INTEGER staleSchema = (arrowSchema, Ok tt) /\
    exportToArrow_vector uncountedInts staleArray = (arrowArray, Ok tt) /\
    importRejects nativeWidth arrowSchema arrowArray 7 emptyStore nullsMissingError.
Proof.
  destruct (exported_nulls_may_be_rejected compliantSchemaRelease nativeWidth uncountedInts
              staleSchema staleArray 7 emptyStore 4)
    as (arrowSchema & arrowArray & Hschema & Harray & Hmissing & _).
  - reflexivity.
  - reflexivity.
  - vm_compute. discriminate.
  - reflexivity.
  - exists arrowSchema, arrowArray. split; [exact Hschema|]. split; [exact Harray|].
    apply Hmissing; [discriminate | reflexivity].
Defined.

(** ** The two entry points of the import, compared *)

Section ImportModes.
Variable cppSizeInBytes : TypePtr -> Outcome Z.

Lemma importFromArrowAsOwner_Undefined arrowSchema arrowArray pool st :
  importVerdict cppSizeInBytes arrowSchema arrowArray = Undefined ->
  (importFromArrowAsOwner cppSizeInBytes arrowSchema arrowArray pool st).2 = Undefined.
Proof.
  intros Hverdict.
  destruct (importFromArrowAsOwner_outcome cppSizeInBytes arrowSchema arrowArray pool st)
    as (wrap & st0 & ->).
  apply importFromArrowImpl_not_Ok, Hverdict.
Qed.

Lemma importFromArrowAsViewer_Undefined arrowSchema arrowArray pool st :
  importVerdict cppSizeInBytes arrowSchema arrowArray = Undefined ->
  (importFromArrowAsViewer cppSizeInBytes arrowSchema arrowArray pool st).2 = Undefined.
Proof. intros Hverdict. apply importFromArrowImpl_not_Ok, Hverdict. Qed.

(** The viewer entry point takes no reference: it leaves the store as it
    is in every outcome. *)
Lemma importFromArrowAsViewer_store arrowSchema arrowArray pool st :
  (importFromArrowAsViewer cppSizeInBytes arrowSchema arrowArray pool st).1 = st.
Proof.
  unfold importFromArrowAsViewer, importFromArrowImpl.
  destruct (importChecks arrowSchema arrowArray) as [type|e|]; [|reflexivity..].
  destruct (importNullsBuffer arrowArray) as [[buffer0|]|e|]; [| |reflexivity..];
    (destruct (importValuesBuffer cppSizeInBytes arrowArray type) as [[buffer1 length]|e|];
     [|reflexivity..]);
    destruct (kind type); reflexivity.
Qed.

(** X10.  The two entry points of the import differ in ownership only.
    The viewer leaves the store of shared nodes as it is, in every outcome;
    one throws exactly when the other does, and then the same exception; and
    when one returns a vector so does the other, and the two vectors are the
    same once the releasers of their buffer views are left aside. *)
Theorem import_modes_agree (arrowSchema : ArrowSchema.t) (arrowArray : ArrowArray.t)
    (pool : N) (st : Store) :
  (importFromArrowAsViewer cppSizeInBytes arrowSchema arrowArray pool st).1 = st /\
  (forall e,
      (importFromArrowAsViewer cppSizeInBytes arrowSchema arrowArray pool st).2 = Throw e <->
      (importFromArrowAsOwner cppSizeInBytes arrowSchema arrowArray pool st).2 = Throw e) /\
  (forall viewed,
      (importFromArrowAsViewer cppSizeInBytes arrowSchema arrowArray pool st).2 = Ok viewed ->
      exists owned,
        (importFromArrowAsOwner cppSizeInBytes arrowSchema arrowArray pool st).2 = Ok owned /\
        viewOf owned = viewed) /\
  (forall owned,
      (importFromArrowAsOwner cppSizeInBytes arrowSchema arrowArray pool st).2 = Ok owned ->
      (importFromArrowAsViewer cppSizeInBytes arrowSchema arrowArray pool st).2
      = Ok (viewOf owned)).
Proof.
  split; [apply importFromArrowAsViewer_store|].
  destruct (importVerdict cppSizeInBytes arrowSchema arrowArray)
    as [[[type nullsAddress] [buffer1 length]]|e0|] eqn:Hverdict.
  - destruct (imports_of_verdict _ _ _ pool st _ _ _ _ Hverdict)
      as (viewed & owned & result & -> & -> & Hview & _).
    cbn [snd]. split; [split; discriminate|]. split.
    + intros ? [= <-]. eauto.
    + intros ? [= <-]. congruence.
  - destruct (import_verdict_Throw _ _ _ pool st _ Hverdict) as [-> ->].
    split; [tauto|]. split; discriminate.
  - rewrite (importFromArrowAsViewer_Undefined _ _ pool st Hverdict).
    rewrite (importFromArrowAsOwner_Undefined _ _ pool st Hverdict).
    split; [tauto|]. split; discriminate.
Qed.

(** X11.  The vector that an import returns is the flat vector of the type
    that the schema describes, a scalar one.  It lives in the given pool,
    has as many elements as the array, a count that is not negative, and
    the null count of the array, unknown when the array has -1.  It has a
    nulls buffer exactly when the null count of the array is not zero, and
    its values view has the size [length * width] of the array, reduced
    modulo 2^64. *)
Theorem imported_vector_members (arrowSchema : ArrowSchema.t) (arrowArray : ArrowArray.t)
    (pool : N) (st st' : Store) (vector : VectorPtr) :
  importFromArrowAsViewer cppSizeInBytes arrowSchema arrowArray pool st = (st', Ok vector) ->
  exists type width values,
    importFromArrow arrowSchema = Ok type /\
    isSupportedScalar type = true /\
    cppSizeInBytes type = Ok width /\
    BaseVector.type vector = type /\
    BaseVector.pool vector = pool /\
    BaseVector.encoding vector = VectorEncoding.FLAT /\
    BaseVector.size vector = ArrowArray.length arrowArray /\
    (0 <= BaseVector.size vector)%Z /\
    BaseVector.getNullCount vector =
      (if (ArrowArray.null_count arrowArray =? -1)%Z then None
       else Some (ArrowArray.null_count arrowArray)) /\
    (BaseVector.nulls vector = None <-> ArrowArray.null_count arrowArray = 0%Z) /\
    BaseVector.values vector = Some values /\
    buffer_size values = ((ArrowArray.length arrowArray * width) mod 2 ^ 64)%Z.
Proof.
  intros Himport.
  destruct (importFromArrowAsViewer_inv _ _ _ _ _ _ _ Himport)
    as (type & nullsAddress & buffer1 & length & Hverdict).
  destruct (importVerdict_Ok_inv _ _ _ _ _ _ _ Hverdict)
    as (Hacc & Hschema & Hprim & Hnulls & _ & _ & width & Hwidth & ->).
  destruct (imports_of_verdict _ _ _ pool st _ _ _ _ Hverdict)
    as (viewed & owned & result & Hviewed & _ & _ & Hpool & Htype & Hencoding & Hlength
        & Hnullcount & _ & Hnullsview & Hvalues).
  rewrite Himport in Hviewed. injection Hviewed as _ ->.
  destruct Hacc as (_ & _ & _ & _ & _ & _ & Hpositive).
  exists type, width, (mkBufferView buffer1
                         ((to_size_t (ArrowArray.length arrowArray) * width) mod 2 ^ 64)%Z
                         kViewerReleaser).
  split; [exact Hschema|].
  split; [exact (importFromArrow_primitive_scalar _ _ Hschema Hprim)|].
  split; [exact Hwidth|]. split; [exact Htype|]. split; [exact Hpool|].
  split; [exact Hencoding|]. split; [exact Hlength|]. split; [rewrite Hlength; exact Hpositive|].
  split; [exact Hnullcount|]. split; [|split; [exact Hvalues|]].
  - rewrite Hnullsview. unfold importNullsBuffer in Hnulls.
    destruct (Z.eqb_spec (ArrowArray.null_count arrowArray) 0) as [Hzero|Hnonzero];
      cbn [negb] in Hnulls;
      destruct (ArrowArray.buffer arrowArray 0) as [buffer0| |]; try discriminate;
      cbn [bind] in Hnulls;
      destruct (buffer0 =? nullptr)%N; try discriminate;
      cbn in Hnulls; injection Hnulls as <-; split; congruence.
  - cbn [buffer_size]. unfold to_size_t.
    destruct (Z.ltb_spec (ArrowArray.length arrowArray) 0); [lia | reflexivity].
Qed.
End ImportModes.

(** X11, witness: the viewer import of the foreign int32 array. *)
Lemma imported_vector_members_witness :
  exists type width values,
    importFromArrow intSchema = Ok type /\
    isSupportedScalar type = true /\
    nativeWidth type = Ok width /\
    BaseVector.type viewedIntsVector = type /\
    BaseVector.pool viewedIntsVector = 0%N /\
    BaseVector.encoding viewedIntsVector = VectorEncoding.FLAT /\
    BaseVector.size viewedIntsVector = ArrowArray.length (intArray (-1)) /\
    (0 <= BaseVector.size viewedIntsVector)%Z /\
    BaseVector.getNullCount viewedIntsVector =
      (if (ArrowArray.null_count (intArray (-1)) =? -1)%Z then None
       else Some (ArrowArray.null_count (intArray (-1)))) /\
    (BaseVector.nulls viewedIntsVector = None <->
     ArrowArray.null_count (intArray (-1)) = 0%Z) /\
    BaseVector.values viewedIntsVector = Some values /\
    buffer_size values = ((ArrowArray.length (intArray (-1)) * width) mod 2 ^ 64)%Z.
Proof.
  apply (imported_vector_members nativeWidth intSchema (intArray (-1)) 0 emptyStore emptyStore
           viewedIntsVector).
  reflexivity.
Defined.

(** ** Ownership on the paths that the import leaves early, and between the
    views *)

Section OwnerPaths.
Variable cppSizeInBytes : TypePtr -> Outcome Z.

Ltac count_references :=
  repeat rewrite ?copySchemaReleaser_insert, ?copyArrayReleaser_insert;
  repeat rewrite ?dropArrayReleaser_shared, ?dropSchemaReleaser_shared;
  rewrite ?dropArrayReleaser_last by apply fresh_key_free;
  rewrite ?dropSchemaReleaser_last by apply fresh_key_free.

(** When a test of the import fails, the owner entry point drops the only
    references to the two copies it made: both deleters run. *)
Lemma importFromArrowAsOwner_Throw arrowSchema arrowArray pool st e :
  importVerdict cppSizeInBytes arrowSchema arrowArray = Throw e ->
  importFromArrowAsOwner cppSizeInBytes arrowSchema arrowArray pool st =
  ((arrowSchema, arrowArray,
    mkStore (schemaBlocks st) (arrayBlocks st)
      (schemaDeleter arrowSchema (arrayDeleter arrowArray (releaseCalls st)))),
   Throw e).
Proof.
  unfold importVerdict, importFromArrowAsOwner, importFromArrowImpl.
  cbn [newSchemaReleaser newArrayReleaser schemaBlocks arrayBlocks releaseCalls].
  destruct (importChecks arrowSchema arrowArray) as [type|e0|]; cbn [bind];
    [|intros [= ->]; count_references; reflexivity | discriminate].
  destruct (importNullsBuffer arrowArray) as [nullsAddress|e1|]; cbn [bind];
    [|intros [= ->]; count_references; reflexivity | discriminate].
  destruct (importValuesBuffer cppSizeInBytes arrowArray type) as [[buffer1 length]|e2|];
    cbn [bind]; [discriminate| |discriminate].
  intros [= ->].
  destruct nullsAddress as [buffer0|];
    cbn [wrapInBufferViewAsOwner BufferView_create destroyBuffer buffer_releaser];
    unfold destroyReleaser; cbn [schemaReleaser_ arrayReleaser_];
    count_references; reflexivity.
Qed.

(** X12.  When the owner import throws, the two structs of the caller are
    as they were, [release] included, and yet the release callbacks have
    been called: the deleters of the two copies that the function made have
    run, the one of the array first, each calling the callback of its copy
    if it has one; no control block is left behind. *)
Theorem owner_import_failure_releases (arrowSchema : ArrowSchema.t) (arrowArray : ArrowArray.t)
    (pool : N) (st : Store) (arrowSchema' : ArrowSchema.t) (arrowArray' : ArrowArray.t)
    (st' : Store) (e : Exception) :
  importFromArrowAsOwner cppSizeInBytes arrowSchema arrowArray pool st
  = ((arrowSchema', arrowArray', st'), Throw e) ->
  arrowSchema' = arrowSchema /\
  arrowArray' = arrowArray /\
  schemaBlocks st' = schemaBlocks st /\
  arrayBlocks st' = arrayBlocks st /\
  releaseCalls st' = schemaDeleter arrowSchema (arrayDeleter arrowArray (releaseCalls st)) /\
  (forall schemaCallback arrayCallback,
      ArrowSchema.release arrowSchema = Some schemaCallback ->
      ArrowArray.release arrowArray = Some arrayCallback ->
      releaseCalls st' =
        releaseCalls st ++ [ArrayReleaseCall arrayCallback arrowArray;
                            SchemaReleaseCall schemaCallback arrowSchema]) /\
  (ArrowSchema.release arrowSchema = None ->
   forall arrayCallback,
     ArrowArray.release arrowArray = Some arrayCallback ->
     releaseCalls st' = releaseCalls st ++ [ArrayReleaseCall arrayCallback arrowArray]).
Proof.
  intros Himport.
  destruct (importVerdict cppSizeInBytes arrowSchema arrowArray)
    as [[[type nullsAddress] [buffer1 length]]|e0|] eqn:Hverdict.
  - rewrite (importFromArrowAsOwner_Ok _ _ _ pool st _ _ _ _ Hverdict) in Himport.
    discriminate.
  - rewrite (importFromArrowAsOwner_Throw _ _ pool st _ Hverdict) in Himport.
    injection Himport as <- <- <- <-. cbn [schemaBlocks arrayBlocks releaseCalls].
    repeat split.
    + intros schemaCallback arrayCallback Hs Ha. unfold schemaDeleter, arrayDeleter.
      rewrite Hs, Ha, <- app_assoc. reflexivity.
    + intros Hs arrayCallback Ha. unfold schemaDeleter, arrayDeleter.
      rewrite Hs, Ha. reflexivity.
  - pose proof (importFromArrowAsOwner_Undefined _ _ _ pool st Hverdict) as Hundefined.
    rewrite Himport in Hundefined. discriminate.
Qed.

(** X13.  The two views of an owner import with a nulls buffer share the
    ownership of the two structs.  Each control block counts two
    references; destroying one view alone, whichever, calls no release
    callback and leaves both blocks with one reference; and destroying the
    two views in either order ends in the same store, in which each
    callback has been called once and the blocks are gone. *)
Theorem owner_views_share_ownership (arrowSchema : ArrowSchema.t) (arrowArray : ArrowArray.t)
    (pool : N) (st : Store) (arrowSchema' : ArrowSchema.t) (arrowArray' : ArrowArray.t)
    (st' : Store) (vector : VectorPtr) :
  importFromArrowAsOwner cppSizeInBytes arrowSchema arrowArray pool st
  = ((arrowSchema', arrowArray', st'), Ok vector) ->
  BaseVector.nulls vector <> None ->
  let schemaKey := fresh (dom (schemaBlocks st)) in
  let arrayKey := fresh (dom (arrayBlocks st)) in
  schemaBlocks st' !! schemaKey = Some (mkBlock arrowSchema 2) /\
  arrayBlocks st' !! arrayKey = Some (mkBlock arrowArray 2) /\
  (forall view,
      view = BaseVector.nulls vector \/ view = BaseVector.values vector ->
      releaseCalls (destroyBuffer view st') = releaseCalls st /\
      schemaBlocks (destroyBuffer view st') !! schemaKey = Some (mkBlock arrowSchema 1) /\
      arrayBlocks (destroyBuffer view st') !! arrayKey = Some (mkBlock arrowArray 1)) /\
  destroyBuffer (BaseVector.nulls vector) (destroyBuffer (BaseVector.values vector) st')
  = destroyBuffer (BaseVector.values vector) (destroyBuffer (BaseVector.nulls vector) st') /\
  destroyBuffer (BaseVector.nulls vector) (destroyBuffer (BaseVector.values vector) st')
  = mkStore (schemaBlocks st) (arrayBlocks st)
      (schemaDeleter arrowSchema (arrayDeleter arrowArray (releaseCalls st))).
Proof.
  intros Himport Hnulls schemaKey arrayKey.
  destruct (importFromArrowAsOwner_inv _ _ _ _ _ _ _ Himport)
    as (type & nullsAddress & buffer1 & length & Hverdict).
  rewrite (importFromArrowAsOwner_Ok _ _ _ pool st _ _ _ _ Hverdict) in Himport.
  injection Himport as <- <- <- <-.
  destruct nullsAddress as [buffer0|]; [|contradiction Hnulls; reflexivity].
  fold schemaKey arrayKey.
  cbn [importedVector createFlatVector BaseVector.nulls BaseVector.values viewCount
       schemaBlocks arrayBlocks].
  split; [apply lookup_insert_eq|]. split; [apply lookup_insert_eq|].
  assert (Hone :
    forall data size,
      destroyBuffer (Some (mkBufferView data size (mkReleaser (Some schemaKey) (Some arrayKey))))
        (mkStore (<[schemaKey := mkBlock arrowSchema 2]> (schemaBlocks st))
           (<[arrayKey := mkBlock arrowArray 2]> (arrayBlocks st)) (releaseCalls st))
      = mkStore (<[schemaKey := mkBlock arrowSchema 1]> (schemaBlocks st))
          (<[arrayKey := mkBlock arrowArray 1]> (arrayBlocks st)) (releaseCalls st)).
  { intros data size. cbn [destroyBuffer buffer_releaser]. unfold destroyReleaser.
    cbn [schemaReleaser_ arrayReleaser_].
    rewrite dropArrayReleaser_shared, dropSchemaReleaser_shared. reflexivity. }
  assert (Hlast :
    forall data size,
      destroyBuffer (Some (mkBufferView data size (mkReleaser (Some schemaKey) (Some arrayKey))))
        (mkStore (<[schemaKey := mkBlock arrowSchema 1]> (schemaBlocks st))
           (<[arrayKey := mkBlock arrowArray 1]> (arrayBlocks st)) (releaseCalls st))
      = mkStore (schemaBlocks st) (arrayBlocks st)
          (schemaDeleter arrowSchema (arrayDeleter arrowArray (releaseCalls st)))).
  { intros data size. cbn [destroyBuffer buffer_releaser]. unfold destroyReleaser.
    cbn [schemaReleaser_ arrayReleaser_].
    rewrite dropArrayReleaser_last by apply fresh_key_free.
    rewrite dropSchemaReleaser_last by apply fresh_key_free. reflexivity. }
  split; [|split].
  - intros view [-> | ->]; rewrite Hone; cbn [releaseCalls schemaBlocks arrayBlocks];
      (split; [reflexivity|]); split; apply lookup_insert_eq.
  - rewrite !Hone, !Hlast. reflexivity.
  - rewrite Hone, Hlast. reflexivity.
Qed.
End OwnerPaths.

(** X12, witness: the owner import of the int32 schema with the array of
    strings, which has three buffers. *)
Lemma owner_import_failure_releases_witness :
  releaseCalls (importFromArrowAsOwner nativeWidth intSchema stringArray 0 emptyStore).1.2 =
  [] ++ [ArrayReleaseCall (ForeignCallback 6) stringArray;
         SchemaReleaseCall (ForeignCallback 5) intSchema].
Proof.
  pose proof (owner_import_failure_releases nativeWidth intSchema stringArray 0 emptyStore
                intSchema stringArray
                (importFromArrowAsOwner nativeWidth intSchema stringArray 0 emptyStore).1.2
                bufferCountError) as H.
  destruct H as (_ & _ & _ & _ & _ & Hcalls & _); [reflexivity|].
  apply (Hcalls (ForeignCallback 5) (ForeignCallback 6)); reflexivity.
Defined.

(** X13, witness: the owner import of the int32 array with an unknown null
    count. *)
Lemma owner_views_share_ownership_witness :
  destroyBuffer (BaseVector.nulls ownedIntsVector)
    (destroyBuffer (BaseVector.values ownedIntsVector) ownedInts.1.2)
  = mkStore (schemaBlocks emptyStore) (arrayBlocks emptyStore)
      (schemaDeleter intSchema (arrayDeleter (intArray (-1)) (releaseCalls emptyStore))).
Proof.
  pose proof (owner_views_share_ownership nativeWidth intSchema (intArray (-1)) 0 emptyStore
                ownedInts.1.1.1 ownedInts.1.1.2 ownedInts.1.2 ownedIntsVector) as H.
  destruct H as (_ & _ & _ & _ & Hboth).
  - apply ownedInts_eq.
  - discriminate.
  - exact Hboth.
Defined.

(** ** What the schema importer reads, and what it rejects *)

(** An induction principle that reaches the nodes in the child slots. *)
Section ArrowSchema_induction.
Variable P : ArrowSchema.t -> Prop.
Hypothesis Hnode :
  forall s,
    match ArrowSchema.children s with
    | Some slots =>
        Forall (fun slot => match slot with Some c => P c | None => True end) slots
    | None => True
    end ->
    P s.

Lemma ArrowSchema_ind_children : forall s, P s.
Proof.
  fix IH 1. intros s. apply Hnode.
  destruct s as [fmt nm md fl n [slots|] dict rel pd]; cbn; [|exact I].
  induction slots as [|slot slots IHslots]; constructor.
  - destruct slot as [c|]; [apply IH | exact I].
  - exact IHslots.
Qed.
End ArrowSchema_induction.

Section SchemaImporter.
Import ArrowSchema.
Variable foreignSchemaRelease : N -> ArrowSchema.t -> ArrowSchema.t.

Lemma importChildren_exportable (import : ArrowSchema.t -> Outcome TypePtr)
    (slots : list (option ArrowSchema.t)) :
  Forall (fun slot =>
            match slot with
            | Some c => forall type, import c = Ok type -> exportable type = true
            | None => True
            end) slots ->
  forall todo fields,
    importChildren import todo slots = Ok fields ->
    forallb (fun f => exportable f.2) fields = true.
Proof.
  induction 1 as [|slot slots Hslot _ IH]; intros todo fields; cbn [importChildren].
  - destruct (todo <=? 0)%Z; [intros [= <-]; reflexivity | discriminate].
  - destruct (todo <=? 0)%Z; [intros [= <-]; reflexivity|].
    destruct slot as [c|]; [|discriminate].
    destruct (import c) as [childType| |] eqn:Hc; cbn [bind]; [|discriminate..].
    destruct (importChildren import (todo - 1) slots) as [rest| |] eqn:Hrest;
      cbn [bind]; [|discriminate..].
    intros [= <-]. cbn. rewrite (Hslot _ eq_refl), (IH _ _ Hrest). reflexivity.
Qed.

(** Every type that the importer returns is one that the exporter takes. *)
Lemma importFromArrow_exportable (arrowSchema : ArrowSchema.t) :
  forall type, importFromArrow arrowSchema = Ok type -> exportable type = true.
Proof.
  induction arrowSchema as [s IH] using ArrowSchema_ind_children. intros type.
  rewrite importFromArrow_unfold.
  destruct (format s) as [f|]; [|discriminate]. cbv zeta.
  repeat match goal with
         | |- Ok _ = Ok _ -> _ => intros [= <-]; reflexivity
         | |- importFailure _ = Ok _ -> _ => discriminate
         | |- Throw _ = Ok _ -> _ => discriminate
         | |- (if ?b then _ else _) = Ok _ -> _ => destruct b
         end.
  - destruct (children s) as [[|[c|] rest]|]; try discriminate.
    inversion IH as [|? ? Hc _]; subst.
    destruct (importFromArrow c) as [elementType| |]; cbn [bind]; [|discriminate..].
    intros [= <-]. cbn. apply Hc. reflexivity.
  - destruct (children s) as [[|[k|] [|[v|] rest]]|]; try discriminate.
    inversion IH as [|? ? Hk Hrest]; subst. inversion Hrest as [|? ? Hv _]; subst.
    destruct (importFromArrow v) as [valueType| |]; cbn [bind]; [|discriminate..].
    destruct (importFromArrow k) as [keyType| |]; cbn [bind]; [|discriminate..].
    intros [= <-]. cbn. rewrite (Hk _ eq_refl), (Hv _ eq_refl). reflexivity.
  - destruct (children s) as [slots|].
    + destruct (importChildren importFromArrow (to_size_t (n_children s)) slots)
        as [fields| |] eqn:Hfields; cbn [bind]; [|discriminate..].
      intros [= <-]. cbn [exportable].
      apply (importChildren_exportable importFromArrow slots IH _ _ Hfields).
    + destruct (to_size_t (n_children s) <=? 0)%Z; cbn [bind]; [|discriminate].
      intros [= <-]. reflexivity.
Qed.

(** X14.  A type that the schema importer has returned is never refused by
    the schema exporter: the export of the imported type succeeds, and the
    import of the exported schema gives the type again, its field names cut
    at their first NUL character. *)
Theorem imported_type_is_exportable (arrowSchema init : ArrowSchema.t) (type : TypePtr) :
  importFromArrow arrowSchema = Ok type ->
  exportable type = true /\
  exists exported,
    exportToArrow_type foreignSchemaRelease type init = (exported, Ok tt) /\
    importFromArrow exported = Ok (cNamed type).
Proof.
  intros Himport.
  pose proof (importFromArrow_exportable _ _ Himport) as Hexp.
  split; [exact Hexp|]. exists (schemaOf None type).
  split; [apply exportToArrow_type_exportable, Hexp | apply importFromArrow_schemaOf, Hexp].
Qed.

Lemma isChar_outside (c : ascii) (alphabet : list ascii) :
  ~ In c alphabet ->
  forall l, In l alphabet -> Ascii.eqb c l = false.
Proof. intros Hout l Hl. apply Ascii.eqb_neq. intros ->. contradiction. Qed.

(** X15.  Formats outside the table are refused with the user error of the
    importer, whatever else the struct holds: a format whose first character
    is none of [bcsilfguUzZt+], the empty format included; a format that
    starts with [t] and goes on with neither [tn] nor [dD]; and a format
    that starts with [+] and goes on with none of [L], [m] and [s].  A null
    format fails the check on the pointer. *)
Theorem import_unknown_format (arrowSchema : ArrowSchema.t) :
  (format arrowSchema = None ->
   importFromArrow arrowSchema = Throw (mkException VELOX_CHECK "format")) /\
  (forall f,
      format arrowSchema = Some f ->
      ~ In (charAt f 0) formatAlphabet ->
      importFromArrow arrowSchema = importFailure f) /\
  (forall f,
      format arrowSchema = Some f ->
      charAt f 0 = "t"%char ->
      ~ (charAt f 1 = "t"%char /\ charAt f 2 = "n"%char) ->
      ~ (charAt f 1 = "d"%char /\ charAt f 2 = "D"%char) ->
      importFromArrow arrowSchema = importFailure f) /\
  (forall f,
      format arrowSchema = Some f ->
      charAt f 0 = "+"%char ->
      ~ In (charAt f 1) (list_ascii_of_string "Lms") ->
      importFromArrow arrowSchema = importFailure f).
Proof.
  rewrite importFromArrow_unfold. split; [intros ->; reflexivity|]. split; [|split].
  - intros f -> Hout. cbv zeta. unfold isChar.
    rewrite !(isChar_outside _ _ Hout) by (cbn; auto 20). reflexivity.
  - intros f -> Hfirst Htimestamp Hdate. cbv zeta. rewrite Hfirst. cbn -[charAt].
    destruct (Ascii.eqb_spec (charAt f 1) "t") as [H1|_];
      [destruct (Ascii.eqb_spec (charAt f 2) "n") as [H2|_]; [tauto|]|];
      (destruct (Ascii.eqb_spec (charAt f 1) "d") as [H3|_];
       [destruct (Ascii.eqb_spec (charAt f 2) "D") as [H4|_]; [tauto|]|]);
      reflexivity.
  - intros f -> Hfirst Hout. cbv zeta. rewrite Hfirst. unfold isChar at 1 2 3 4 5 6 7 8 9 10 11 12 13.
    cbn -[charAt isChar]. unfold isChar.
    rewrite !(isChar_outside _ _ Hout) by (cbn; auto 20). reflexivity.
Qed.
End SchemaImporter.

(** X14, witness: a foreign schema of large strings. *)
Lemma imported_type_is_exportable_witness :
  exportable VARCHAR = true /\
  exists exported,
    exportToArrow_type compliantSchemaRelease VARCHAR staleSchema = (exported, Ok tt) /\
    importFromArrow exported = Ok (cNamed VARCHAR).
Proof.
  apply (imported_type_is_exportable compliantSchemaRelease
           (ArrowSchema.set_format (Some "U") stringSchema) staleSchema VARCHAR).
  reflexivity.
Defined.

(** X15, witness: the format of a decimal, and the one of a fixed-size
    list. *)
Lemma import_unknown_format_witness :
  importFromArrow (ArrowSchema.set_format (Some "d:19,10") intSchema)
  = importFailure "d:19,10" /\
  importFromArrow (ArrowSchema.set_format (Some "+w:3") intSchema) = importFailure "+w:3".
Proof.
  split.
  - apply (proj1 (proj2 (import_unknown_format
                           (ArrowSchema.set_format (Some "d:19,10") intSchema)))
             "d:19,10"); [reflexivity|].
    intros Hin. vm_compute in Hin. repeat destruct Hin as [Hin|Hin]; try discriminate Hin.
    exact Hin.
  - apply (proj2 (proj2 (proj2 (import_unknown_format
                                  (ArrowSchema.set_format (Some "+w:3") intSchema))))
             "+w:3"); [reflexivity | reflexivity |].
    intros Hin. vm_compute in Hin. repeat destruct Hin as [Hin|Hin]; try discriminate Hin.
    exact Hin.
Defined.

Section StructImport.
Import ArrowSchema.

Lemma importChildren_first_failure (import : ArrowSchema.t -> Outcome TypePtr)
    (good rest : list (option ArrowSchema.t)) (bad : option ArrowSchema.t) :
  Forall (fun slot => exists c type, slot = Some c /\ import c = Ok type) good ->
  forall todo,
    (Z.of_nat (List.length good) < todo)%Z ->
    importChildren import todo (good ++ bad :: rest) =
    match bad with
    | None => Throw (mkException VELOX_CHECK "arrowSchema.children[i]")
    | Some c =>
        match import c with
        | Ok childType =>
            do fields <- importChildren import todo (good ++ bad :: rest); Ok fields
        | Throw e => Throw e
        | Undefined => Undefined
        end
    end.
Proof.
  induction 1 as [|slot good (c & type & -> & Hc) _ IH]; intros todo Htodo.
  - cbn [app importChildren]. cbn in Htodo.
    destruct (Z.leb_spec todo 0) as [Hle|_]; [lia|].
    destruct bad as [c|]; [|reflexivity].
    destruct (import c) as [childType|e|]; cbn [bind]; [|reflexivity..].
    destruct (importChildren import (todo - 1) rest); reflexivity.
  - cbn [app importChildren]. cbn [List.length] in Htodo.
    destruct (Z.leb_spec todo 0) as [Hle|_]; [lia|].
    rewrite Hc. cbn [bind]. rewrite IH by lia.
    destruct bad as [c'|]; [|reflexivity].
    destruct (import c') as [childType|e|]; cbn [bind]; [|reflexivity..].
    destruct (importChildren import (todo - 1) (good ++ Some c' :: rest)); reflexivity.
Qed.

(** X16.  The import of a struct schema whose [n_children] counts no more
    slots than its children array has stops at its first bad child.  When
    the slots before one of the first [n_children] slots hold children that
    are imported, a null pointer in that slot makes the import throw the
    exception of the check on the child pointer, and a child whose own
    import throws makes the import of the struct throw the same exception,
    whatever the slots after it hold. *)
Theorem struct_import_first_failure (arrowSchema : ArrowSchema.t) (f : string)
    (good rest : list (option ArrowSchema.t)) (bad : option ArrowSchema.t) :
  format arrowSchema = Some f ->
  charAt f 0 = "+"%char ->
  charAt f 1 = "s"%char ->
  children arrowSchema = Some (good ++ bad :: rest) ->
  (Z.of_nat (List.length good) < n_children arrowSchema)%Z ->
  (n_children arrowSchema <= Z.of_nat (List.length (good ++ bad :: rest)))%Z ->
  Forall (fun slot => exists c type, slot = Some c /\ importFromArrow c = Ok type) good ->
  (bad = None ->
   importFromArrow arrowSchema = Throw (mkException VELOX_CHECK "arrowSchema.children[i]")) /\
  (forall c e,
      bad = Some c ->
      importFromArrow c = Throw e ->
      importFromArrow arrowSchema = Throw e).
Proof.
  intros Hformat Hfirst Hsecond Hchildren Hcount Hslots Hgood.
  rewrite importFromArrow_unfold, Hformat. cbv zeta. rewrite Hfirst, Hsecond, Hchildren.
  cbn -[importChildren importFromArrow Z.leb to_size_t].
  destruct (Z.leb_spec 0 (n_children arrowSchema)) as [_|Hneg]; [|lia].
  rewrite (importChildren_first_failure importFromArrow good rest bad Hgood)
    by (unfold to_size_t; destruct (Z.ltb_spec (n_children arrowSchema) 0); lia).
  split.
  - intros ->. reflexivity.
  - intros c e -> ->. reflexivity.
Qed.

Ltac known_code c :=
  repeat match goal with
         | |- context [isChar c ?l] =>
             let v := eval vm_compute in (isChar c l) in
             change (isChar c l) with v
         end;
  cbn [orb]; cbv iota.

Ltac alike_imports :=
  first [ left; reflexivity
        | right; split; reflexivity
        | match goal with
          | |- (if ?b then _ else _) = _ \/ _ => destruct b; alike_imports
          end ].

(** X17.  The importer looks at no more of a struct than the code of its
    format asks for.  Two structs whose formats start with the same
    character are imported alike when that character is neither [t] nor
    [+], whatever follows it and whatever children the structs have; when
    it is [t] and the next two characters agree; and when it is [+], the
    next character agrees, and the structs have the same children.  Alike
    means that the two imports have the same outcome, or that each is
    refused with the user error, whose message carries the whole of its own
    format. *)
Theorem import_reads_format_prefix (arrowSchema other : ArrowSchema.t) (f g : string) :
  format arrowSchema = Some f ->
  format other = Some g ->
  charAt f 0 = charAt g 0 ->
  (charAt f 0 <> "t"%char /\ charAt f 0 <> "+"%char) \/
  (charAt f 0 = "t"%char /\ charAt f 1 = charAt g 1 /\ charAt f 2 = charAt g 2) \/
  (charAt f 0 = "+"%char /\ charAt f 1 = charAt g 1 /\
   n_children arrowSchema = n_children other /\ children arrowSchema = children other) ->
  importFromArrow arrowSchema = importFromArrow other \/
  (importFromArrow arrowSchema = importFailure f /\
   importFromArrow other = importFailure g).
Proof.
  intros Hf Hg H0 Hcases.
  rewrite (importFromArrow_unfold arrowSchema), (importFromArrow_unfold other), Hf, Hg.
  cbv zeta. rewrite <- H0.
  destruct Hcases as [[Htemporal Hcomposite] | [(-> & <- & <-) | (-> & <- & <- & <-)]].
  - replace (isChar (charAt f 0) "t") with false by (symmetry; apply Ascii.eqb_neq, Htemporal).
    replace (isChar (charAt f 0) "+") with false by (symmetry; apply Ascii.eqb_neq, Hcomposite).
    alike_imports.
  - known_code "t"%char. alike_imports.
  - known_code "+"%char. alike_imports.
Qed.
End StructImport.

(** The foreign int32 schema is one that the importer takes. *)
Lemma foreignStruct_imports_int :
  Forall (fun slot => exists c type, slot = Some c /\ importFromArrow c = Ok type)
    [Some intSchema].
Proof. constructor; [|constructor]. exists intSchema, INTEGER. split; reflexivity. Defined.

(** X16, witness: a struct whose second slot is null, and one whose second
    child has the format of a decimal. *)
Lemma struct_import_first_failure_witness :
  importFromArrow
    (ArrowSchema.mk (Some "+s") None None 0 3 (Some ([Some intSchema] ++ None :: [None]))
       None (Some (ForeignCallback 5)) None)
  = Throw (mkException VELOX_CHECK "arrowSchema.children[i]") /\
  importFromArrow
    (ArrowSchema.mk (Some "+s") None None 0 2
       (Some ([Some intSchema]
              ++ Some (ArrowSchema.set_format (Some "d:19,10") intSchema) :: []))
       None (Some (ForeignCallback 5)) None)
  = importFailure "d:19,10".
Proof.
  split.
  - apply (proj1 (struct_import_first_failure
                    (ArrowSchema.mk (Some "+s") None None 0 3
                       (Some ([Some intSchema] ++ None :: [None]))
                       None (Some (ForeignCallback 5)) None)
                    "+s" [Some intSchema] [None] None
                    eq_refl eq_refl eq_refl eq_refl eq_refl
                    ltac:(vm_compute; discriminate) foreignStruct_imports_int)).
    reflexivity.
  - apply (proj2 (struct_import_first_failure
                    (ArrowSchema.mk (Some "+s") None None 0 2
                       (Some ([Some intSchema]
                              ++ Some (ArrowSchema.set_format (Some "d:19,10") intSchema) :: []))
                       None (Some (ForeignCallback 5)) None)
                    "+s" [Some intSchema] []
                    (Some (ArrowSchema.set_format (Some "d:19,10") intSchema))
                    eq_refl eq_refl eq_refl eq_refl eq_refl
                    ltac:(vm_compute; discriminate) foreignStruct_imports_int)
             (ArrowSchema.set_format (Some "d:19,10") intSchema)); reflexivity.
Defined.

(** X17, witness: the format "integer" on a struct with a child is imported
    like the format "i" on a struct without one. *)
Lemma import_reads_format_prefix_witness :
  importFromArrow
    (ArrowSchema.mk (Some "integer") None None 0 1 (Some [Some stringSchema]) None
       (Some (ForeignCallback 5)) None)
  = importFromArrow intSchema \/
  (importFromArrow
     (ArrowSchema.mk (Some "integer") None None 0 1 (Some [Some stringSchema]) None
        (Some (ForeignCallback 5)) None)
   = importFailure "integer" /\
   importFromArrow intSchema = importFailure "i").
Proof.
  apply (import_reads_format_prefix
           (ArrowSchema.mk (Some "integer") None None 0 1 (Some [Some stringSchema]) None
              (Some (ForeignCallback 5)) None)
           intSchema "integer" "i"); try reflexivity.
  left. split; discriminate.
Defined.

Section StructImportSuccess.
Import ArrowSchema.

Lemma importChildren_all (import : ArrowSchema.t -> Outcome TypePtr)
    (nodes : list ArrowSchema.t) (types : list TypePtr) (rest : list (option ArrowSchema.t)) :
  Forall2 (fun c type => import c = Ok type) nodes types ->
  importChildren import (Z.of_nat (List.length nodes)) (map Some nodes ++ rest)
  = Ok (zip_with (fun c type => (default "" (name c), type)) nodes types).
Proof.
  induction 1 as [|c type nodes types Hc _ IH].
  - cbn. destruct rest; reflexivity.
  - cbn [map app importChildren List.length zip_with].
    destruct (Z.leb_spec (Z.of_nat (S (List.length nodes))) 0) as [Hle|_]; [lia|].
    rewrite Hc. cbn [bind].
    replace (Z.of_nat (S (List.length nodes)) - 1)%Z with (Z.of_nat (List.length nodes))
      by lia.
    rewrite IH. reflexivity.
Qed.

(** X18.  The import of a struct schema whose first [n_children] slots
    hold children that are imported is the row of the types of these
    children, in the order of the slots; each field has the name of its
    child, the empty name for a child whose [name] is null; slots after the
    first [n_children] are not read, and nothing of the struct but its
    format and its children is. *)
Theorem struct_import_fields (arrowSchema : ArrowSchema.t) (f : string)
    (nodes : list ArrowSchema.t) (types : list TypePtr) (rest : list (option ArrowSchema.t)) :
  format arrowSchema = Some f ->
  charAt f 0 = "+"%char ->
  charAt f 1 = "s"%char ->
  children arrowSchema = Some (map Some nodes ++ rest) ->
  n_children arrowSchema = Z.of_nat (List.length nodes) ->
  Forall2 (fun c type => importFromArrow c = Ok type) nodes types ->
  importFromArrow arrowSchema
  = Ok (ROW (zip_with (fun c type => (default "" (name c), type)) nodes types)).
Proof.
  intros Hformat Hfirst Hsecond Hchildren Hcount Hnodes.
  rewrite importFromArrow_unfold, Hformat. cbv zeta. rewrite Hfirst, Hsecond, Hchildren, Hcount.
  cbn -[importChildren importFromArrow Z.leb to_size_t Z.of_nat].
  destruct (Z.leb_spec 0 (Z.of_nat (List.length nodes))) as [_|Hneg]; [|lia].
  replace (to_size_t (Z.of_nat (List.length nodes))) with (Z.of_nat (List.length nodes))
    by (unfold to_size_t; destruct (Z.ltb_spec (Z.of_nat (List.length nodes)) 0); lia).
  rewrite (importChildren_all importFromArrow nodes types rest Hnodes). reflexivity.
Qed.
End StructImportSuccess.

(** X18, witness: a struct of a named int32 child and an unnamed string
    child, with a third slot that [n_children] does not count. *)
Lemma struct_import_fields_witness :
  importFromArrow
    (ArrowSchema.mk (Some "+s") None None 0 2
       (Some (map Some [ArrowSchema.set_name (Some "id") intSchema;
                        ArrowSchema.set_name None stringSchema] ++ [None]))
       None (Some (ForeignCallback 5)) None)
  = Ok (ROW [("id", INTEGER); ("", VARCHAR)]).
Proof.
  apply (struct_import_fields
           (ArrowSchema.mk (Some "+s") None None 0 2
              (Some (map Some [ArrowSchema.set_name (Some "id") intSchema;
                               ArrowSchema.set_name None stringSchema] ++ [None]))
              None (Some (ForeignCallback 5)) None)
           "+s"
           [ArrowSchema.set_name (Some "id") intSchema; ArrowSchema.set_name None stringSchema]
           [INTEGER; VARCHAR] [None]); try reflexivity.
  repeat constructor.
Defined.

(** ** The format table and the struct of an exported array *)

(** X19.  No two kinds share a format string: two types to which the
    exporter gives the same format are of the same kind, and the importer
    reads the format of a scalar type back as that type. *)
Theorem format_strings_distinguish_kinds (type other : TypePtr) (f : string) :
  exportArrowFormatStr type = Ok f ->
  exportArrowFormatStr other = Ok f ->
  kind type = kind other /\
  (isSupportedScalar type = true ->
   forall arrowSchema,
     ArrowSchema.format arrowSchema = Some f -> importFromArrow arrowSchema = Ok type).
Proof.
  intros Htype Hother. split.
  - destruct type; destruct other; cbn in Htype, Hother; try discriminate;
      try reflexivity; rewrite <- Htype in Hother; discriminate.
  - intros Hscalar arrowSchema Hformat. rewrite importFromArrow_unfold, Hformat.
    destruct type; try discriminate; cbn in Htype; injection Htype as <-; reflexivity.
Qed.

(** X19, witness: the format of a date. *)
Lemma format_strings_distinguish_kinds_witness :
  kind DATE = kind DATE /\
  (isSupportedScalar DATE = true ->
   forall arrowSchema,
     ArrowSchema.format arrowSchema = Some "tdD" -> importFromArrow arrowSchema = Ok DATE).
Proof.
  apply (format_strings_distinguish_kinds DATE DATE "tdD"); reflexivity.
Defined.

(** X20.  A successful export of a vector writes every member of the
    struct: what it leaves does not depend on what the struct held.  The
    struct holds the release function of the bridge, and its [private_data]
    is a holder that keeps the exported vector, so that the buffers stay
    alive until the release; the release of the struct succeeds and leaves
    it released. *)
Theorem array_export_overwrites_struct (foreignArrayRelease : N -> ArrowArray.t -> ArrowArray.t)
    (vector : VectorPtr) (init a : ArrowArray.t) :
  exportToArrow_vector vector init = (a, Ok tt) ->
  (forall other, exportToArrow_vector vector other = (a, Ok tt)) /\
  ArrowArray.release a = Some BridgeCallback /\
  ArrowArray.private_data a = Some (ArrayHolder (mkArrayHolder vector)) /\
  ArrowArray.children a = None /\
  exists a',
    bridgeRelease foreignArrayRelease a = (a', Ok tt) /\
    ArrowArray.released a'.
Proof.
  intros Hexport.
  destruct (exportToArrow_vector_inv _ _ _ Hexport) as (Hflat & Hkind & ->).
  split; [intros other; apply exportToArrow_vector_flat; assumption|].
  repeat split. eexists. split; [reflexivity|]. split; reflexivity.
Qed.

(** X20, witness: the export of five int32 values. *)
Lemma array_export_overwrites_struct_witness :
  ArrowArray.private_data (exportToArrow_vector fiveInts staleArray).1
  = Some (ArrayHolder (mkArrayHolder fiveInts)).
Proof.
  apply (array_export_overwrites_struct compliantArrayRelease fiveInts staleArray
           (exportToArrow_vector fiveInts staleArray).1).
  reflexivity.
Defined.

(** X10, witness: the two imports of the foreign int32 array. *)
Lemma import_modes_agree_witness :
  (importFromArrowAsViewer nativeWidth intSchema (intArray (-1)) 0 emptyStore).2
  = Ok (viewOf ownedIntsVector).
Proof.
  apply (proj2 (proj2 (proj2 (import_modes_agree nativeWidth intSchema (intArray (-1)) 0
                                emptyStore)))).
  reflexivity.
Defined.
